(** * The buffered append-blob writer of the heartbeat reader

    A shallow embedding of [app/lib/BlobWriter.py], [app/blob_data_handler.py]
    and [app/lib/tenant_connect/manager_blob.py], with the Python built-ins
    they rely on, followed by the properties of the flush pipeline:
    draining, partitioning, packet sizing, target naming, dispatch and stop;
    then [process_message] of [app/main.py], the start of the tenants'
    writers, and what else the methods of the writer do. *)

From Stdlib Require Import ZArith List String Ascii Bool Lia Permutation DecimalString.
From stdpp Require Import gmap strings.
Import ListNotations.

Set Warnings "-register-all".

(** ** Python values and built-ins *)

Module Py.

(** The exceptions the modelled code can meet.  [AzureError] stands for what
    the storage SDK raises (HttpResponseError and its subclasses). *)
Inductive exn :=
| KeyError (key : string)
| TypeError
| AttributeError
| IndexError
| ValueError
| ZeroDivisionError
| AzureError (reason : string).

Inductive result (A : Type) :=
| Ok (a : A)
| Raise (e : exn).
Arguments Ok {A} a.
Arguments Raise {A} e.

Definition rbind {A B} (r : result A) (k : A -> result B) : result B :=
  match r with
  | Ok a => k a
  | Raise e => Raise e
  end.

Declare Scope result_scope.
Delimit Scope result_scope with result.
Notation "'let?' x ':=' r 'in' k" := (rbind r (fun x => k))
  (at level 10, x pattern, r at level 100, k at level 200) : result_scope.

(** A decoded JSON document as Python sees it.  A [str] is a sequence of code
    points below 256; numbers are integers (no float occurs in the fields the
    writer inspects); a [dict] keeps its insertion order. *)
Inductive pyval :=
| PyNone
| PyBool (b : bool)
| PyInt (z : Z)
| PyStr (s : string)
| PyList (l : list pyval)
| PyDict (d : list (string * pyval)).

Definition quote : ascii := "034"%char.
Definition apostrophe : ascii := "039"%char.
Definition backslash : ascii := "092"%char.
Definition newline : ascii := "010"%char.

Definition str1 (c : ascii) : string := String c EmptyString.

(** [d.get(k)] on the association list of a dict. *)
Fixpoint dict_get (k : string) (d : list (string * pyval)) : option pyval :=
  match d with
  | [] => None
  | (k', v) :: d' => if String.eqb k k' then Some v else dict_get k d'
  end.

(** [v[k]] with a string key: [KeyError] on a dict without the key,
    [TypeError] on anything that is not a dict. *)
Definition subscript (v : pyval) (k : string) : result pyval :=
  match v with
  | PyDict d =>
      match dict_get k d with
      | Some x => Ok x
      | None => Raise (KeyError k)
      end
  | _ => Raise TypeError
  end.

(** [s.split(sep)] for a one-character separator: never empty. *)
Fixpoint split_on (sep : ascii) (s : string) : list string :=
  match s with
  | EmptyString => [EmptyString]
  | String c s' =>
      if Ascii.eqb c sep then EmptyString :: split_on sep s'
      else match split_on sep s' with
           | h :: t => String c h :: t
           | [] => [str1 c]
           end
  end.

(** [v.split(sep)]: only a [str] has the method. *)
Definition split (v : pyval) (sep : ascii) : result (list string) :=
  match v with
  | PyStr s => Ok (split_on sep s)
  | _ => Raise AttributeError
  end.

(** [s.replace(c, '')]. *)
Fixpoint remove_char (c : ascii) (s : string) : string :=
  match s with
  | EmptyString => EmptyString
  | String a s' =>
      if Ascii.eqb a c then remove_char c s' else String a (remove_char c s')
  end.

(** [l[i]] for a non-negative index. *)
Definition index {A} (l : list A) (i : nat) : result A :=
  match nth_error l i with
  | Some x => Ok x
  | None => Raise IndexError
  end.

(** [sep.join(l)]. *)
Fixpoint join (sep : string) (l : list string) : string :=
  match l with
  | [] => EmptyString
  | [x] => x
  | x :: l' => x +:+ sep +:+ join sep l'
  end.

(** *** [str()] and [repr()] *)

Definition hex_digit (n : N) : ascii :=
  match n with
  | 0 => "0" | 1 => "1" | 2 => "2" | 3 => "3" | 4 => "4" | 5 => "5"
  | 6 => "6" | 7 => "7" | 8 => "8" | 9 => "9" | 10 => "a" | 11 => "b"
  | 12 => "c" | 13 => "d" | 14 => "e" | _ => "f"
  end%N%char.

Definition hex2 (c : ascii) : string :=
  let n := N_of_ascii c in
  String (hex_digit (n / 16)) (str1 (hex_digit (n mod 16))).

Definition str_of_int (z : Z) : string := NilZero.string_of_int (Z.to_int z).

Fixpoint contains_char (c : ascii) (s : string) : bool :=
  match s with
  | EmptyString => false
  | String a s' => Ascii.eqb a c || contains_char c s'
  end.

(** Code points below 256 that [repr] prints as they are. *)
Definition printable (c : ascii) : bool :=
  let n := N_of_ascii c in
  ((32 <=? n) && (n <? 127) || (160 <? n) && negb (n =? 173))%N.

Definition repr_char (q c : ascii) : string :=
  if Ascii.eqb c q || Ascii.eqb c backslash then String backslash (str1 c)
  else if Ascii.eqb c "009" then String backslash "t"
  else if Ascii.eqb c newline then String backslash "n"
  else if Ascii.eqb c "013" then String backslash "r"
  else if printable c then str1 c
  else String backslash (String "x" (hex2 c)).

Fixpoint repr_chars (q : ascii) (s : string) : string :=
  match s with
  | EmptyString => EmptyString
  | String c s' => repr_char q c +:+ repr_chars q s'
  end.

Definition repr_str (s : string) : string :=
  let q := if contains_char apostrophe s && negb (contains_char quote s)
           then quote else apostrophe in
  String q (repr_chars q s +:+ str1 q).

Fixpoint repr (v : pyval) : string :=
  match v with
  | PyNone => "None"
  | PyBool true => "True"
  | PyBool false => "False"
  | PyInt z => str_of_int z
  | PyStr s => repr_str s
  | PyList l => "[" +:+ join ", " (map repr l) +:+ "]"
  | PyDict d =>
      "{" +:+ join ", " (map (fun '(k, x) => repr_str k +:+ ": " +:+ repr x) d)
      +:+ "}"
  end.

(** [str(v)], which is what an f-string field [{v}] prints. *)
Definition str (v : pyval) : string :=
  match v with
  | PyStr s => s
  | _ => repr v
  end.

(** *** [==] *)

Definition Z_of_bool (b : bool) : Z := if b then 1 else 0.

Fixpoint eq (a b : pyval) : bool :=
  match a, b with
  | PyNone, PyNone => true
  | PyBool x, PyBool y => Bool.eqb x y
  | PyBool x, PyInt z => (Z_of_bool x =? z)%Z
  | PyInt z, PyBool y => (z =? Z_of_bool y)%Z
  | PyInt x, PyInt y => (x =? y)%Z
  | PyStr s, PyStr t => String.eqb s t
  | PyList l, PyList m =>
      (fix all2 (l : list pyval) (m : list pyval) : bool :=
         match l, m with
         | [], [] => true
         | x :: l', y :: m' => eq x y && all2 l' m'
         | _, _ => false
         end) l m
  | PyDict d, PyDict e =>
      (length d =? length e)%nat
      && forallb (fun '(k, x) =>
                    match dict_get k e with
                    | Some y => eq x y
                    | None => false
                    end) d
  | _, _ => false
  end.

(** *** [json.dumps] and [str.encode('utf-8')] *)

Definition json_char (c : ascii) : string :=
  let n := N_of_ascii c in
  if Ascii.eqb c quote || Ascii.eqb c backslash then String backslash (str1 c)
  else if Ascii.eqb c newline then String backslash "n"
  else if Ascii.eqb c "013" then String backslash "r"
  else if Ascii.eqb c "009" then String backslash "t"
  else if Ascii.eqb c "008" then String backslash "b"
  else if Ascii.eqb c "012" then String backslash "f"
  else if ((32 <=? n) && (n <? 127))%N then str1 c
  else String backslash ("u00" +:+ hex2 c).

Fixpoint json_chars (s : string) : string :=
  match s with
  | EmptyString => EmptyString
  | String c s' => json_char c +:+ json_chars s'
  end.

Definition json_str (s : string) : string :=
  String quote (json_chars s +:+ str1 quote).

(** [json.dumps(v)] with the default separators and [ensure_ascii]. *)
Fixpoint json_dumps (v : pyval) : string :=
  match v with
  | PyNone => "null"
  | PyBool true => "true"
  | PyBool false => "false"
  | PyInt z => str_of_int z
  | PyStr s => json_str s
  | PyList l => "[" +:+ join ", " (map json_dumps l) +:+ "]"
  | PyDict d =>
      "{" +:+ join ", " (map (fun '(k, x) => json_str k +:+ ": " +:+ json_dumps x) d)
      +:+ "}"
  end.

(** UTF-8 bytes of a text of code points below 256: one byte below 128, two
    bytes from 128 on. *)
Definition utf8_char (c : ascii) : string :=
  let n := N_of_ascii c in
  if (n <? 128)%N then str1 c
  else String (ascii_of_N (192 + n / 64)) (str1 (ascii_of_N (128 + n mod 64))).

Fixpoint encode_utf8 (s : string) : string :=
  match s with
  | EmptyString => EmptyString
  | String c s' => utf8_char c +:+ encode_utf8 s'
  end.

(** *** [range] and slices *)

(** [range(start, stop, step)]: [ValueError] when the step is zero. *)
Definition range (start stop step : Z) : result (list Z) :=
  if (step =? 0)%Z then Raise ValueError
  else
    let count :=
      if (0 <? step)%Z then
        if (start <? stop)%Z then ((stop - start + step - 1) / step)%Z else 0%Z
      else
        if (stop <? start)%Z then ((start - stop - step - 1) / (- step))%Z else 0%Z in
    Ok (map (fun j => (start + Z.of_nat j * step)%Z) (seq 0 (Z.to_nat count))).

(** Where a slice bound falls in a list of [len] elements. *)
Definition clamp (len : nat) (i : Z) : nat :=
  let n := Z.of_nat len in
  Z.to_nat (if (i <? 0)%Z then Z.max 0 (i + n) else Z.min i n).

(** [l[i:j]]. *)
Definition slice {A} (l : list A) (i j : Z) : list A :=
  let lo := clamp (length l) i in
  let hi := clamp (length l) j in
  firstn (hi - lo) (skipn lo l).

End Py.

(** ** The storage SDK *)

Module Azure.

(** What the writer uses of [azure.storage.blob]: a container client of some
    state [S] that lists its blobs, creates an append blob and appends a block
    to one.  Every call goes over the network: it may raise, and it may change
    the state of the service. *)
Class ContainerClient (S : Type) := {
  list_blobs : S -> Py.result (list string) * S;
  create_append_blob : string -> S -> Py.result unit * S;
  append_block : string -> string -> S -> Py.result unit * S
}.

End Azure.

(** ** [app/lib/BlobWriter.py] *)

Module Writer.
Import Py.

(** A [threading.Timer]: its delay in seconds and whether [cancel()] was
    called on it. *)
Record Timer := { interval : Z; cancelled : bool }.

(** One dict of [processed_array]: [{"type": .., "date": .., "time": ..}]. *)
Record partition := { k_type : pyval; k_date : string; k_time : string }.

(** The texts the writer prints or logs, with their interpolated fields. *)
Inductive message :=
| MsgStop                                       (* 'blobWriter.stop' *)
| MsgStopDone                                   (* 'blobWriter.stop done writing blob' *)
| MsgListFailed (e : exn)                       (* while listing blobs *)
| MsgCreateFailed (e : exn)                     (* while creating the append blob *)
| MsgAppendFailed (nbytes : nat) (blob_name : string) (e : exn)
| MsgAppendAborted (nrecords : nat) (blob_name : string) (e : exn)
| MsgWriting (file_name : string).              (* 'Writing blob: ..' *)

(** What a method does that the outside can observe, in order: output on
    stdout, log records, and calls to the storage service. *)
Inductive event :=
| Stdout (m : message)
| LogInfo (m : message)
| LogError (m : message)
| ListBlobs
| CreateAppendBlob (blob_name : string)
| AppendBlock (blob_name : string) (payload : string).

(** *** The pure helpers *)

(** Lines 153-157 and 172-176: the fields both loops read from an item. *)
Definition item_fields (item : pyval) : result (pyval * string * string) :=
  (let? data := subscript item "data" in
   let? type := subscript data "type" in
   let? meta := subscript item "meta" in
   let? logged_at := subscript meta "timestamp" in
   let? date_parts := split logged_at "T" in
   let? d0 := index date_parts 0 in
   let date := remove_char "-" d0 in
   let? d1 := index date_parts 1 in
   let? time := index (split_on ":" d1) 0 in
   Ok (type, date, time))%result.

Definition unique_id (type : pyval) (date time : string) : string :=
  str type +:+ "-" +:+ date +:+ "-" +:+ time.

Fixpoint process_loop (input_array : list pyval)
    (processed_array : list partition) (seen : gset string)
    : result (list partition) :=
  match input_array with
  | [] => Ok processed_array
  | item :: rest =>
      (let? (type, date, time) := item_fields item in
       let id := unique_id type date time in
       if decide (id ∈ seen) then process_loop rest processed_array seen
       else process_loop rest
              (processed_array ++ [{| k_type := type; k_date := date; k_time := time |}])
              ({[ id ]} ∪ seen))%result
  end.

Definition process_input_array (input_array : list pyval) : result (list partition) :=
  process_loop input_array [] ∅.

Fixpoint filter_loop (input_array : list pyval)
    (type_to_match : pyval) (date_to_match time_to_match : string)
    (filtered_results : list pyval) : result (list pyval) :=
  match input_array with
  | [] => Ok filtered_results
  | item :: rest =>
      (let? (type, date, time) := item_fields item in
       if eq type type_to_match && String.eqb date date_to_match
          && String.eqb time time_to_match
       then filter_loop rest type_to_match date_to_match time_to_match
              (filtered_results ++ [item])
       else filter_loop rest type_to_match date_to_match time_to_match
              filtered_results)%result
  end.

Definition filter_by_type_and_date (input_array : list pyval)
    (type_to_match : pyval) (date_to_match time_to_match : string)
    : result (list pyval) :=
  filter_loop input_array type_to_match date_to_match time_to_match [].

(** Line 134: the blob a partition is written to. *)
Definition file_name (data : partition) : string :=
  str (k_type data) +:+ "." +:+ k_date data +:+ "." +:+ k_time data +:+ ".fd".

(** Line 119: the text of one packet. *)
Definition data_to_append (packet_data : list pyval) : string :=
  join (str1 newline) (map json_dumps packet_data) +:+ str1 newline.

(** Lines 141-142: the queue is emptied into [tmp_buffer] one [get] at a
    time; the pair is [tmp_buffer] and what is left of the queue. *)
Fixpoint clear_loop (queue tmp_buffer : list pyval) : list pyval * list pyval :=
  match queue with
  | [] => (tmp_buffer, queue)
  | message :: queue' => clear_loop queue' (tmp_buffer ++ [message])
  end.

(** *** The object and its methods *)

Section Methods.
Context {S : Type} `{Azure.ContainerClient S}.

Record BlobWriter := {
  connection_string : string;
  container_name : string;
  buffer : list pyval;                (* queue.Queue, oldest first *)
  container_client : S;
  running : bool;
  timer : option Timer;               (* False until start() *)
  max_packet_size_bytes : Z
}.

Definition set_buffer (q : list pyval) (self : BlobWriter) : BlobWriter :=
  {| connection_string := connection_string self;
     container_name := container_name self;
     buffer := q;
     container_client := container_client self;
     running := running self;
     timer := timer self;
     max_packet_size_bytes := max_packet_size_bytes self |}.

Definition set_container_client (c : S) (self : BlobWriter) : BlobWriter :=
  {| connection_string := connection_string self;
     container_name := container_name self;
     buffer := buffer self;
     container_client := c;
     running := running self;
     timer := timer self;
     max_packet_size_bytes := max_packet_size_bytes self |}.

Definition set_running (b : bool) (self : BlobWriter) : BlobWriter :=
  {| connection_string := connection_string self;
     container_name := container_name self;
     buffer := buffer self;
     container_client := container_client self;
     running := b;
     timer := timer self;
     max_packet_size_bytes := max_packet_size_bytes self |}.

Definition set_timer (t : option Timer) (self : BlobWriter) : BlobWriter :=
  {| connection_string := connection_string self;
     container_name := container_name self;
     buffer := buffer self;
     container_client := container_client self;
     running := running self;
     timer := t;
     max_packet_size_bytes := max_packet_size_bytes self |}.

(** A method body: from the object to a result (or the exception that leaves
    the method), the object as the body left it, and the events in order. *)
Definition M (A : Type) : Type := BlobWriter -> result A * BlobWriter * list event.

Definition ret {A} (a : A) : M A := fun self => (Ok a, self, []).

Definition raise {A} (e : exn) : M A := fun self => (Raise e, self, []).

Definition bind {A B} (m : M A) (k : A -> M B) : M B := fun self =>
  match m self with
  | (Ok a, self1, out1) =>
      match k a self1 with
      | (r, self2, out2) => (r, self2, out1 ++ out2)
      end
  | (Raise e, self1, out1) => (Raise e, self1, out1)
  end.

(** [try: body except Exception as e: handler]. *)
Definition try_except {A} (body : M A) (handler : exn -> M A) : M A := fun self =>
  match body self with
  | (Ok a, self1, out1) => (Ok a, self1, out1)
  | (Raise e, self1, out1) =>
      match handler e self1 with
      | (r, self2, out2) => (r, self2, out1 ++ out2)
      end
  end.

Definition lift {A} (r : result A) : M A := fun self => (r, self, []).

Definition emit (e : event) : M unit := fun self => (Ok tt, self, [e]).

Definition gets {A} (f : BlobWriter -> A) : M A := fun self => (Ok (f self), self, []).

Definition modify (f : BlobWriter -> BlobWriter) : M unit := fun self => (Ok tt, f self, []).

(** A call through [self.container_client]. *)
Definition call {A} (e : event) (op : S -> result A * S) : M A := fun self =>
  match op (container_client self) with
  | (r, c) => (r, set_container_client c self, [e])
  end.

Notation "x <- m ;; k" := (bind m (fun x => k))
  (at level 100, m at next level, right associativity).
Notation "m ;;; k" := (bind m (fun _ => k))
  (at level 100, right associativity).

Fixpoint for_each {A} (l : list A) (body : A -> M unit) : M unit :=
  match l with
  | [] => ret tt
  | x :: l' => body x ;;; for_each l' body
  end.

(** [__init__]: [environ] is [os.getenv]; [client] is what the SDK does with
    the connection string and the container name at lines 41-42: it builds
    the container client or raises, as [from_connection_string] does for a
    blank or malformed connection string.  Both settings are looked up before
    the SDK is called. *)
Definition init (environ : string -> option string)
    (client : string -> string -> result S)
    (connection_string container_name : option string) : result BlobWriter :=
  (let? cs := match connection_string with
              | Some cs => Ok cs
              | None => match environ "FD_BLOB_CONNECTION_STRING" with
                        | Some cs => Ok cs
                        | None => Raise ValueError
                        end
              end in
   let? cn := match container_name with
              | Some cn => Ok cn
              | None => match environ "FD_BLOB_CONTAINER_NAME" with
                        | Some cn => Ok cn
                        | None => Raise ValueError
                        end
              end in
   let? c := client cs cn in
   Ok {| connection_string := cs;
         container_name := cn;
         buffer := [];
         container_client := c;
         running := false;
         timer := None;
         max_packet_size_bytes := 3 * 1024 * 1024 |})%result.

Definition list_blob_names : M (list string) :=
  try_except (call ListBlobs Azure.list_blobs)
    (fun e => emit (Stdout (MsgListFailed e)) ;;; ret []).

Definition create_append_blob (blob_name : string) : M unit :=
  try_except
    (names <- list_blob_names ;;
     if decide (blob_name ∈ names) then ret tt
     else call (CreateAppendBlob blob_name) (Azure.create_append_blob blob_name))
    (fun e => emit (Stdout (MsgCreateFailed e))).

(** Lines 117-124: one turn of the packet loop. *)
Definition append_packet (blob_name : string) (data : list pyval)
    (packet_size i : Z) : M unit :=
  let packet_data := slice data i (i + packet_size) in
  let text := data_to_append packet_data in
  try_except
    (call (AppendBlock blob_name (encode_utf8 text))
       (Azure.append_block blob_name (encode_utf8 text)))
    (fun e => emit (LogError (MsgAppendFailed (String.length text) blob_name e))).

(** Lines 109-112.  [math.floor(a / b)] is the floor of a float quotient; for
    a ceiling below 2^53 it is the integer quotient. *)
Definition packet_size_of (max_bytes : Z) (data : list pyval) : result Z :=
  match data with
  | first :: _ =>
      let n := Z.of_nat (String.length (encode_utf8 (json_dumps first))) in
      if (n =? 0)%Z then Raise ZeroDivisionError else Ok (max_bytes / n)%Z
  | [] => Ok 0%Z
  end.

(** Lines 114-124: the packet loop. *)
Definition append_packets (blob_name : string) (data : list pyval)
    (packet_size : Z) : M unit :=
  starts <- lift (range 0 (Z.of_nat (length data)) packet_size) ;;
  for_each starts (append_packet blob_name data packet_size).

(** When the outer handler runs, [packet_data] is still [''], of length 0:
    nothing in the loop raises outside the inner [try]. *)
Definition append_data_to_blob (blob_name : string) (data : list pyval) : M unit :=
  try_except
    (names <- list_blob_names ;;
     (if decide (blob_name ∈ names) then ret tt
      else call (CreateAppendBlob blob_name) (Azure.create_append_blob blob_name)) ;;;
     max_bytes <- gets max_packet_size_bytes ;;
     packet_size <- lift (packet_size_of max_bytes data) ;;
     append_packets blob_name data packet_size)
    (fun e => emit (LogError (MsgAppendAborted 0 blob_name e))).

Definition clear_buffer : M (list pyval) := fun self =>
  match clear_loop (buffer self) [] with
  | (tmp_buffer, queue) => (Ok tmp_buffer, set_buffer queue self, [])
  end.

Definition message_handler (message : pyval) : M unit :=
  modify (fun self => set_buffer (buffer self ++ [message]) self).

(** Lines 133-137: what the flush does for one partition. *)
Definition write_partition (tmp_buffer : list pyval) (data : partition) : M unit :=
  file_data <- lift (filter_by_type_and_date tmp_buffer
                       (k_type data) (k_date data) (k_time data)) ;;
  emit (LogInfo (MsgWriting (file_name data))) ;;;
  create_append_blob (file_name data) ;;;
  append_data_to_blob (file_name data) file_data.

Definition write_buffer_to_blob : M unit :=
  tmp_buffer <- clear_buffer ;;
  blob_data <- lift (process_input_array tmp_buffer) ;;
  for_each blob_data (write_partition tmp_buffer).

Definition start : M unit :=
  modify (set_running true) ;;;
  modify (set_timer (Some {| interval := 1; cancelled := false |})).

Definition run_periodically : M unit :=
  is_running <- gets running ;;
  if is_running then
    write_buffer_to_blob ;;;
    modify (set_timer (Some {| interval := 10; cancelled := false |}))
  else ret tt.

Definition cancel (t : Timer) : Timer :=
  {| interval := interval t; cancelled := true |}.

Definition stop : M unit :=
  emit (Stdout MsgStop) ;;;
  modify (set_running false) ;;;
  t <- gets timer ;;
  match t with
  | Some t => modify (set_timer (Some (cancel t)))
  | None => ret tt
  end ;;;
  write_buffer_to_blob ;;;
  emit (Stdout MsgStopDone).

End Methods.

Arguments BlobWriter S : clear implicits.
Arguments M S A : clear implicits.

End Writer.

(** ** An in-memory container

    A container client to run the methods on: the blobs with their contents,
    oldest first, and switches that make a kind of call fail. *)

Module Memory.
Import Py.

Record container := {
  blobs : list (string * string);
  list_fails : bool;
  create_fails : bool;
  append_fails : bool
}.

Definition with_blobs (b : list (string * string)) (c : container) : container :=
  {| blobs := b; list_fails := list_fails c;
     create_fails := create_fails c; append_fails := append_fails c |}.

Fixpoint has_blob (name : string) (b : list (string * string)) : bool :=
  match b with
  | [] => false
  | (n, _) :: b' => String.eqb n name || has_blob name b'
  end.

Fixpoint put_blob (name content : string) (b : list (string * string))
    : list (string * string) :=
  match b with
  | [] => [(name, content)]
  | (n, old) :: b' =>
      if String.eqb n name then (n, content) :: b' else (n, old) :: put_blob name content b'
  end.

Fixpoint extend_blob (name block : string) (b : list (string * string))
    : list (string * string) :=
  match b with
  | [] => []
  | (n, old) :: b' =>
      if String.eqb n name then (n, old +:+ block) :: b'
      else (n, old) :: extend_blob name block b'
  end.

Definition list_blobs (c : container) : result (list string) * container :=
  if list_fails c then (Raise (AzureError "ServiceUnavailable"), c)
  else (Ok (map fst (blobs c)), c).

Definition create_append_blob (name : string) (c : container)
    : result unit * container :=
  if create_fails c then (Raise (AzureError "ServiceUnavailable"), c)
  else (Ok tt, with_blobs (put_blob name EmptyString (blobs c)) c).

Definition append_block (name block : string) (c : container)
    : result unit * container :=
  if append_fails c then (Raise (AzureError "ServiceUnavailable"), c)
  else if has_blob name (blobs c)
       then (Ok tt, with_blobs (extend_blob name block (blobs c)) c)
       else (Raise (AzureError "BlobNotFound"), c).

#[global] Instance client : Azure.ContainerClient container := {
  Azure.list_blobs := list_blobs;
  Azure.create_append_blob := create_append_blob;
  Azure.append_block := append_block
}.

Definition empty : container :=
  {| blobs := []; list_fails := false; create_fails := false; append_fails := false |}.


(** A writer as [__init__] leaves it, on the given container. *)
Definition writer (c : container) (max_bytes : Z) (queue : list pyval)
    : Writer.BlobWriter container :=
  {| Writer.connection_string := "UseDevelopmentStorage=true";
     Writer.container_name := "fd";
     Writer.buffer := queue;
     Writer.container_client := c;
     Writer.running := false;
     Writer.timer := None;
     Writer.max_packet_size_bytes := max_bytes |}.

(** A record of the given type and timestamp, with a sequence number. *)
Definition record (type timestamp : string) (seq : Z) : pyval :=
  PyDict [("data", PyDict [("type", PyStr type); ("id", PyInt seq)]);
          ("meta", PyDict [("timestamp", PyStr timestamp)])].

End Memory.

(** ** [app/lib/tenant_connect/manager_blob.py] *)

Module TenantBlobManager.
Import Py.

Section Manager.
Context {S : Type}.

(** [get_connection]: the writer of a tenant in [_connections], or
    [ValueError("No connection is set")]. *)
Definition get_connection (tenant_id : string)
    (_connections : gmap string (Writer.BlobWriter S))
    : result (Writer.BlobWriter S) :=
  match _connections !! tenant_id with
  | Some connection => Ok connection
  | None => Raise ValueError
  end.

End Manager.
End TenantBlobManager.

(** ** [app/blob_data_handler.py] *)

Module Handler.
Import Py.

Section Handler.
Context {S : Type} `{Azure.ContainerClient S}.

(** [blob_writers] holds one writer object per tenant; a method called on
    [blob_writers[tenant_id]] changes the object in place, which is the entry
    of the map here. *)
Definition dispatch_blob_message (tenant_id : string) (message : pyval)
    (blob_writers : gmap string (Writer.BlobWriter S))
    : result unit * gmap string (Writer.BlobWriter S) * list Writer.event :=
  match blob_writers !! tenant_id with
  | Some writer =>
      match Writer.message_handler message writer with
      | (r, writer', out) => (r, <[tenant_id := writer']> blob_writers, out)
      end
  | None =>
      (Raise (KeyError ("No BlobWriter for tenant " +:+ tenant_id)), blob_writers, [])
  end.

End Handler.
End Handler.

(** ** Producers and flushes on one queue

    [queue.Queue] makes [put], [get] and [empty] atomic, and nothing else in
    [message_handler] and [clear_buffer] touches the queue.  So a run of
    several threads on one writer is a sequence of these operations: a
    producer puts a message; a flush enters [clear_buffer] with an empty
    [tmp_buffer]; a flush that is in its loop gets the oldest message (the
    [get] returns once there is one); a flush that finds the queue empty
    returns its [tmp_buffer], the snapshot. *)

Module Interleaving.
Import Py.

Record flush := { tmp_buffer : list pyval; returned : bool }.

Record state := { queue : list pyval; flushes : list flush }.

Inductive op :=
| Put (message : pyval)
| Enter
| Get (i : nat)
| Return (i : nat).

Definition initial : state := {| queue := []; flushes := [] |}.

(** One operation, when the thread can do it. *)
Definition step (o : op) (st : state) : option state :=
  match o with
  | Put message =>
      Some {| queue := queue st ++ [message]; flushes := flushes st |}
  | Enter =>
      Some {| queue := queue st;
              flushes := flushes st ++ [{| tmp_buffer := []; returned := false |}] |}
  | Get i =>
      match flushes st !! i, queue st with
      | Some f, message :: rest =>
          if returned f then None
          else Some {| queue := rest;
                       flushes := <[i := {| tmp_buffer := tmp_buffer f ++ [message];
                                            returned := false |}]> (flushes st) |}
      | _, _ => None
      end
  | Return i =>
      match flushes st !! i, queue st with
      | Some f, [] =>
          if returned f then None
          else Some {| queue := [];
                       flushes := <[i := {| tmp_buffer := tmp_buffer f;
                                            returned := true |}]> (flushes st) |}
      | _, _ => None
      end
  end.

Fixpoint run (ops : list op) (st : state) : option state :=
  match ops with
  | [] => Some st
  | o :: ops' =>
      match step o st with
      | Some st' => run ops' st'
      | None => None
      end
  end.

(** The messages the producers put, in order. *)
Fixpoint puts (ops : list op) : list pyval :=
  match ops with
  | [] => []
  | Put message :: ops' => message :: puts ops'
  | _ :: ops' => puts ops'
  end.

(** What the flushes hold: the snapshots, returned or still being filled. *)
Definition drained (st : state) : list pyval :=
  concat (map tmp_buffer (flushes st)).

End Interleaving.

(** ** Notions the properties speak of *)

Module Notions.
Import Py Writer.

(** The records both loops can read. *)
Definition has_fields (item : pyval) : Prop :=
  exists fields, item_fields item = Ok fields.

(** The partition key of a record: its type, when a [str], with the date and
    the hour cut out of its timestamp. *)
Definition key : Type := string * string * string.

Definition key_of (item : pyval) : option key :=
  match item_fields item with
  | Ok (PyStr type, date, time) => Some (type, date, time)
  | _ => None
  end.

Definition key_eqb (a b : key) : bool :=
  match a, b with
  | (t, d, h), (t', d', h') => String.eqb t t' && String.eqb d d' && String.eqb h h'
  end.

Definition carries (k : key) (item : pyval) : bool :=
  match key_of item with
  | Some k' => key_eqb k' k
  | None => false
  end.

Definition partition_of (k : key) : partition :=
  match k with
  | (t, d, h) => {| k_type := PyStr t; k_date := d; k_time := h |}
  end.

(** The key format of the data model. *)
Definition dated (k : key) : Prop :=
  match k with
  | (_, d, h) => String.length d = 8 /\ String.length h = 2
  end.

(** A record as the data model has it: a key whose date has the eight
    characters of YYYYMMDD and whose hour the two of HH. *)
Definition well_formed (item : pyval) : bool :=
  match key_of item with
  | Some (_, d, h) => (String.length d =? 8)%nat && (String.length h =? 2)%nat
  | None => false
  end.

(** The distinct elements of a list, each at its first occurrence. *)
Fixpoint first_seen (l : list key) : list key :=
  match l with
  | [] => []
  | k :: l' => k :: List.filter (fun k' => negb (key_eqb k' k)) (first_seen l')
  end.

(** A key that is not yet in a list of keys. *)
Definition fresh (acc : list key) (k : key) : bool :=
  negb (existsb (key_eqb k) acc).

(** The keys of the records that have one. *)
Definition keys_of (snapshot : list pyval) : list key :=
  omap key_of snapshot.

(** The [append_block] calls of a run, in order: the blob and the payload. *)
Fixpoint append_calls (out : list event) : list (string * string) :=
  match out with
  | [] => []
  | AppendBlock b payload :: out' => (b, payload) :: append_calls out'
  | _ :: out' => append_calls out'
  end.

(** The blobs a run asks the service to create or to extend. *)
Fixpoint targets (out : list event) : list string :=
  match out with
  | [] => []
  | CreateAppendBlob b :: out' => b :: targets out'
  | AppendBlock b _ :: out' => b :: targets out'
  | LogInfo (MsgWriting b) :: out' => b :: targets out'
  | _ :: out' => targets out'
  end.

(** The group of a key: what the flush asks [filter_by_type_and_date] for. *)
Definition group_of (snapshot : list pyval) (k : key) : result (list pyval) :=
  match k with
  | (t, d, h) => filter_by_type_and_date snapshot (PyStr t) d h
  end.





(** The serialized size of a record, as line 110 measures it. *)
Definition record_size (item : pyval) : nat :=
  String.length (encode_utf8 (json_dumps item)).

(** The number of turns of the packet loop on [n] records, for a positive
    packet size. *)
Definition packet_count (n : nat) (packet_size : Z) : nat :=
  if (0 <? Z.of_nat n)%Z
  then Z.to_nat ((Z.of_nat n + packet_size - 1) / packet_size)
  else 0.

(** The slices the packet loop takes of a group. *)
Definition packets (data : list pyval) (packet_size : Z) (starts : list Z)
    : list (list pyval) :=
  map (fun i => slice data i (i + packet_size)) starts.

(** Events that touch no blob. *)
Definition quiet (out : list event) : Prop :=
  append_calls out = [] /\ targets out = [].

(** The partitions a run announces ('Writing blob: ..'), in order. *)
Fixpoint announced (out : list event) : list string :=
  match out with
  | [] => []
  | LogInfo (MsgWriting b) :: out' => b :: announced out'
  | _ :: out' => announced out'
  end.

(** Events that touch the blob [name] only, and announce no partition. *)
Definition about (name : string) (out : list event) : Prop :=
  (forall b, In b (targets out) -> b = name) /\ announced out = [].

(** What [append_data_to_blob] did: it gave up before the loop, with a log
    record and no call, or it sent the packets of [data] one after the other. *)
Inductive append_outcome (max_bytes : Z) (name : string) (data : list pyval)
    (out : list event) : Prop :=
| abandoned (e : exn) (before : list event) :
    out = before ++ [LogError (MsgAppendAborted 0 name e)] ->
    append_calls out = [] ->
    append_outcome max_bytes name data out
| sent (packet_size : Z) (starts : list Z) :
    packet_size_of max_bytes data = Ok packet_size ->
    range 0 (Z.of_nat (length data)) packet_size = Ok starts ->
    append_calls out
    = map (fun packet => (name, encode_utf8 (data_to_append packet)))
        (packets data packet_size starts) ->
    append_outcome max_bytes name data out.

(** What the flush did for one partition of the snapshot [tmp_buffer]: it
    announced and touched the blob of the partition only, and sent the
    records that [filter_by_type_and_date] selects, unless the append gave
    up. *)
Definition partition_events (tmp_buffer : list pyval) (max_bytes : Z)
    (data : partition) (out : list event) : Prop :=
  (forall b, In b (targets out) -> b = file_name data)
  /\ announced out = [file_name data]
  /\ exists file_data before after,
      filter_by_type_and_date tmp_buffer (k_type data) (k_date data) (k_time data)
      = Ok file_data
      /\ out = before ++ after
      /\ append_calls before = []
      /\ append_outcome max_bytes (file_name data) file_data after.

Section Specifications.
Context {S : Type} `{Azure.ContainerClient S}.

(** [spec w m Q]: on the object [w], whatever the state of its container, the
    body [m] ends with a result and events that satisfy [Q], and changes
    nothing of [w] but the container. *)
Definition spec {A} (w : BlobWriter S) (m : M S A)
    (Q : result A -> list event -> Prop) : Prop :=
  forall c, exists r c' out,
    m (set_container_client c w) = (r, set_container_client c' w, out) /\ Q r out.

(** The object as [stop] leaves it for its flush. *)
Definition halted (self : BlobWriter S) : BlobWriter S :=
  set_timer (cancel <$> timer self) (set_running false self).

End Specifications.

End Notions.

(** ** Records and writers to run the code on *)

Module Examples.
Import Py.

Definition small : pyval := Memory.record "heartbeat" "2024-01-01T08:15:00Z" 1.
Definition second : pyval := Memory.record "heartbeat" "2024-01-01T08:25:00Z" 2.
Definition next_hour : pyval := Memory.record "heartbeat" "2024-01-01T09:05:00Z" 3.

(** A record of the same partition as [small], 20 bytes longer. *)
Definition big : pyval :=
  Memory.record "heartbeat" "2024-01-01T08:25:00Z" 100000000000000000000.

(** A record without its [meta] part. *)
Definition unreadable : pyval := PyDict [("data", PyDict [("type", PyStr "heartbeat")])].

Definition target : string := "heartbeat.20240101.08.fd".

(** The ceiling [__init__] sets. *)
Definition three_MiB : Z := 3 * 1024 * 1024.

End Examples.

(** ** [app/main.py]: [process_message] *)

Module Main.
Import Py.

(** [needle in s] for two [str]. *)
Fixpoint substring_of (needle s : string) : bool :=
  String.prefix needle s
  || match s with
     | EmptyString => false
     | String _ s' => substring_of needle s'
     end.

(** [x in v] for a [str] [x]: a key of a dict, an element of a list, a part
    of a [str]; the other values are no containers. *)
Definition contains (v : pyval) (x : string) : result bool :=
  match v with
  | PyDict d => Ok (match dict_get x d with Some _ => true | None => false end)
  | PyList l => Ok (existsb (fun e => eq e (PyStr x)) l)
  | PyStr s => Ok (substring_of x s)
  | _ => Raise TypeError
  end.

(** [v.get(k)]: only a dict has the method. *)
Definition get (v : pyval) (k : string) : result pyval :=
  match v with
  | PyDict d => Ok (default PyNone (dict_get k d))
  | _ => Raise AttributeError
  end.

(** The records [process_message] logs, and what the writer it calls emits. *)
Inductive log :=
| LogProcessing (tenant_id asset_id driver_id driver_name timestamp : pyval)
| LogInvalidTimestamp (timestamp : pyval) (e : exn)
| LogValidation (e : exn)               (* 'Data validation error: ..' *)
| LogMissingField (e : exn)             (* 'Missing required field: ..' *)
| LogUnexpected (e : exn)               (* 'Unexpected error processing message: ..' *)
| FromWriter (e : Writer.event).

Definition required_fields : list string := ["tenant_id"; "asset_id"; "timestamp"].

(** Lines 57-59. *)
Fixpoint check_fields (fields : list string) (message : pyval) : result unit :=
  match fields with
  | [] => Ok tt
  | field :: rest =>
      (let? present := contains message field in
       if present then check_fields rest message else Raise ValueError)%result
  end.

(** Line 62: the debug record, with the five fields it reads. *)
Definition processing (message : pyval) : result log :=
  (let? tenant_id := get message "tenant_id" in
   let? asset_id := get message "asset_id" in
   let? driver_id := get message "driver_id" in
   let? driver_name := get message "driver_name" in
   let? timestamp := get message "timestamp" in
   Ok (LogProcessing tenant_id asset_id driver_id driver_name timestamp))%result.

(** What [except (ValueError, TypeError)] catches. *)
Definition value_or_type_error (e : exn) : bool :=
  match e with
  | ValueError | TypeError => true
  | _ => false
  end.

(** Lines 77-88: the record of the handler that catches [e].  No exception
    of the model is a [ConnectionError] or a [TimeoutError]. *)
Definition handler (e : exn) : log :=
  match e with
  | ValueError => LogValidation e
  | KeyError _ => LogMissingField e
  | _ => LogUnexpected e
  end.

Section Main.
Context {S : Type} `{Azure.ContainerClient S}.

(** [arrow.get]: whether the library parses the value, or what it raises. *)
Variable arrow_get : pyval -> result unit.

(** [dispatch_blob_message] with a tenant id of any type: the keys of
    [blob_writers] are [str], so no other hashable value is among them, and a
    list or a dict cannot be looked up at all. *)
Definition dispatch (tenant_id message : pyval)
    (blob_writers : gmap string (Writer.BlobWriter S))
    : result unit * gmap string (Writer.BlobWriter S) * list Writer.event :=
  match tenant_id with
  | PyStr s => Handler.dispatch_blob_message s message blob_writers
  | PyList _ | PyDict _ => (Raise TypeError, blob_writers, [])
  | _ => (Raise (KeyError ("No BlobWriter for tenant " +:+ str tenant_id)),
          blob_writers, [])
  end.

(** Lines 55-75, the body of the outer [try]: the value returned or the
    exception that reaches the handlers.  The datetime stored back into
    [message] at line 67 is read by nothing afterwards. *)
Definition try_body (message : pyval)
    (blob_writers : gmap string (Writer.BlobWriter S))
    : result bool * gmap string (Writer.BlobWriter S) * list log :=
  match check_fields required_fields message with
  | Raise e => (Raise e, blob_writers, [])
  | Ok _ =>
  match processing message with
  | Raise e => (Raise e, blob_writers, [])
  | Ok entry =>
  match get message "timestamp" with
  | Raise e => (Raise e, blob_writers, [entry])
  | Ok timestamp =>
  match arrow_get timestamp with
  | Raise e =>
      if value_or_type_error e
      then (Ok false, blob_writers, [entry; LogInvalidTimestamp timestamp e])
      else (Raise e, blob_writers, [entry])
  | Ok _ =>
  match get message "tenant_id" with
  | Raise e => (Raise e, blob_writers, [entry])
  | Ok tenant_id =>
  match get message "data" with
  | Raise e => (Raise e, blob_writers, [entry])
  | Ok data =>
  match dispatch tenant_id data blob_writers with
  | (Ok _, blob_writers', out) => (Ok true, blob_writers', entry :: map FromWriter out)
  | (Raise e, blob_writers', out) => (Raise e, blob_writers', entry :: map FromWriter out)
  end end end end end end end.

Definition process_message (message : pyval)
    (blob_writers : gmap string (Writer.BlobWriter S))
    : bool * gmap string (Writer.BlobWriter S) * list log :=
  match try_body message blob_writers with
  | (Ok b, blob_writers', out) => (b, blob_writers', out)
  | (Raise e, blob_writers', out) => (false, blob_writers', out ++ [handler e])
  end.

(** A message [process_message] hands on: a dict with the three required
    fields whose timestamp [arrow.get] parses and whose tenant has a writer;
    [data] is what [message.get('data')] gives. *)
Definition accepts (message : pyval)
    (blob_writers : gmap string (Writer.BlobWriter S))
    (tenant_id : string) (writer : Writer.BlobWriter S) (data : pyval) : Prop :=
  exists d timestamp,
    message = PyDict d
    /\ dict_get "tenant_id" d = Some (PyStr tenant_id)
    /\ is_Some (dict_get "asset_id" d)
    /\ dict_get "timestamp" d = Some timestamp
    /\ arrow_get timestamp = Ok tt
    /\ blob_writers !! tenant_id = Some writer
    /\ data = default PyNone (dict_get "data" d).

End Main.

End Main.

(** ** The writer objects and the two module-level dicts

    [TenantBlobManager._connections] and [blob_data_handler.blob_writers] are
    names of dicts whose values are writer objects.  The dicts are built once
    and only rebound afterwards; the objects are changed in place.  So the
    state is the objects by address and, for each name, the dict it is bound
    to, from tenant to address. *)

Module App.
Import Py.

(** A [threading.Thread] of [initialize_blob_writers]: its name and the
    writer whose [start] it runs. *)
Record thread := { name : string; target : nat }.

Section App.
Context {S : Type} `{Azure.ContainerClient S}.

Record state := {
  objects : gmap nat (Writer.BlobWriter S);
  connections : gmap string nat;          (* TenantBlobManager._connections *)
  blob_writers : gmap string nat;
  blob_threads : gmap string thread
}.

(** Every address of the two dicts holds an object. *)
Definition closed (st : state) : Prop :=
  (forall tenant_id ref, connections st !! tenant_id = Some ref ->
     is_Some (objects st !! ref))
  /\ (forall tenant_id ref, blob_writers st !! tenant_id = Some ref ->
        is_Some (objects st !! ref)).

(** [TenantBlobManager.initialize_connections]: the name is rebound. *)
Definition initialize_connections (new_connections : gmap string nat) (st : state)
    : state :=
  {| objects := objects st;
     connections := new_connections;
     blob_writers := blob_writers st;
     blob_threads := blob_threads st |}.

(** [TenantBlobManager.get_connection], by address. *)
Definition get_connection (tenant_id : string) (st : state) : result nat :=
  match connections st !! tenant_id with
  | Some connection => Ok connection
  | None => Raise ValueError
  end.

(** What the thread of a writer does: it runs [start] on the object. *)
Definition run_start (writer : Writer.BlobWriter S) : Writer.BlobWriter S :=
  (Writer.start writer).1.2.

(** One turn of the loop of [initialize_blob_writers], with its thread run. *)
Definition spawn (tenant_id : string) (ref : nat)
    (acc : gmap nat (Writer.BlobWriter S) * gmap string thread)
    : gmap nat (Writer.BlobWriter S) * gmap string thread :=
  (alter run_start ref acc.1,
   <[tenant_id := {| name := "blobWriter-" +:+ tenant_id; target := ref |}]> acc.2).

(** [initialize_blob_writers], once the threads it starts have run.  The
    loop goes through the dict in some order; a turn changes the object and
    the thread of its own tenant only. *)
Definition initialize_blob_writers (st : state) : state :=
  let started := map_fold spawn (objects st, blob_threads st) (connections st) in
  {| objects := started.1;
     connections := connections st;
     blob_writers := connections st;
     blob_threads := started.2 |}.

(** [dispatch_blob_message]: the method runs on the object at the address
    that [blob_writers] has for the tenant.  In Python a value of the dict is
    an object; an address without one arises in no [closed] state, and has an
    answer here only to make the function total. *)
Definition dispatch_blob_message (tenant_id : string) (message : pyval) (st : state)
    : result unit * state * list Writer.event :=
  match blob_writers st !! tenant_id with
  | Some ref =>
      match objects st !! ref with
      | Some writer =>
          match Writer.message_handler message writer with
          | (r, writer', out) =>
              (r,
               {| objects := <[ref := writer']> (objects st);
                  connections := connections st;
                  blob_writers := blob_writers st;
                  blob_threads := blob_threads st |},
               out)
          end
      | None => (Raise AttributeError, st, [])
      end
  | None =>
      (Raise (KeyError ("No BlobWriter for tenant " +:+ tenant_id)), st, [])
  end.

(** The dict [blob_writers] with the objects in place of their addresses:
    what [Handler.dispatch_blob_message] works on. *)
Definition view (st : state) : gmap string (Writer.BlobWriter S) :=
  omap (fun ref => objects st !! ref) (blob_writers st).

End App.

Arguments state S : clear implicits.

End App.

(** ** More notions *)

Module Lifecycle.
Import Py Writer.

(** The id line 160 builds for a partition. *)
Definition partition_id (data : partition) : string :=
  unique_id (k_type data) (k_date data) (k_time data).

(** The number of times a run lists the blobs of the container. *)
Fixpoint listings (out : list event) : nat :=
  match out with
  | [] => 0
  | ListBlobs :: out' => 1 + listings out'
  | _ :: out' => listings out'
  end.

Section Lifecycle.
Context {S : Type} `{Azure.ContainerClient S}.

(** [message_handler] called for each message in turn. *)
Definition enqueue_all (messages : list pyval) (self : BlobWriter S) : BlobWriter S :=
  fold_left (fun self message => (message_handler message self).1.2) messages self.

(** The object after [start]. *)
Definition started (self : BlobWriter S) : BlobWriter S :=
  set_timer (Some {| interval := 1; cancelled := false |}) (set_running true self).

(** The object after a [run_periodically] that returned. *)
Definition rearmed (self : BlobWriter S) : BlobWriter S :=
  set_timer (Some {| interval := 10; cancelled := false |}) self.

(** The object with another scheduling state: [running] and [timer]. *)
Definition scheduled (is_running : bool) (t : option Timer) (self : BlobWriter S)
    : BlobWriter S :=
  set_timer t (set_running is_running self).

(** A body that neither reads nor writes what [f] changes of the object. *)
Definition commutes {A} (f : BlobWriter S -> BlobWriter S) (m : M S A) : Prop :=
  forall self,
    m (f self) = match m self with
                 | (r, self', out) => (r, f self', out)
                 end.

End Lifecycle.
End Lifecycle.

(** ** More records, containers and tenants to run the code on *)

Module Fixtures.
Import Py.

(** A container that already holds the blob of [Examples.small]. *)
Definition holding : Memory.container :=
  {| Memory.blobs := [(Examples.target, EmptyString)];
     Memory.list_fails := false;
     Memory.create_fails := false;
     Memory.append_fails := false |}.

(** A container whose blobs cannot be listed. *)
Definition unlisted : Memory.container :=
  {| Memory.blobs := [(Examples.target, "old"%string)];
     Memory.list_fails := true;
     Memory.create_fails := false;
     Memory.append_fails := false |}.

(** A container in which no blob can be created. *)
Definition sealed : Memory.container :=
  {| Memory.blobs := [];
     Memory.list_fails := false;
     Memory.create_fails := true;
     Memory.append_fails := false |}.

(** [os.getenv] with the connection string set and no container name. *)
Definition environ (name : string) : option string :=
  if String.eqb name "FD_BLOB_CONNECTION_STRING"
  then Some "UseDevelopmentStorage=true"%string
  else None.

(** An [arrow.get] that takes every [str] and nothing else. *)
Definition parses_str (v : pyval) : result unit :=
  match v with
  | PyStr _ => Ok tt
  | _ => Raise TypeError
  end.

(** A message with the three required fields and no [data]. *)
Definition bare_message : pyval :=
  PyDict [("tenant_id", PyStr "acme"); ("asset_id", PyInt 7);
          ("timestamp", PyStr "2024-01-01T08:15:00Z")].

(** Two records whose ids collide: [heartbeat-20240101-08-05]. *)
Definition dashed : pyval := Memory.record "heartbeat" "20240101T08-05" 1.
Definition shifted : pyval := Memory.record "heartbeat-20240101" "08T05" 2.

(** Two records with different keys and one blob name: [a.b.c.d.fd]. *)
Definition dotted : pyval := Memory.record "a.b" "cTd" 1.
Definition halved : pyval := Memory.record "a" "b.cTd" 2.

(** A record whose timestamp has a space where ISO-8601 has the [T]. *)
Definition spaced : pyval :=
  PyDict [("data", PyDict [("type", PyStr "heartbeat")]);
          ("meta", PyDict [("timestamp", PyStr "2024-01-01 08:15:00")])].

(** The writer of one tenant. *)
Definition acme : Writer.BlobWriter Memory.container :=
  Memory.writer Memory.empty Examples.three_MiB [Examples.small].

Definition tenants : gmap string (Writer.BlobWriter Memory.container) :=
  {[ "acme"%string := acme ]}.

(** Two tenants on one writer object. *)
Definition shared : App.state Memory.container :=
  {| App.objects := {[ 0 := acme ]};
     App.connections := {[ "acme"%string := 0; "beta"%string := 0 ]};
     App.blob_writers := {[ "acme"%string := 0; "beta"%string := 0 ]};
     App.blob_threads := ∅ |}.

End Fixtures.

(** ** What reaches a target *)

Module Delivery.
Import Py Writer.

(** The [append_block] calls of a run that are addressed to the blob [name]. *)
Definition calls_to (name : string) (out : list event) : list (string * string) :=
  List.filter (fun call => String.eqb call.1 name) (Notions.append_calls out).

(** The calls that hand over the given packets, one after the other. *)
Definition calls_of (name : string) (sent : list (list pyval)) : list (string * string) :=
  map (fun packet => (name, encode_utf8 (data_to_append packet))) sent.

Section Delivery.
Context {S : Type} `{Azure.ContainerClient S}.

(** A run in which the service refused to create the blob [name] for
    [append_data_to_blob]: the method made the call, the container client
    raised [e] in the state it was in, and the method logged [e] as the end
    of the append. *)
Definition creation_refused (name : string) (out : list event) : Prop :=
  exists before e after (c c' : S),
    out = before
          ++ [CreateAppendBlob name; LogError (MsgAppendAborted 0 name e)]
          ++ after
    /\ Azure.create_append_blob name c = (Raise e, c').

(** What the flush did with the group of a partition, when the packet size
    computed for the group is at least 1. *)
Definition group_sent (max_bytes : Z) (name : string) (data : list pyval)
    (out : list event) : Prop :=
  forall packet_size,
    packet_size_of max_bytes data = Ok packet_size ->
    (1 <= packet_size)%Z ->
    (exists sent, Notions.append_calls out = calls_of name sent /\ concat sent = data)
    \/ (Notions.append_calls out = [] /\ creation_refused name out).

End Delivery.

Arguments creation_refused S {_} name out.
Arguments group_sent S {_} max_bytes name data out.

End Delivery.

(** * Properties *)

(** ** Strings, keys and the two loops over a snapshot *)

Module PureFacts.
Import Py Writer Notions.

#[local] Arguments String.append : simpl nomatch.

Lemma length_append (a b : string) :
  String.length (a +:+ b) = String.length a + String.length b.
Proof. induction a as [|c a IH]; simpl; [done | by rewrite IH]. Qed.

(** Two texts that end in tails of one length agree on head and tail. *)
Lemma append_inj_tail (a c b d : string) :
  String.length b = String.length d -> a +:+ b = c +:+ d -> a = c /\ b = d.
Proof.
  revert c. induction a as [|x a IH]; intros [|y c] Hlen Heq; simpl in *.
  - done.
  - rewrite Heq in Hlen. simpl in Hlen. rewrite length_append in Hlen. lia.
  - rewrite <- Heq in Hlen. simpl in Hlen. rewrite length_append in Hlen. lia.
  - injection Heq as -> Heq. destruct (IH c Hlen Heq) as [-> ->]. done.
Qed.

Lemma clear_loop_spec (queue tmp_buffer : list pyval) :
  clear_loop queue tmp_buffer = (tmp_buffer ++ queue, []).
Proof.
  revert tmp_buffer. induction queue as [|m q IH]; intros tmp; simpl.
  - by rewrite app_nil_r.
  - rewrite IH. by rewrite <- app_assoc.
Qed.

Lemma key_of_fields item t d h :
  key_of item = Some (t, d, h) <-> item_fields item = Ok (PyStr t, d, h).
Proof.
  unfold key_of. split.
  - destruct (item_fields item) as [[[ty da] ti]|e]; [|discriminate].
    destruct ty; try discriminate. by intros [= -> -> ->].
  - by intros ->.
Qed.

Lemma key_eqb_eq a b : key_eqb a b = true <-> a = b.
Proof.
  destruct a as [[t d] h], b as [[t' d'] h']. unfold key_eqb.
  rewrite !andb_true_iff, !String.eqb_eq. split.
  - by intros [[-> ->] ->].
  - by intros [= -> -> ->].
Qed.

Lemma key_eqb_refl a : key_eqb a a = true.
Proof. by apply key_eqb_eq. Qed.

Lemma key_eqb_neq a b : key_eqb a b = false <-> a <> b.
Proof.
  rewrite <- key_eqb_eq. destruct (key_eqb a b); split; congruence.
Qed.

Lemma well_formed_key item :
  well_formed item = true <-> exists k, key_of item = Some k /\ dated k.
Proof.
  unfold well_formed. destruct (key_of item) as [[[t d] h]|].
  - rewrite andb_true_iff, !Nat.eqb_eq. split.
    + intros Hd. by exists (t, d, h).
    + by intros (k & [= <-] & Hd).
  - split; [done | by intros (k & ? & _)].
Qed.

Lemma well_formed_keyed item :
  well_formed item = true -> is_Some (key_of item).
Proof. intros (k & -> & _)%well_formed_key. by exists k. Qed.

(** On keys of that format the identifier of line 160 names one key only. *)
Lemma unique_id_inj (a b : key) :
  dated a -> dated b ->
  unique_id (PyStr a.1.1) a.1.2 a.2 = unique_id (PyStr b.1.1) b.1.2 b.2 -> a = b.
Proof.
  destruct a as [[t d] h], b as [[t' d'] h']. unfold unique_id. simpl.
  intros [Hd Hh] [Hd' Hh'] Heq.
  apply append_inj_tail in Heq as [-> Heq].
  2: { simpl. rewrite !length_append. simpl. lia. }
  injection Heq as Heq.
  apply append_inj_tail in Heq as [-> Heq]; [|simpl; lia].
  by injection Heq as ->.
Qed.

(** The blob name of line 134 names one key only, too. *)
Lemma file_name_inj (a b : key) :
  dated a -> dated b ->
  file_name (partition_of a) = file_name (partition_of b) -> a = b.
Proof.
  destruct a as [[t d] h], b as [[t' d'] h']. unfold file_name. simpl.
  intros [Hd Hh] [Hd' Hh'] Heq.
  apply append_inj_tail in Heq as [-> Heq].
  2: { simpl. rewrite !length_append. simpl. rewrite !length_append. simpl. lia. }
  injection Heq as Heq.
  apply append_inj_tail in Heq as [-> Heq].
  2: { simpl. rewrite !length_append. simpl. lia. }
  injection Heq as Heq.
  apply append_inj_tail in Heq as [-> _]; done.
Qed.

(** The test of line 180, for a key with a [str] type. *)
Lemma carries_fields item t d h type date time :
  item_fields item = Ok (type, date, time) ->
  carries (t, d, h) item
  = eq type (PyStr t) && String.eqb date d && String.eqb time h.
Proof.
  intros Hi. unfold carries, key_of. rewrite Hi. by destruct type.
Qed.

Lemma filter_loop_carries items t d h acc :
  Forall has_fields items ->
  filter_loop items (PyStr t) d h acc
  = Ok (acc ++ List.filter (carries (t, d, h)) items).
Proof.
  intros Hf. revert acc.
  induction Hf as [|item items [[[type date] time] Hi] _ IH]; intros acc.
  - simpl. by rewrite app_nil_r.
  - simpl. rewrite (carries_fields item t d h type date time Hi), Hi. simpl.
    destruct (_ && _ && _); rewrite IH; [|done].
    by rewrite <- app_assoc.
Qed.

(** [filter_by_type_and_date] keeps the records that carry the key, in the
    order of the snapshot. *)
Lemma filter_by_type_and_date_carries snapshot t d h :
  Forall has_fields snapshot ->
  filter_by_type_and_date snapshot (PyStr t) d h
  = Ok (List.filter (carries (t, d, h)) snapshot).
Proof. intros Hf. unfold filter_by_type_and_date. by rewrite filter_loop_carries. Qed.

Lemma fresh_false acc k : fresh acc k = false <-> In k acc.
Proof.
  unfold fresh. rewrite negb_false_iff, existsb_exists. split.
  - by intros (x & Hin & ->%key_eqb_eq).
  - intros Hin. exists k. by rewrite key_eqb_refl.
Qed.

Lemma fresh_true acc k : fresh acc k = true <-> ~ In k acc.
Proof.
  rewrite <- fresh_false. destruct (fresh acc k); split; congruence.
Qed.

Lemma filter_fresh_drop acc k l :
  In k acc ->
  List.filter (fresh acc) (List.filter (fun k' => negb (key_eqb k' k)) l)
  = List.filter (fresh acc) l.
Proof.
  intros Hin. induction l as [|x l IH]; simpl; [done|].
  destruct (key_eqb x k) eqn:E; simpl.
  - apply key_eqb_eq in E as ->.
    apply fresh_false in Hin. by rewrite Hin.
  - destruct (fresh acc x); by rewrite IH.
Qed.

Lemma filter_fresh_snoc acc k l :
  List.filter (fresh (acc ++ [k])) l
  = List.filter (fresh acc) (List.filter (fun k' => negb (key_eqb k' k)) l).
Proof.
  induction l as [|x l IH]; simpl; [done|].
  assert (fresh (acc ++ [k]) x = negb (key_eqb x k) && fresh acc x) as ->.
  { unfold fresh. rewrite existsb_app. simpl. rewrite orb_false_r.
    rewrite negb_orb. apply andb_comm. }
  destruct (key_eqb x k); simpl; [done|].
  destruct (fresh acc x); by rewrite IH.
Qed.

Lemma process_loop_first_seen items acc seen :
  Forall (fun item => well_formed item = true) items ->
  (forall k, dated k -> unique_id (PyStr k.1.1) k.1.2 k.2 ∈ seen <-> In k acc) ->
  process_loop items (map partition_of acc) seen
  = Ok (map partition_of
          (acc ++ List.filter (fresh acc) (first_seen (keys_of items)))).
Proof.
  intros Hwf. revert acc seen.
  induction Hwf as [|item items Hi _ IH]; intros acc seen Hseen.
  - simpl. by rewrite app_nil_r.
  - apply well_formed_key in Hi as ([[t d] h] & Hk & Hd).
    unfold keys_of. simpl. rewrite Hk. fold (keys_of items).
    apply key_of_fields in Hk. rewrite Hk. simpl.
    destruct (decide _) as [Hin|Hnin].
    + apply (Hseen (t, d, h) Hd) in Hin.
      rewrite (IH acc seen Hseen). simpl.
      apply fresh_false in Hin as Hf. rewrite Hf.
      by rewrite filter_fresh_drop.
    + assert (~ In (t, d, h) acc) as Hn by (by rewrite <- (Hseen (t, d, h) Hd)).
      apply fresh_true in Hn as Hf. simpl. rewrite Hf.
      change [{| k_type := PyStr t; k_date := d; k_time := h |}]
        with (map partition_of [(t, d, h)]).
      rewrite <- map_app. rewrite (IH (acc ++ [(t, d, h)])).
      * rewrite filter_fresh_snoc. by rewrite <- app_assoc.
      * intros k Hdk. rewrite in_app_iff, elem_of_union, elem_of_singleton.
        rewrite (Hseen k Hdk). simpl. split.
        -- intros [Heq|Hin]; [|by left]. right. left.
           symmetry. by apply (unique_id_inj k (t, d, h)).
        -- intros [Hin|[<-|[]]]; [by right | by left].
Qed.

Lemma filter_fresh_nil l : List.filter (fresh []) l = l.
Proof. induction l as [|x l IH]; simpl; [done | by rewrite IH]. Qed.

(** [process_input_array] lists the keys of a snapshot at their first
    occurrence. *)
Lemma process_input_array_first_seen snapshot :
  Forall (fun item => well_formed item = true) snapshot ->
  process_input_array snapshot
  = Ok (map partition_of (first_seen (keys_of snapshot))).
Proof.
  intros Hwf. unfold process_input_array.
  rewrite (process_loop_first_seen snapshot [] ∅ Hwf).
  - simpl. by rewrite filter_fresh_nil.
  - intros k _. simpl. split; [by intros ?%not_elem_of_empty | done].
Qed.

Lemma keyed_has_fields item : is_Some (key_of item) -> has_fields item.
Proof.
  intros [[[t d] h] Hk]. apply key_of_fields in Hk. by exists (PyStr t, d, h).
Qed.

(** The first record that cannot be read ends [process_input_array] with
    its exception. *)
Lemma process_loop_raise good bad rest e acc seen :
  Forall has_fields good ->
  item_fields bad = Raise e ->
  process_loop (good ++ bad :: rest) acc seen = Raise e.
Proof.
  intros Hgood Hbad. revert acc seen.
  induction Hgood as [|item good [[[t d] h] Hi] _ IH]; intros acc seen; simpl.
  - by rewrite Hbad.
  - rewrite Hi. simpl. by destruct (decide _).
Qed.

Lemma process_loop_ok items acc seen :
  Forall has_fields items ->
  exists blob_data,
    process_loop items acc seen = Ok blob_data
    /\ forall data, In data blob_data ->
         In data acc
         \/ exists item, In item items
              /\ item_fields item = Ok (k_type data, k_date data, k_time data).
Proof.
  intros Hf. revert acc seen.
  induction Hf as [|item items [[[t d] h] Hi] _ IH]; intros acc seen; simpl.
  - exists acc. eauto.
  - rewrite Hi. simpl. destruct (decide _).
    + destruct (IH acc seen) as (blob_data & -> & Hin). exists blob_data.
      split; [done|]. intros data Hd. destruct (Hin data Hd) as [?|(it & ? & ?)]; eauto 6.
    + destruct (IH (acc ++ [{| k_type := t; k_date := d; k_time := h |}])
                  ({[unique_id t d h]} ∪ seen)) as (blob_data & -> & Hin).
      exists blob_data. split; [done|]. intros data Hd.
      destruct (Hin data Hd) as [[?|[<-|[]]]%in_app_iff|(it & ? & ?)]; eauto 6.
Qed.

Lemma process_loop_ok_inv items acc seen blob_data :
  process_loop items acc seen = Ok blob_data -> Forall has_fields items.
Proof.
  revert acc seen. induction items as [|item items IH]; intros acc seen; simpl.
  - constructor.
  - destruct (item_fields item) as [[[t d] h]|e] eqn:Hi; simpl; [|done].
    intros Hp. constructor; [by eexists|].
    destruct (decide _); eauto.
Qed.

Lemma filter_loop_fields items t d h acc :
  Forall has_fields items ->
  exists file_data, filter_loop items t d h acc = Ok file_data.
Proof.
  intros Hf. revert acc.
  induction Hf as [|item items [[[t' d'] h'] Hi] _ IH]; intros acc; simpl.
  - by exists acc.
  - rewrite Hi. simpl. destruct (_ && _ && _); apply IH.
Qed.

End PureFacts.

(** ** Ranges, slices and packet texts *)

Module PacketFacts.
Import Py Writer Notions PureFacts.

#[local] Arguments String.append : simpl nomatch.

Lemma slice_take_drop {A} (l : list A) (i n : Z) :
  (0 <= i)%Z -> (0 <= n)%Z ->
  slice l i (i + n) = take (Z.to_nat n) (drop (Z.to_nat i) l).
Proof.
  intros Hi Hn. unfold slice, clamp.
  destruct (Z.ltb_spec i 0) as [?|_]; [lia|].
  destruct (Z.ltb_spec (i + n) 0) as [?|_]; [lia|].
  destruct (Z.le_gt_cases (Z.of_nat (length l)) i) as [Hge|Hlt].
  - rewrite !Z.min_r by lia. rewrite Nat.sub_diag. simpl.
    rewrite (drop_ge l (Z.to_nat i)) by lia. by rewrite take_nil.
  - rewrite (Z.min_l i) by lia.
    destruct (Z.le_gt_cases (i + n) (Z.of_nat (length l))) as [Hle|Hgt].
    + rewrite Z.min_l by lia. f_equal. lia.
    + rewrite Z.min_r by lia.
      rewrite !take_ge; [done | |]; rewrite length_drop; lia.
Qed.

Lemma chunks_concat {A} (p c : nat) (l : list A) :
  length l <= c * p ->
  concat (map (fun j => take p (drop (j * p) l)) (seq 0 c)) = l.
Proof.
  revert l. induction c as [|c IH]; intros l Hlen.
  - simpl in *. destruct l; [done | simpl in Hlen; lia].
  - cbn [seq map concat]. rewrite <- seq_shift, map_map. simpl (0 * p). rewrite drop_0.
    transitivity (take p l ++ drop p l); [|apply take_drop]. f_equal.
    rewrite <- (IH (drop p l)) by (rewrite length_drop; lia).
    f_equal. apply map_ext. intros j. f_equal.
    rewrite drop_drop. f_equal; lia.
Qed.

Lemma range_starts (n : nat) (packet_size : Z) :
  (1 <= packet_size)%Z ->
  range 0 (Z.of_nat n) packet_size
  = Ok (map (fun j => (Z.of_nat j * packet_size)%Z) (seq 0 (packet_count n packet_size))).
Proof.
  intros Hps. unfold range, packet_count.
  destruct (Z.eqb_spec packet_size 0) as [?|_]; [lia|].
  destruct (Z.ltb_spec 0 packet_size) as [_|?]; [|lia].
  rewrite Z.sub_0_r. by destruct (0 <? Z.of_nat n)%Z.
Qed.

Lemma packet_count_covers (n : nat) (packet_size : Z) :
  (1 <= packet_size)%Z ->
  n <= packet_count n packet_size * Z.to_nat packet_size.
Proof.
  intros Hps. unfold packet_count.
  destruct (Z.ltb_spec 0 (Z.of_nat n)) as [Hn|Hn]; [|lia].
  pose proof (Z.div_mod (Z.of_nat n + packet_size - 1) packet_size) as Hdm.
  pose proof (Z.mod_pos_bound (Z.of_nat n + packet_size - 1) packet_size) as Hb.
  assert (0 <= (Z.of_nat n + packet_size - 1) / packet_size)%Z
    by (apply Z.div_pos; lia).
  nia.
Qed.

Lemma packet_count_starts_inside (n : nat) (packet_size : Z) (j : nat) :
  (1 <= packet_size)%Z ->
  j < packet_count n packet_size -> j * Z.to_nat packet_size < n.
Proof.
  intros Hps. unfold packet_count.
  destruct (Z.ltb_spec 0 (Z.of_nat n)) as [Hn|Hn]; [|lia].
  pose proof (Z.div_mod (Z.of_nat n + packet_size - 1) packet_size) as Hdm.
  pose proof (Z.mod_pos_bound (Z.of_nat n + packet_size - 1) packet_size) as Hb.
  assert (0 <= (Z.of_nat n + packet_size - 1) / packet_size)%Z
    by (apply Z.div_pos; lia).
  intros Hj. nia.
Qed.

Lemma packets_take_drop (data : list pyval) (packet_size : Z) :
  (1 <= packet_size)%Z ->
  packets data packet_size
    (map (fun j => (Z.of_nat j * packet_size)%Z)
       (seq 0 (packet_count (length data) packet_size)))
  = map (fun j => take (Z.to_nat packet_size) (drop (j * Z.to_nat packet_size) data))
      (seq 0 (packet_count (length data) packet_size)).
Proof.
  intros Hps. unfold packets. rewrite map_map. apply map_ext. intros j.
  rewrite slice_take_drop by lia. do 2 f_equal. lia.
Qed.

(** The packets of a group, put end to end, are the group. *)
Lemma packets_concat (data : list pyval) (packet_size : Z) (starts : list Z) :
  (1 <= packet_size)%Z ->
  range 0 (Z.of_nat (length data)) packet_size = Ok starts ->
  concat (packets data packet_size starts) = data.
Proof.
  intros Hps. rewrite range_starts by done. intros [= <-].
  rewrite packets_take_drop by done.
  apply chunks_concat. by apply packet_count_covers.
Qed.

(** No packet is empty and none holds more than [packet_size] records. *)
Lemma packets_length (data : list pyval) (packet_size : Z) (starts : list Z) :
  (1 <= packet_size)%Z ->
  range 0 (Z.of_nat (length data)) packet_size = Ok starts ->
  Forall (fun packet => 1 <= length packet /\ (Z.of_nat (length packet) <= packet_size)%Z)
    (packets data packet_size starts).
Proof.
  intros Hps. rewrite range_starts by done. intros [= <-].
  rewrite packets_take_drop by done.
  apply List.Forall_forall. intros packet (j & <- & Hj%in_seq)%in_map_iff.
  rewrite length_take, length_drop.
  pose proof (packet_count_starts_inside (length data) packet_size j Hps) as Hin.
  lia.
Qed.

Lemma packets_incl (data : list pyval) (packet_size : Z) (starts : list Z) :
  (1 <= packet_size)%Z ->
  range 0 (Z.of_nat (length data)) packet_size = Ok starts ->
  Forall (fun packet => incl packet data) (packets data packet_size starts).
Proof.
  intros Hps. rewrite range_starts by done. intros [= <-].
  rewrite packets_take_drop by done.
  apply List.Forall_forall. intros packet (j & <- & _)%in_map_iff x Hx.
  apply list_elem_of_In in Hx. apply list_elem_of_In.
  by apply (subseteq_drop (j * Z.to_nat packet_size)), (subseteq_take (Z.to_nat packet_size)).
Qed.

Lemma encode_utf8_append (a b : string) :
  encode_utf8 (a +:+ b) = encode_utf8 a +:+ encode_utf8 b.
Proof.
  induction a as [|c a IH]; simpl; [done|].
  rewrite IH. unfold utf8_char. by destruct (_ <? _)%N.
Qed.

Lemma join_lines_length (lines : list string) :
  lines <> [] ->
  String.length (encode_utf8 (join (str1 newline) lines)) + 1
  = list_sum (map (fun x => String.length (encode_utf8 x)) lines) + length lines.
Proof.
  induction lines as [|x [|y lines] IH]; intros Hne; [done | simpl; lia |].
  specialize (IH ltac:(done)).
  change (join (str1 newline) (x :: y :: lines))
    with (x +:+ str1 newline +:+ join (str1 newline) (y :: lines)).
  rewrite !encode_utf8_append, !length_append.
  change (String.length (encode_utf8 (str1 newline))) with 1.
  unfold list_sum in *. cbn [map fold_right length] in *. lia.
Qed.

(** The bytes of a packet text: the bytes of its records and one line end
    for each. *)
Lemma payload_length (packet : list pyval) :
  packet <> [] ->
  String.length (encode_utf8 (data_to_append packet))
  = list_sum (map record_size packet) + length packet.
Proof.
  intros Hne. unfold data_to_append.
  rewrite encode_utf8_append, length_append.
  change (String.length (encode_utf8 (str1 newline))) with 1.
  rewrite join_lines_length by (by destruct packet).
  by rewrite map_map, length_map.
Qed.

Lemma list_sum_uniform (l : list nat) (s : nat) :
  Forall (fun x => x = s) l -> list_sum l = length l * s.
Proof.
  induction 1 as [|x l -> _ IH]; [done|].
  change (list_sum (s :: l)) with (s + list_sum l). rewrite IH. simpl. lia.
Qed.

End PacketFacts.

(** ** The methods *)

Module MethodFacts.
Import Py Writer Notions PureFacts PacketFacts.

Lemma append_calls_app (a b : list event) :
  append_calls (a ++ b) = append_calls a ++ append_calls b.
Proof.
  induction a as [|e a IH]; simpl; [done|]. destruct e; simpl; by rewrite ?IH.
Qed.

Lemma targets_app (a b : list event) :
  targets (a ++ b) = targets a ++ targets b.
Proof.
  induction a as [|e a IH]; simpl; [done|].
  destruct e as [m|m|m| |b'|b' p]; simpl; rewrite ?IH; try done.
  destruct m; simpl; by rewrite ?IH.
Qed.

Lemma announced_app (a b : list event) :
  announced (a ++ b) = announced a ++ announced b.
Proof.
  induction a as [|e a IH]; simpl; [done|].
  destruct e as [m|m|m| |b'|b' p]; simpl; rewrite ?IH; try done.
  destruct m; simpl; by rewrite ?IH.
Qed.

Lemma announced_targets (out : list event) : targets out = [] -> announced out = [].
Proof.
  induction out as [|e out IH]; simpl; [done|].
  destruct e as [m|m|m| |b'|b' p]; simpl; try done. by destruct m.
Qed.

Section Facts.
Context {S : Type} `{Azure.ContainerClient S}.
Implicit Types (self w : BlobWriter S).

Lemma set_container_client_id self :
  set_container_client (container_client self) self = self.
Proof. by destruct self. Qed.

Lemma spec_weaken {A} w (m : M S A) (Q Q' : result A -> list event -> Prop) :
  spec w m Q -> (forall r out, Q r out -> Q' r out) -> spec w m Q'.
Proof.
  intros Hm HQ c. destruct (Hm c) as (r & c' & out & Heq & Hq). eauto 6.
Qed.

Lemma spec_ret {A} w (a : A) (Q : result A -> list event -> Prop) :
  Q (Ok a) [] -> spec w (ret a) Q.
Proof. intros Hq c. by exists (Ok a), c, []. Qed.

Lemma spec_lift {A} w (r : result A) (Q : result A -> list event -> Prop) :
  Q r [] -> spec w (lift r) Q.
Proof. intros Hq c. by exists r, c, []. Qed.

Lemma spec_emit w (e : event) (Q : result unit -> list event -> Prop) :
  Q (Ok tt) [e] -> spec w (emit e) Q.
Proof. intros Hq c. by exists (Ok tt), c, [e]. Qed.

Lemma spec_gets {A} w (f : BlobWriter S -> A) (Q : result A -> list event -> Prop) :
  (forall c, Q (Ok (f (set_container_client c w))) []) -> spec w (gets f) Q.
Proof. intros Hq c. exists (Ok (f (set_container_client c w))), c, []. eauto. Qed.

Lemma spec_call {A} w (e : event) (op : S -> result A * S)
    (Q : result A -> list event -> Prop) :
  (forall r, Q r [e]) -> spec w (call e op) Q.
Proof.
  intros Hq c. unfold call. simpl. destruct (op c) as [r c']. by exists r, c', [e].
Qed.

Lemma spec_bind {A B} w (m : M S A) (k : A -> M S B)
    (Q1 : result A -> list event -> Prop) (Q : result B -> list event -> Prop) :
  spec w m Q1 ->
  (forall a o1, Q1 (Ok a) o1 -> spec w (k a) (fun r o2 => Q r (o1 ++ o2))) ->
  (forall e o1, Q1 (Raise e) o1 -> Q (Raise e) o1) ->
  spec w (bind m k) Q.
Proof.
  intros Hm Hk He c. unfold bind.
  destruct (Hm c) as ([a|e] & c1 & o1 & -> & Hq1).
  - destruct (Hk a o1 Hq1 c1) as (r & c2 & o2 & -> & Hq). by exists r, c2, (o1 ++ o2).
  - exists (Raise e), c1, o1. eauto.
Qed.

Lemma spec_try_except {A} w (body : M S A) (handler : exn -> M S A)
    (Q1 Q : result A -> list event -> Prop) :
  spec w body Q1 ->
  (forall a o1, Q1 (Ok a) o1 -> Q (Ok a) o1) ->
  (forall e o1, Q1 (Raise e) o1 -> spec w (handler e) (fun r o2 => Q r (o1 ++ o2))) ->
  spec w (try_except body handler) Q.
Proof.
  intros Hm Ha Hh c. unfold try_except.
  destruct (Hm c) as ([a|e] & c1 & o1 & -> & Hq1).
  - exists (Ok a), c1, o1. eauto.
  - destruct (Hh e o1 Hq1 c1) as (r & c2 & o2 & -> & Hq). by exists r, c2, (o1 ++ o2).
Qed.

(** A loop whose body always returns: the events are those of the turns. *)
Lemma spec_for_each {A} w (l : list A) (body : A -> M S unit)
    (P : A -> list event -> Prop) :
  (forall x, In x l -> spec w (body x) (fun r o => r = Ok tt /\ P x o)) ->
  spec w (for_each l body)
    (fun r out => r = Ok tt /\ exists outs, out = concat outs /\ Forall2 P l outs).
Proof.
  induction l as [|x l IH]; intros Hbody; simpl.
  - apply spec_ret. split; [done|]. exists []. by split; [|constructor].
  - eapply spec_bind.
    + apply Hbody. by left.
    + intros [] o1 [_ Hp]. eapply spec_weaken.
      * apply IH. intros y Hy. apply Hbody. by right.
      * simpl. intros r o2 (-> & outs & -> & Hall). split; [done|].
        exists (o1 :: outs). split; [done | by constructor].
    + by intros e o1 [[=] _].
Qed.

Lemma about_app name a b : about name a -> about name b -> about name (a ++ b).
Proof.
  intros [Ha Ha'] [Hb Hb']. split.
  - intros x. rewrite targets_app, in_app_iff. intros [?|?]; eauto.
  - by rewrite announced_app, Ha', Hb'.
Qed.

Lemma about_nil name : about name [].
Proof. by split; [intros b []|]. Qed.

(** A call on the blob, or an event that names no blob. *)
Lemma about_one name e :
  targets [e] = [name] \/ targets [e] = [] -> announced [e] = [] -> about name [e].
Proof.
  intros Ht Ha. split; [|done]. intros b. destruct Ht as [-> | ->]; [|done].
  by intros [<-|[]].
Qed.

Lemma quiet_about name out : quiet out -> about name out.
Proof.
  intros [_ Ht]. split; [intros b; by rewrite Ht|]. by apply announced_targets.
Qed.

Lemma list_blob_names_spec w :
  spec w list_blob_names (fun r out => (exists names, r = Ok names) /\ quiet out).
Proof.
  unfold list_blob_names. eapply spec_try_except.
  - apply (spec_call _ _ _ (fun _ out => out = [ListBlobs])). done.
  - intros a o1 ->. split; [by exists a | done].
  - intros e o1 ->. eapply spec_bind.
    + apply (spec_emit _ _ (fun r out => r = Ok tt /\ out = [Stdout (MsgListFailed e)])). done.
    + intros [] o [_ ->]. apply spec_ret. split; [by exists [] | done].
    + by intros e' o [[=] _].
Qed.

Lemma create_append_blob_spec w name :
  spec w (create_append_blob name)
    (fun r out => r = Ok tt /\ append_calls out = [] /\ about name out).
Proof.
  unfold create_append_blob.
  eapply (spec_try_except _ _ _
            (fun r out => append_calls out = [] /\ about name out)).
  - eapply spec_bind; [apply list_blob_names_spec | |].
    + intros names o1 [_ [Hc Ht]]. destruct (decide _).
      * apply spec_ret. rewrite app_nil_r. split; [done | by apply quiet_about].
      * apply spec_call. intros r. rewrite append_calls_app, Hc. split; [done|].
        apply about_app; [by apply quiet_about|]. apply about_one; [by left | done].
    + intros e o1 [(names & [=]) _].
  - by intros [] o1 [? ?].
  - intros e o1 [Hc Ht]. apply spec_emit.
    rewrite append_calls_app, Hc. split; [done|]. split; [done|].
    apply about_app; [done|]. apply about_one; [by right | done].
Qed.

(** One turn of the packet loop: one [append_block] call, and a log record
    when it fails. *)
Lemma append_packet_spec w name data packet_size i :
  spec w (append_packet name data packet_size i)
    (fun r out =>
       r = Ok tt
       /\ append_calls out
          = [(name, encode_utf8 (data_to_append (slice data i (i + packet_size))))]
       /\ about name out).
Proof.
  unfold append_packet.
  eapply (spec_try_except _ _ _
            (fun r out =>
               out = [AppendBlock name
                        (encode_utf8 (data_to_append (slice data i (i + packet_size))))])).
  - by apply spec_call.
  - intros [] o1 ->. split; [done|]. split; [done|]. apply about_one; [by left | done].
  - intros e o1 ->. apply spec_emit. split; [done|]. split; [done|].
    apply (about_app name [_] [_]); apply about_one; [by left | done | by right | done].
Qed.

Lemma append_loop_spec w name data packet_size starts :
  spec w (for_each starts (append_packet name data packet_size))
    (fun r out =>
       r = Ok tt
       /\ append_calls out
          = map (fun packet => (name, encode_utf8 (data_to_append packet)))
              (packets data packet_size starts)
       /\ about name out).
Proof.
  eapply spec_weaken.
  - apply (spec_for_each w starts _
             (fun i out =>
                append_calls out
                = [(name, encode_utf8 (data_to_append (slice data i (i + packet_size))))]
                /\ about name out)).
    intros i _. apply append_packet_spec.
  - simpl. intros r out (-> & outs & -> & Hall). split; [done|].
    induction Hall as [|i o starts outs [Hc Ha] _ [IHc IHa]];
      [split; [done | apply about_nil]|].
    simpl. rewrite append_calls_app, Hc, IHc. split; [done|].
    by apply about_app.
Qed.

(** The packet loop of a positive packet size: every packet is handed to
    [append_block], in order, whether the calls before it failed or not. *)
Lemma append_packets_run self name data packet_size :
  (1 <= packet_size)%Z ->
  exists c out starts,
    append_packets name data packet_size self
    = (Ok tt, set_container_client c self, out)
    /\ range 0 (Z.of_nat (length data)) packet_size = Ok starts
    /\ append_calls out
       = map (fun packet => (name, encode_utf8 (data_to_append packet)))
           (packets data packet_size starts).
Proof.
  intros Hps. unfold append_packets, bind, lift.
  rewrite range_starts by done.
  destruct (append_loop_spec self name data packet_size
              (map (fun j => (Z.of_nat j * packet_size)%Z)
                 (seq 0 (packet_count (length data) packet_size)))
              (container_client self))
    as (r & c & out & Hrun & -> & Hcalls & _).
  rewrite set_container_client_id in Hrun. rewrite Hrun.
  by exists c, out, (map (fun j => (Z.of_nat j * packet_size)%Z)
                   (seq 0 (packet_count (length data) packet_size))).
Qed.

Lemma append_data_to_blob_spec w name data :
  spec w (append_data_to_blob name data)
    (fun r out =>
       r = Ok tt /\ about name out
       /\ append_outcome (max_packet_size_bytes w) name data out).
Proof.
  unfold append_data_to_blob.
  eapply (spec_try_except _ _ _
            (fun r out =>
               about name out
               /\ match r with
                  | Ok _ => append_outcome (max_packet_size_bytes w) name data out
                  | Raise _ => append_calls out = []
                  end)).
  - eapply spec_bind; [apply list_blob_names_spec | |].
    2: { intros e o1 [(names & [=]) _]. }
    intros names o1 [_ Hq1].
    eapply (spec_bind _ _ _ (fun r out => append_calls out = [] /\ about name out)).
    { destruct (decide _).
      - apply spec_ret. split; [done | apply about_nil].
      - apply spec_call. intros r. split; [done | apply about_one; [by left | done]]. }
    2: { intros e o2 [Hc Ha]. rewrite append_calls_app, Hc, (proj1 Hq1).
         split; [|done]. apply about_app; [by apply quiet_about | done]. }
    intros [] o2 [Hc2 Ha2].
    eapply spec_bind.
    { apply (spec_gets _ _ (fun r out => r = Ok (max_packet_size_bytes w) /\ out = [])).
      by intros c. }
    2: { by intros e o [[=] _]. }
    intros max_bytes o3 [[= ->] ->].
    eapply spec_bind.
    { apply (spec_lift _ _ (fun r out =>
               r = packet_size_of (max_packet_size_bytes w) data /\ out = [])). done. }
    2: { intros e o [_ ->]. rewrite !app_nil_r, append_calls_app, Hc2, (proj1 Hq1).
         split; [|done]. apply about_app; [by apply quiet_about | done]. }
    intros packet_size o4 [Hps ->]. unfold append_packets.
    eapply spec_bind.
    { apply (spec_lift _ _ (fun r out =>
               r = range 0 (Z.of_nat (length data)) packet_size /\ out = [])). done. }
    2: { intros e o [_ ->]. rewrite !app_nil_r, append_calls_app, Hc2, (proj1 Hq1).
         split; [|done]. apply about_app; [by apply quiet_about | done]. }
    intros starts o5 [Hst ->].
    eapply spec_weaken; [apply append_loop_spec|].
    simpl. intros r out (-> & Hc & Ha).
    split.
    + apply about_app; [by apply quiet_about|]. by apply about_app.
    + eapply sent; [done..|].
      by rewrite !append_calls_app, (proj1 Hq1), Hc2.
  - intros [] o1 [? ?]. done.
  - intros e o1 [Ha Hc]. apply spec_emit. split; [done|]. split.
    + apply about_app; [done | apply about_one; [by right | done]].
    + eapply abandoned; [done|]. rewrite append_calls_app, Hc. done.
Qed.

Lemma write_partition_spec w tmp_buffer data :
  Forall has_fields tmp_buffer ->
  spec w (write_partition tmp_buffer data)
    (fun r out =>
       r = Ok tt
       /\ partition_events tmp_buffer (max_packet_size_bytes w) data out).
Proof.
  intros Hf. unfold write_partition.
  destruct (filter_loop_fields tmp_buffer (k_type data) (k_date data) (k_time data) []
              Hf) as (file_data & Hfd).
  eapply spec_bind.
  { apply (spec_lift _ _ (fun r out => r = Ok file_data /\ out = [])). done. }
  2: { by intros e o [[=] _]. }
  intros ? o1 [[= ->] ->].
  eapply spec_bind.
  { apply (spec_emit _ _ (fun r out =>
             r = Ok tt /\ out = [LogInfo (MsgWriting (file_name data))])).
    done. }
  2: { by intros e o [[=] _]. }
  intros [] o2 [_ ->].
  eapply spec_bind; [apply create_append_blob_spec | |].
  2: { by intros e o [[=] _]. }
  intros [] o3 (_ & Hc3 & Ha3).
  eapply spec_weaken; [apply append_data_to_blob_spec|].
  simpl. intros r o4 (-> & Ha4 & Hout). split; [done|].
  destruct (about_app _ _ _ Ha3 Ha4) as [Htargets Hnone].
  split; [|split].
  - intros b [<-|Hb]; [done | by apply Htargets].
  - simpl. by rewrite Hnone.
  - exists file_data, (LogInfo (MsgWriting (file_name data)) :: o3), o4.
    repeat split; done.
Qed.

Lemma clear_buffer_run self :
  clear_buffer self = (Ok (buffer self), set_buffer [] self, []).
Proof. unfold clear_buffer. by rewrite clear_loop_spec. Qed.

(** A snapshot that [process_input_array] cannot read ends the flush there. *)
Lemma write_buffer_to_blob_raise self e :
  process_input_array (buffer self) = Raise e ->
  write_buffer_to_blob self = (Raise e, set_buffer [] self, []).
Proof.
  intros Hp. unfold write_buffer_to_blob, bind. rewrite clear_buffer_run.
  unfold lift. by rewrite Hp.
Qed.

(** Otherwise the flush returns, having gone through the partitions in the
    order of [process_input_array]. *)
Lemma write_buffer_to_blob_ok self blob_data :
  process_input_array (buffer self) = Ok blob_data ->
  exists c outs,
    write_buffer_to_blob self
    = (Ok tt, set_container_client c (set_buffer [] self), concat outs)
    /\ Forall2 (partition_events (buffer self) (max_packet_size_bytes self))
         blob_data outs.
Proof.
  intros Hp. unfold write_buffer_to_blob, bind. rewrite clear_buffer_run.
  unfold lift. rewrite Hp.
  apply process_loop_ok_inv in Hp as Hf.
  destruct (spec_for_each (set_buffer [] self) blob_data
              (write_partition (buffer self))
              (partition_events (buffer self) (max_packet_size_bytes self))
              (fun data _ => write_partition_spec _ _ data Hf)
              (container_client self))
    as (r & c & out & Hrun & -> & outs & -> & Hall).
  replace (set_container_client (container_client self) (set_buffer [] self))
    with (set_buffer [] self) in Hrun by (by destruct self).
  rewrite Hrun.
  by exists c, outs.
Qed.

Lemma stop_run self :
  stop self
  = match write_buffer_to_blob (halted self) with
    | (Ok _, self', out) => (Ok tt, self', Stdout MsgStop :: out ++ [Stdout MsgStopDone])
    | (Raise e, self', out) => (Raise e, self', Stdout MsgStop :: out)
    end.
Proof.
  unfold stop, halted, bind, emit, modify, gets. simpl.
  destruct (timer self) as [t|] eqn:Ht; simpl.
  - by destruct (write_buffer_to_blob _) as [[[[]|e] self'] out].
  - assert (set_running false self = set_timer None (set_running false self)) as <-.
    { destruct self as [? ? ? ? ? [t|] ?]; simpl in *; [discriminate | reflexivity]. }
    by destruct (write_buffer_to_blob _) as [[[[]|e] self'] out].
Qed.


Lemma targets_concat (outs : list (list event)) (b : string) :
  In b (targets (concat outs)) -> exists out, In out outs /\ In b (targets out).
Proof.
  induction outs as [|o outs IH]; simpl; [done|].
  rewrite targets_app, in_app_iff. intros [Hb|Hb]; [by eauto|].
  destruct (IH Hb) as (out & ? & ?). eauto.
Qed.



End Facts.
End MethodFacts.

(** ** Timestamps and target names *)

Module TimestampFacts.
Import Py Writer Notions PureFacts.

#[local] Arguments String.append : simpl nomatch.

Lemma split_on_nonempty sep s : split_on sep s <> [].
Proof.
  destruct s as [|c s]; simpl; [done|].
  destruct (Ascii.eqb c sep); [done|]. by destruct (split_on sep s).
Qed.










End TimestampFacts.

(** ** Partitions *)

Module PartitionFacts.
Import Py Writer Notions PureFacts.

Lemma first_seen_In (l : list key) (k : key) : In k (first_seen l) <-> In k l.
Proof.
  induction l as [|x l IH]; simpl; [done|].
  rewrite filter_In, IH, negb_true_iff, key_eqb_neq.
  destruct (key_eqb x k) eqn:E.
  - apply key_eqb_eq in E. tauto.
  - apply key_eqb_neq in E. split; [tauto|]. intros [?|?]; [tauto|].
    right. split; [done | congruence].
Qed.

Lemma first_seen_NoDup (l : list key) : List.NoDup (first_seen l).
Proof.
  induction l as [|x l IH]; simpl; [constructor|].
  apply List.NoDup_cons; [|by apply List.NoDup_filter].
  rewrite filter_In, negb_true_iff, key_eqb_neq. tauto.
Qed.



Lemma keys_of_In (snapshot : list pyval) (item : pyval) (k : key) :
  In item snapshot -> key_of item = Some k -> In k (keys_of snapshot).
Proof.
  intros Hin Hk. apply list_elem_of_In, list_elem_of_omap.
  exists item. by rewrite list_elem_of_In.
Qed.

Lemma group_of_carries (snapshot : list pyval) (k : key) :
  Forall has_fields snapshot ->
  group_of snapshot k = Ok (List.filter (carries k) snapshot).
Proof. destruct k as [[t d] h]. apply filter_by_type_and_date_carries. Qed.

Lemma carries_key (k k' : key) (item : pyval) :
  key_of item = Some k -> carries k' item = true <-> k' = k.
Proof.
  intros Hk. unfold carries. rewrite Hk, key_eqb_eq. split; congruence.
Qed.

End PartitionFacts.

(** ** Producers and flushes *)

Module InterleavingFacts.
Import Py Interleaving.

Lemma drained_get (fs : list flush) (i : nat) (f : flush) (message : pyval) :
  fs !! i = Some f ->
  Permutation
    (concat (map tmp_buffer
               (<[i := {| tmp_buffer := tmp_buffer f ++ [message];
                          returned := false |}]> fs)))
    (message :: concat (map tmp_buffer fs)).
Proof.
  revert i. induction fs as [|g fs IH]; intros [|i] Hi; simpl in *; try done.
  - injection Hi as ->. rewrite <- app_assoc. simpl.
    symmetry. apply Permutation_middle.
  - rewrite (IH i Hi). symmetry. apply Permutation_middle.
Qed.

Lemma drained_return (fs : list flush) (i : nat) (f : flush) :
  fs !! i = Some f ->
  concat (map tmp_buffer
            (<[i := {| tmp_buffer := tmp_buffer f; returned := true |}]> fs))
  = concat (map tmp_buffer fs).
Proof.
  revert i. induction fs as [|g fs IH]; intros [|i] Hi; simpl in *; try done.
  - by injection Hi as ->.
  - by rewrite (IH i Hi).
Qed.

(** An operation moves messages, it neither copies nor loses one. *)
Lemma step_keeps_messages (o : op) (st st' : state) :
  step o st = Some st' ->
  Permutation (puts [o] ++ drained st ++ queue st) (drained st' ++ queue st').
Proof.
  unfold drained. destruct o as [message| |i|i]; simpl.
  - intros [= <-]. simpl. rewrite app_assoc. apply Permutation_cons_append.
  - intros [= <-]. simpl. by rewrite map_app, concat_app, app_nil_r.
  - destruct (flushes st !! i) as [f|] eqn:Hf; [|done].
    destruct (queue st) as [|message rest]; [done|].
    destruct (returned f); [done|]. intros [= <-]. simpl.
    rewrite (drained_get _ _ _ _ Hf). simpl. symmetry. apply Permutation_middle.
  - destruct (flushes st !! i) as [f|] eqn:Hf; [|done].
    destruct (queue st) as [|message rest] eqn:Hq; [|done].
    destruct (returned f); [done|]. intros [= <-]. simpl.
    by rewrite (drained_return _ _ _ Hf).
Qed.

Lemma run_keeps_messages (ops : list op) (st st' : state) :
  run ops st = Some st' ->
  Permutation (puts ops ++ drained st ++ queue st) (drained st' ++ queue st').
Proof.
  revert st. induction ops as [|o ops IH]; intros st; simpl.
  - by intros [= <-].
  - destruct (step o st) as [st1|] eqn:Hstep; [|done]. intros Hrun.
    rewrite <- (IH st1 Hrun), <- (step_keeps_messages o st st1 Hstep).
    change (match o with Put m => m :: puts ops | _ => puts ops end)
      with (puts (o :: ops)).
    replace (puts (o :: ops)) with (puts [o] ++ puts ops) by (by destruct o).
    rewrite <- app_assoc. apply Permutation_app_swap_app.
Qed.

(** A flush that no other thread disturbs is [clear_loop]: it returns the
    whole queue, oldest message first. *)
Lemma flush_loop_alone (fs : list flush) (q tmp : list pyval) :
  run (repeat (Get (length fs)) (length q) ++ [Return (length fs)])
    {| queue := q; flushes := fs ++ [{| tmp_buffer := tmp; returned := false |}] |}
  = Some {| queue := [];
            flushes := fs ++ [{| tmp_buffer := (Writer.clear_loop q tmp).1;
                                 returned := true |}] |}.
Proof.
  revert tmp. induction q as [|message q IH]; intros tmp; simpl.
  - rewrite list_lookup_middle by done. simpl.
    rewrite insert_app_r_alt, Nat.sub_diag by done. done.
  - rewrite list_lookup_middle by done. simpl.
    rewrite insert_app_r_alt, Nat.sub_diag by done. simpl. apply IH.
Qed.

Lemma flush_alone (fs : list flush) (q : list pyval) :
  run (Enter :: repeat (Get (length fs)) (length q) ++ [Return (length fs)])
    {| queue := q; flushes := fs |}
  = Some {| queue := [];
            flushes := fs ++ [{| tmp_buffer := q; returned := true |}] |}.
Proof.
  simpl. rewrite flush_loop_alone. by rewrite PureFacts.clear_loop_spec.
Qed.

End InterleavingFacts.

(** ** What a flush sends to a target *)

Module DeliveryFacts.
Import Py Writer Notions Delivery PureFacts PacketFacts MethodFacts PartitionFacts.

Lemma calls_to_app (name : string) (a b : list event) :
  calls_to name (a ++ b) = calls_to name a ++ calls_to name b.
Proof. unfold calls_to. by rewrite append_calls_app, List.filter_app. Qed.

Lemma append_calls_targets (out : list event) (b payload : string) :
  In (b, payload) (append_calls out) -> In b (targets out).
Proof.
  induction out as [|[m|m|m| |name|name text] out IH]; simpl; try done.
  - destruct m; simpl; auto.
  - auto.
  - intros [Heq|Hin]; [injection Heq as <- _; by left|right; auto].
Qed.

Lemma calls_to_own (name : string) (out : list event) :
  (forall b, In b (targets out) -> b = name) ->
  calls_to name out = append_calls out.
Proof.
  intros Hown. unfold calls_to.
  assert (Hall : forall call, In call (append_calls out) -> call.1 = name).
  { intros [b payload] Hin. apply Hown. by apply (append_calls_targets out b payload). }
  induction (append_calls out) as [|call calls IH]; simpl; [done|].
  rewrite (Hall call) by (by left). rewrite String.eqb_refl. f_equal.
  apply IH. intros call' Hin. apply Hall. by right.
Qed.

Lemma calls_to_other (name name' : string) (out : list event) :
  (forall b, In b (targets out) -> b = name') -> name' <> name ->
  calls_to name out = [].
Proof.
  intros Hown Hne. unfold calls_to.
  assert (Hall : forall call, In call (append_calls out) -> call.1 = name').
  { intros [b payload] Hin. apply Hown. by apply (append_calls_targets out b payload). }
  induction (append_calls out) as [|call calls IH]; simpl; [done|].
  rewrite (Hall call) by (by left).
  destruct (String.eqb name' name) eqn:Heq; [by apply String.eqb_eq in Heq|].
  apply IH. intros call' Hin. apply Hall. by right.
Qed.

Section Facts.
Context {S : Type} `{Azure.ContainerClient S}.

Lemma spec_conj {A} (w : BlobWriter S) (m : M S A)
    (Q1 Q2 : result A -> list event -> Prop) :
  spec w m Q1 -> spec w m Q2 -> spec w m (fun r out => Q1 r out /\ Q2 r out).
Proof.
  intros H1 H2 c.
  destruct (H1 c) as (r & c1 & out & Hrun & Hq1).
  destruct (H2 c) as (r' & c2 & out' & Hrun' & Hq2).
  rewrite Hrun in Hrun'. injection Hrun' as <- _ <-.
  by exists r, c1, out.
Qed.

(** A call through the client, with what the client answers. *)
Lemma spec_call_result {A} (w : BlobWriter S) (e : event) (op : S -> result A * S)
    (Q : result A -> list event -> Prop) :
  (forall c r c', op c = (r, c') -> Q r [e]) -> spec w (call e op) Q.
Proof.
  intros HQ c. destruct (op c) as [r c'] eqn:Hop. exists r, c', [e].
  split; [|by apply (HQ c r c')]. unfold call. simpl. by rewrite Hop.
Qed.

(** With a packet size of at least 1, [append_data_to_blob] hands over the
    whole of [data], or the creation of the blob raised. *)
Lemma append_data_to_blob_sends (w : BlobWriter S) (name : string)
    (data : list pyval) (packet_size : Z) :
  packet_size_of (max_packet_size_bytes w) data = Ok packet_size ->
  (1 <= packet_size)%Z ->
  spec w (append_data_to_blob name data)
    (fun r out =>
       (exists sent, append_calls out = calls_of name sent /\ concat sent = data)
       \/ (append_calls out = []
           /\ exists before e (c c' : S),
               out = before
                     ++ [CreateAppendBlob name; LogError (MsgAppendAborted 0 name e)]
               /\ Azure.create_append_blob name c = (Raise e, c'))).
Proof.
  intros Hps Hle. unfold append_data_to_blob.
  eapply (spec_try_except _ _ _
            (fun r out =>
               match r with
               | Ok _ =>
                   exists sent, append_calls out = calls_of name sent
                                /\ concat sent = data
               | Raise e =>
                   append_calls out = []
                   /\ exists before (c c' : S),
                       out = before ++ [CreateAppendBlob name]
                       /\ Azure.create_append_blob name c = (Raise e, c')
               end)).
  - eapply spec_bind; [apply list_blob_names_spec | |].
    2: { intros e o1 [(names & [=]) _]. }
    intros names o1 [_ [Hc1 _]].
    eapply (spec_bind _ _ _
              (fun r out =>
                 append_calls out = []
                 /\ match r with
                    | Ok _ => True
                    | Raise e =>
                        out = [CreateAppendBlob name]
                        /\ exists c c' : S,
                            Azure.create_append_blob name c = (Raise e, c')
                    end)).
    { destruct (decide _).
      - by apply spec_ret.
      - apply spec_call_result. intros c r c' Hop. split; [done|].
        destruct r as [|e]; [done|]. split; [done|]. by exists c, c'. }
    2: { intros e o2 [Hc2 [-> (c & c' & Hop)]]. rewrite append_calls_app, Hc1.
         split; [done|]. by exists o1, c, c'. }
    intros [] o2 [Hc2 _].
    eapply spec_bind.
    { apply (spec_gets _ _ (fun r out => r = Ok (max_packet_size_bytes w) /\ out = [])).
      by intros c. }
    2: { by intros e o [[=] _]. }
    intros max_bytes o3 [[= ->] ->].
    eapply spec_bind.
    { apply (spec_lift _ _ (fun r out =>
               r = packet_size_of (max_packet_size_bytes w) data /\ out = [])). done. }
    2: { intros e o [He _]. rewrite Hps in He. discriminate. }
    intros ps o4 [Hps' ->]. rewrite Hps in Hps'. injection Hps' as ->.
    unfold append_packets.
    eapply spec_bind.
    { apply (spec_lift _ _ (fun r out =>
               r = range 0 (Z.of_nat (length data)) packet_size /\ out = [])). done. }
    2: { intros e o [He _]. rewrite range_starts in He by done. discriminate. }
    intros starts o5 [Hst ->].
    eapply spec_weaken; [apply append_loop_spec|].
    simpl. intros r out (-> & Hc & _).
    exists (packets data packet_size starts). split.
    + by rewrite !append_calls_app, Hc1, Hc2.
    + by apply packets_concat.
  - intros [] o1 Hsent. by left.
  - intros e o1 [Hc (before & c & c' & -> & Hop)]. apply spec_emit. right. split.
    + by rewrite append_calls_app, Hc.
    + exists before, e, c, c'. split; [by rewrite <- app_assoc|done].
Qed.

Lemma creation_refused_app (name : string) (a b c : list event) :
  creation_refused S name b -> creation_refused S name (a ++ b ++ c).
Proof.
  intros (before & e & after & st & st' & -> & Hop).
  exists (a ++ before), e, (after ++ c), st, st'. split; [|done].
  by rewrite <- !app_assoc.
Qed.

(** What the flush sends for one partition. *)
Lemma write_partition_sends (w : BlobWriter S) (tmp_buffer : list pyval)
    (data : partition) :
  Forall has_fields tmp_buffer ->
  spec w (write_partition tmp_buffer data)
    (fun r out =>
       forall file_data,
         filter_by_type_and_date tmp_buffer (k_type data) (k_date data) (k_time data)
         = Ok file_data ->
         group_sent S (max_packet_size_bytes w) (file_name data) file_data out).
Proof.
  intros Hf.
  destruct (filter_loop_fields tmp_buffer (k_type data) (k_date data) (k_time data) []
              Hf) as (file_data & Hfd).
  destruct (packet_size_of (max_packet_size_bytes w) file_data) as [packet_size|e]
    eqn:Hps.
  2: { eapply spec_weaken; [by apply write_partition_spec|].
       intros r out _ file_data' Hfd' ps Hps'.
       unfold filter_by_type_and_date in Hfd'. rewrite Hfd in Hfd'.
       injection Hfd' as <-. rewrite Hps in Hps'. discriminate. }
  destruct (Z_le_dec 1 packet_size) as [Hle|Hlt].
  2: { eapply spec_weaken; [by apply write_partition_spec|].
       intros r out _ file_data' Hfd' ps Hps' Hle.
       unfold filter_by_type_and_date in Hfd'. rewrite Hfd in Hfd'.
       injection Hfd' as <-. rewrite Hps in Hps'. injection Hps' as <-. lia. }
  unfold write_partition.
  eapply spec_bind.
  { apply (spec_lift _ _ (fun r out => r = Ok file_data /\ out = [])). done. }
  2: { by intros e o [[=] _]. }
  intros ? o1 [[= ->] ->].
  eapply spec_bind.
  { apply (spec_emit _ _ (fun r out =>
             r = Ok tt /\ out = [LogInfo (MsgWriting (file_name data))])).
    done. }
  2: { by intros e o [[=] _]. }
  intros [] o2 [_ ->].
  eapply spec_bind; [apply create_append_blob_spec | |].
  2: { by intros e o [[=] _]. }
  intros [] o3 (_ & Hc3 & _).
  eapply spec_weaken; [by apply (append_data_to_blob_sends w _ _ packet_size)|].
  simpl. intros r o4 Hsent file_data' Hfd' ps Hps' Hle'.
  unfold filter_by_type_and_date in Hfd'. rewrite Hfd in Hfd'. injection Hfd' as <-.
  assert (Hcalls : append_calls (LogInfo (MsgWriting (file_name data)) :: o3 ++ o4)
                   = append_calls o4).
  { simpl. by rewrite append_calls_app, Hc3. }
  rewrite Hcalls.
  destruct Hsent as [Hsent|[Hnone (before & e & c & c' & -> & Hop)]]; [by left|].
  right. split; [done|].
  exists (LogInfo (MsgWriting (file_name data)) :: o3 ++ before), e, [], c, c'.
  split; [|done]. simpl. by rewrite <- !app_assoc.
Qed.

(** The flush of a snapshot that can be read, partition by partition. *)
Lemma write_buffer_to_blob_sends (self : BlobWriter S) (blob_data : list partition) :
  process_input_array (buffer self) = Ok blob_data ->
  exists outs,
    (write_buffer_to_blob self).2 = concat outs
    /\ Forall2 (fun data out =>
                  (forall b, In b (targets out) -> b = file_name data)
                  /\ forall file_data,
                       filter_by_type_and_date (buffer self)
                         (k_type data) (k_date data) (k_time data) = Ok file_data ->
                       group_sent S (max_packet_size_bytes self) (file_name data)
                         file_data out)
         blob_data outs.
Proof.
  intros Hp. unfold write_buffer_to_blob, bind. rewrite clear_buffer_run.
  unfold lift. rewrite Hp.
  apply process_loop_ok_inv in Hp as Hf.
  destruct (spec_for_each (set_buffer [] self) blob_data
              (write_partition (buffer self))
              (fun data out =>
                 partition_events (buffer self) (max_packet_size_bytes self) data out
                 /\ forall file_data,
                      filter_by_type_and_date (buffer self)
                        (k_type data) (k_date data) (k_time data) = Ok file_data ->
                      group_sent S (max_packet_size_bytes self) (file_name data)
                        file_data out)
              (fun data _ =>
                 spec_weaken _ _ _ _
                   (spec_conj _ _ _ _
                      (write_partition_spec (set_buffer [] self) _ data Hf)
                      (write_partition_sends (set_buffer [] self) _ data Hf))
                   (fun r out Hq => conj (proj1 (proj1 Hq))
                                      (conj (proj2 (proj1 Hq)) (proj2 Hq))))
              (container_client self))
    as (r & c & out & Hrun & -> & outs & -> & Hall).
  replace (set_container_client (container_client self) (set_buffer [] self))
    with (set_buffer [] self) in Hrun by (by destruct self).
  rewrite Hrun. simpl. exists outs. split; [done|].
  eapply Forall2_impl; [exact Hall|]. simpl.
  intros data out [(Htargets & _) Hsent]. by split.
Qed.

End Facts.
(** The calls of a flush to the target of one key, among the events of the
    partitions: those of the partition of the key, when it has one. *)
Lemma calls_to_partition {R : partition -> list event -> Prop}
    (ks : list key) (outs : list (list event)) (k : key) :
  List.NoDup ks -> Forall dated ks -> dated k ->
  Forall2 (fun data out =>
             (forall b, In b (targets out) -> b = file_name data) /\ R data out)
    (map partition_of ks) outs ->
  (In k ks ->
   exists pre out post,
     concat outs = pre ++ out ++ post
     /\ R (partition_of k) out
     /\ calls_to (file_name (partition_of k)) (concat outs) = append_calls out)
  /\ (~ In k ks -> calls_to (file_name (partition_of k)) (concat outs) = []).
Proof.
  intros Hnd Hdated Hk. revert outs.
  induction Hnd as [|k' ks Hk' Hnd IH]; intros outs Hall; simpl in Hall.
  - inversion Hall; subst. split; [by intros []|done].
  - inversion Hall as [|? out ? outs' [Hown HR] Hall' Heq1 Heq2]; subst.
    inversion Hdated as [|? ? Hdk' Hdks]; subst.
    destruct (IH Hdks outs' Hall') as [IHin IHout]. simpl.
    rewrite calls_to_app. split.
    + intros [->|Hin].
      * exists [], out, (concat outs'). split; [done|]. split; [done|].
        rewrite (calls_to_own _ out Hown), (IHout Hk'). by rewrite app_nil_r.
      * destruct (IHin Hin) as (pre & out' & post & Hcat & HR' & Hcalls).
        exists (out ++ pre), out', post. split; [by rewrite Hcat, <- app_assoc|].
        split; [done|].
        rewrite (calls_to_other _ (file_name (partition_of k')) out Hown); [done|].
        intros Heq. apply file_name_inj in Heq; [|done..]. by subst.
    + intros Hn.
      rewrite (calls_to_other _ (file_name (partition_of k')) out Hown).
      * apply IHout. intros Hin. apply Hn. by right.
      * intros Heq. apply file_name_inj in Heq; [|done..]. apply Hn. by left.
Qed.

Lemma first_seen_dated (snapshot : list pyval) :
  Forall (fun item => well_formed item = true) snapshot ->
  Forall dated (first_seen (keys_of snapshot)).
Proof.
  intros Hwf. apply List.Forall_forall. intros k Hin.
  apply (proj1 (first_seen_In _ _)) in Hin. unfold keys_of in Hin.
  apply list_elem_of_In, list_elem_of_omap in Hin as (item & Hitem & Hkey).
  apply list_elem_of_In in Hitem.
  rewrite List.Forall_forall in Hwf.
  destruct (proj1 (well_formed_key item) (Hwf item Hitem)) as (k' & Hk' & Hd).
  rewrite Hkey in Hk'. by injection Hk' as <-.
Qed.

Lemma carried_key (snapshot : list pyval) (k : key) :
  In k (first_seen (keys_of snapshot)) <-> List.filter (carries k) snapshot <> [].
Proof.
  rewrite first_seen_In. split.
  - intros Hin. unfold keys_of in Hin.
    apply list_elem_of_In, list_elem_of_omap in Hin as (item & Hitem & Hkey).
    apply list_elem_of_In in Hitem.
    assert (Hin : In item (List.filter (carries k) snapshot)).
    { apply List.filter_In. split; [done|]. by apply (carries_key k k item). }
    intros Hnil. by rewrite Hnil in Hin.
  - intros Hne. destruct (List.filter (carries k) snapshot) as [|item rest] eqn:Hf;
      [done|].
    assert (Hin : In item (List.filter (carries k) snapshot)) by (rewrite Hf; by left).
    apply List.filter_In in Hin as [Hitem Hc].
    unfold carries in Hc. destruct (key_of item) as [k'|] eqn:Hkey; [|done].
    apply key_eqb_eq in Hc as ->. by apply (keys_of_In snapshot item).
Qed.

End DeliveryFacts.

(** * The claims *)

Import Py Writer Notions Examples Delivery.
Import PureFacts PacketFacts MethodFacts TimestampFacts PartitionFacts.

(** ** Two runs of a flush *)

(** Three records of one hour: one blob, with their three lines. *)
Example three_records_of_one_hour :
  let self := Memory.writer Memory.empty three_MiB [small; second; big] in
  Memory.blobs (container_client (write_buffer_to_blob self).1.2)
  = [(target, encode_utf8 (data_to_append [small; second; big]))].
Proof. vm_compute. reflexivity. Qed.

(** Records of two hours: two blobs. *)
Example records_of_two_hours :
  let self := Memory.writer Memory.empty three_MiB [small; next_hour; second] in
  Memory.blobs (container_client (write_buffer_to_blob self).1.2)
  = [(target, encode_utf8 (data_to_append [small; second]));
     ("heartbeat.20240101.09.fd", encode_utf8 (data_to_append [next_hour]))].
Proof. vm_compute. reflexivity. Qed.

(** ** C1: a record that cannot be read *)

(** C1, as the code has it: the first record of a drained snapshot whose type
    or timestamp is missing or cannot be read makes the flush raise that
    record's exception before any partition is processed.  No target is
    created or appended to, nothing is logged, the buffer stays drained: the
    records of the snapshot that could be read are not written. *)
Theorem unreadable_record_aborts_flush {S : Type} `{Azure.ContainerClient S}
    (self : BlobWriter S) (good : list pyval) (bad : pyval) (rest : list pyval)
    (e : exn) :
  buffer self = good ++ bad :: rest ->
  Forall has_fields good ->
  item_fields bad = Raise e ->
  write_buffer_to_blob self = (Raise e, set_buffer [] self, []).
Proof.
  intros Hbuf Hgood Hbad. apply write_buffer_to_blob_raise.
  unfold process_input_array. rewrite Hbuf. by apply process_loop_raise.
Qed.

Lemma unreadable_record_aborts_flush_witness :
  let self := Memory.writer Memory.empty three_MiB [small; unreadable; next_hour] in
  buffer self = [small] ++ unreadable :: [next_hour]
  /\ Forall has_fields [small]
  /\ item_fields unreadable = Raise (KeyError "meta")
  /\ write_buffer_to_blob self = (Raise (KeyError "meta"), set_buffer [] self, []).
Proof.
  intros self.
  assert (buffer self = [small] ++ unreadable :: [next_hour]) as Hbuf by reflexivity.
  assert (Forall has_fields [small]) as Hgood.
  { repeat constructor. exists (PyStr "heartbeat", "20240101", "08"). reflexivity. }
  assert (item_fields unreadable = Raise (KeyError "meta")) as Hbad by reflexivity.
  split; [exact Hbuf|]. split; [exact Hgood|]. split; [exact Hbad|].
  exact (unreadable_record_aborts_flush self [small] unreadable [next_hour]
           (KeyError "meta") Hbuf Hgood Hbad).
Defined.

(** C1 as the spec states it fails: with a record without [meta] between two
    well-formed ones the flush does not return, it raises, and it has made no
    call to the storage service for the other two. *)
Lemma malformed_record_not_skipped :
  let self := Memory.writer Memory.empty three_MiB [small; unreadable; next_hour] in
  well_formed small = true /\ well_formed next_hour = true
  /\ (write_buffer_to_blob self).1.1 = Raise (KeyError "meta")
  /\ (write_buffer_to_blob self).2 = []
  /\ ~ (exists self' out, write_buffer_to_blob self = (Ok tt, self', out)).
Proof.
  intros self. repeat split; try (vm_compute; reflexivity).
  intros (self' & out & Hrun).
  assert ((write_buffer_to_blob self).1.1 = Ok tt) as Hok by (by rewrite Hrun).
  vm_compute in Hok. discriminate.
Qed.

(** ** C2: a first record larger than the ceiling *)

(** C2, on the code: a group whose first record serializes to more bytes
    than the ceiling gets the packet size 0; [range] refuses the step, the
    outer handler logs it, and no [append_block] call is made for the group:
    the oversized record is not sent alone, it is not sent at all, nor are
    the records after it. *)
Theorem oversized_first_record_sends_nothing {S : Type} `{Azure.ContainerClient S}
    (self : BlobWriter S) (name : string) (first : pyval) (rest : list pyval) :
  (0 <= max_packet_size_bytes self < Z.of_nat (record_size first))%Z ->
  exists c before e,
    append_data_to_blob name (first :: rest) self
    = (Ok tt, set_container_client c self,
       before ++ [LogError (MsgAppendAborted 0 name e)])
    /\ append_calls (before ++ [LogError (MsgAppendAborted 0 name e)]) = [].
Proof.
  intros Hsize.
  destruct (append_data_to_blob_spec self name (first :: rest) (container_client self))
    as (r & c & out & Hrun & -> & _ & Hout).
  rewrite set_container_client_id in Hrun.
  destruct Hout as [e before -> Hcalls | packet_size starts Hps Hst _].
  - by exists c, before, e.
  - exfalso. unfold packet_size_of in Hps. fold (record_size first) in Hps.
    destruct (Z.eqb_spec (Z.of_nat (record_size first)) 0) as [|_]; [done|].
    injection Hps as <-. rewrite Z.div_small in Hst by lia. done.
Qed.

Lemma oversized_first_record_sends_nothing_witness :
  let self := Memory.writer Memory.empty 10 [] in
  (0 <= max_packet_size_bytes self < Z.of_nat (record_size small))%Z
  /\ exists c before e,
      append_data_to_blob target [small; second] self
      = (Ok tt, set_container_client c self,
         before ++ [LogError (MsgAppendAborted 0 target e)])
      /\ append_calls (before ++ [LogError (MsgAppendAborted 0 target e)]) = [].
Proof.
  intros self.
  assert (0 <= max_packet_size_bytes self < Z.of_nat (record_size small))%Z as Hsize
    by (vm_compute; split; [discriminate | reflexivity]).
  split; [exact Hsize|].
  exact (oversized_first_record_sends_nothing self target small [second] Hsize).
Defined.

(** ** C3: producers and flushes *)

(** C3: in every run of producers and flushes on one writer, the messages
    put so far are, counted with their repetitions, the messages the flushes
    drained together with those still in the queue: each is in one snapshot,
    or still waits for the next flush; none is in two and none is gone. *)
Theorem every_put_drained_once (ops : list Interleaving.op) (st : Interleaving.state) :
  Interleaving.run ops Interleaving.initial = Some st ->
  Permutation (Interleaving.puts ops)
    (Interleaving.drained st ++ Interleaving.queue st).
Proof.
  intros Hrun. apply InterleavingFacts.run_keeps_messages in Hrun.
  by rewrite app_nil_r in Hrun.
Qed.

Lemma every_put_drained_once_witness :
  let ops := [Interleaving.Put small; Interleaving.Enter; Interleaving.Put second;
              Interleaving.Get 0; Interleaving.Enter; Interleaving.Get 1;
              Interleaving.Return 0; Interleaving.Put next_hour] in
  let st := {| Interleaving.queue := [next_hour];
               Interleaving.flushes :=
                 [{| Interleaving.tmp_buffer := [small];
                     Interleaving.returned := true |};
                  {| Interleaving.tmp_buffer := [second];
                     Interleaving.returned := false |}] |} in
  Interleaving.run ops Interleaving.initial = Some st
  /\ Permutation (Interleaving.puts ops)
       (Interleaving.drained st ++ Interleaving.queue st).
Proof.
  intros ops st.
  assert (Interleaving.run ops Interleaving.initial = Some st) as Hrun by reflexivity.
  split; [exact Hrun|]. exact (every_put_drained_once ops st Hrun).
Defined.

(** ** C4: a storage failure in the final flush *)




(** ** C5: the bytes of a packet *)

(** C5, as the code has it: the packet size is a number of records,
    [floor(ceiling / size of the first record)].  When it is at least 1,
    every packet handed to [append_block] holds between 1 and that many
    records of the group; the ceiling bounds its bytes only through this
    estimate: when every record of the group has the size of the first, the
    payload is at most the ceiling plus one line end for each record. *)
Theorem packet_holds_at_most_packet_size_records {S : Type} `{Azure.ContainerClient S}
    (self : BlobWriter S) (name : string) (first : pyval) (rest : list pyval)
    (packet_size : Z) :
  packet_size_of (max_packet_size_bytes self) (first :: rest) = Ok packet_size ->
  (1 <= packet_size)%Z ->
  forall b payload,
    In (b, payload) (append_calls (append_data_to_blob name (first :: rest) self).2) ->
    exists packet,
      b = name
      /\ payload = encode_utf8 (data_to_append packet)
      /\ incl packet (first :: rest)
      /\ 1 <= length packet
      /\ (Z.of_nat (length packet) <= packet_size)%Z
      /\ (Forall (fun r => record_size r = record_size first) rest ->
          (Z.of_nat (String.length payload)
           <= max_packet_size_bytes self + packet_size)%Z).
Proof.
  intros Hps Hpos b payload.
  destruct (append_data_to_blob_spec self name (first :: rest) (container_client self))
    as (r & c & out & Hrun & -> & _ & Hout).
  rewrite set_container_client_id in Hrun. rewrite Hrun. simpl.
  destruct Hout as [e before -> -> | packet_size' starts Hps' Hst ->]; [done|].
  assert (packet_size' = packet_size) as -> by congruence.
  intros (packet & [= <- <-] & Hin)%in_map_iff.
  pose proof (packets_length _ _ _ Hpos Hst) as Hlen.
  pose proof (packets_incl _ _ _ Hpos Hst) as Hincl.
  rewrite List.Forall_forall in Hlen, Hincl.
  destruct (Hlen packet Hin) as [Hlo Hhi]. specialize (Hincl packet Hin).
  exists packet. repeat split; try done.
  intros Huniform.
  rewrite payload_length by (destruct packet; [simpl in Hlo; lia | done]).
  rewrite (list_sum_uniform _ (record_size first)).
  2: { apply List.Forall_forall. intros n (r & <- & Hr)%in_map_iff.
       destruct (Hincl r Hr) as [<-|Hrest]; [done|].
       rewrite List.Forall_forall in Huniform. by apply Huniform. }
  rewrite length_map.
  unfold packet_size_of in Hps. fold (record_size first) in Hps.
  destruct (Z.eqb_spec (Z.of_nat (record_size first)) 0) as [|Hne]; [done|].
  injection Hps as Hps.
  pose proof (Z.mul_div_le (max_packet_size_bytes self) (Z.of_nat (record_size first))
                ltac:(lia)) as Hdiv.
  rewrite Hps in Hdiv. nia.
Qed.

Lemma packet_holds_at_most_packet_size_records_witness :
  let self := Memory.writer Memory.empty 200 [] in
  let payload := encode_utf8 (data_to_append [small; second]) in
  packet_size_of (max_packet_size_bytes self) [small; second; second] = Ok 2%Z
  /\ (1 <= 2)%Z
  /\ In (target, payload)
       (append_calls (append_data_to_blob target [small; second; second] self).2)
  /\ exists packet,
      target = target
      /\ payload = encode_utf8 (data_to_append packet)
      /\ incl packet [small; second; second]
      /\ 1 <= length packet
      /\ (Z.of_nat (length packet) <= 2)%Z
      /\ (Forall (fun r => record_size r = record_size small) [second; second] ->
          (Z.of_nat (String.length payload) <= max_packet_size_bytes self + 2)%Z).
Proof.
  intros self payload.
  assert (packet_size_of (max_packet_size_bytes self) [small; second; second] = Ok 2%Z)
    as Hps by reflexivity.
  assert (1 <= 2)%Z as Hpos by lia.
  assert (In (target, payload)
            (append_calls (append_data_to_blob target [small; second; second] self).2))
    as Hin by (vm_compute; left; reflexivity).
  split; [exact Hps|]. split; [exact Hpos|]. split; [exact Hin|].
  exact (packet_holds_at_most_packet_size_records self target small [second; second] 2
           Hps Hpos target payload Hin).
Defined.

(** C5 as the spec states it fails: under a ceiling of 100 bytes the group
    of [small] (87 bytes) and [big] (107 bytes) gets the packet size 1, and
    the second packet of the flush is 108 bytes. *)
Lemma later_packet_exceeds_ceiling :
  let self := Memory.writer Memory.empty 100 [small; big] in
  let payload := encode_utf8 (data_to_append [big]) in
  packet_size_of (max_packet_size_bytes self) [small; big] = Ok 1%Z
  /\ In (target, payload) (append_calls (write_buffer_to_blob self).2)
  /\ (max_packet_size_bytes self < Z.of_nat (String.length payload))%Z.
Proof.
  intros self payload. split; [reflexivity|]. split.
  - vm_compute. right. left. reflexivity.
  - vm_compute. reflexivity.
Qed.

(** ** C6: dispatch *)

(** C6: [dispatch_blob_message] for a tenant without a writer raises
    [KeyError] and leaves the writers as they are; for a tenant with a writer
    it returns, that writer's buffer has the message at its end, and nothing
    else has changed: the other fields of that writer and all other writers
    are as before.  [get_connection] finds the writer of exactly the tenants
    that have one and raises for the others. *)
Theorem dispatch_routes_to_registered_writer {S : Type} `{Azure.ContainerClient S}
    (tenant_id : string) (message : pyval)
    (blob_writers : gmap string (BlobWriter S)) :
  match blob_writers !! tenant_id with
  | None =>
      Handler.dispatch_blob_message tenant_id message blob_writers
      = (Raise (KeyError ("No BlobWriter for tenant " +:+ tenant_id)), blob_writers, [])
      /\ TenantBlobManager.get_connection tenant_id blob_writers = Raise ValueError
  | Some writer =>
      exists blob_writers',
        Handler.dispatch_blob_message tenant_id message blob_writers
        = (Ok tt, blob_writers', [])
        /\ blob_writers' !! tenant_id
           = Some (set_buffer (buffer writer ++ [message]) writer)
        /\ (forall other, other <> tenant_id ->
              blob_writers' !! other = blob_writers !! other)
        /\ TenantBlobManager.get_connection tenant_id blob_writers = Ok writer
  end.
Proof.
  unfold Handler.dispatch_blob_message, TenantBlobManager.get_connection.
  destruct (blob_writers !! tenant_id) as [writer|] eqn:Hw; [|done].
  eexists. split; [reflexivity|]. split; [|split; [|done]].
  - by rewrite lookup_insert_eq.
  - intros other Hne. by rewrite lookup_insert_ne.
Qed.

(** ** C7: the partition of a snapshot *)



(** ** C8: stop *)



(** ** C9: the name of a target *)



(** ** C10: what is sent for a key *)

(** C10, as the code has it: for every snapshot of well-formed records and
    every key of the data model, when the packet size computed for the group
    of the key is at least 1, the group that [filter_by_type_and_date] hands
    on is the records of the snapshot that carry the key, in the order of the
    snapshot, and the [append_block] calls that the flush addresses to the
    target of the key hand over, packet after packet, exactly that group,
    each record once and in that order; unless the creation of the target was
    refused: then the flush makes no call to the target and logs the end of
    the append.  The target of a key that no record carries gets no call. *)
Theorem flush_sends_group_to_its_target {S : Type} `{Azure.ContainerClient S}
    (self : BlobWriter S) (k : key) (packet_size : Z) :
  Forall (fun item => well_formed item = true) (buffer self) ->
  dated k ->
  packet_size_of (max_packet_size_bytes self) (List.filter (carries k) (buffer self))
  = Ok packet_size ->
  (1 <= packet_size)%Z ->
  let name := file_name (partition_of k) in
  let out := (write_buffer_to_blob self).2 in
  group_of (buffer self) k = Ok (List.filter (carries k) (buffer self))
  /\ List.filter (carries k) (buffer self) <> []
  /\ ((exists sent,
         calls_to name out = calls_of name sent
         /\ concat sent = List.filter (carries k) (buffer self))
      \/ (calls_to name out = [] /\ creation_refused S name out))
  /\ (forall k',
        dated k' -> List.filter (carries k') (buffer self) = [] ->
        calls_to (file_name (partition_of k')) out = []).
Proof.
  intros Hwf Hk Hps Hle name out. subst name out.
  assert (Hall : Forall has_fields (buffer self)).
  { eapply List.Forall_impl; [|exact Hwf]. intros item Hitem.
    by apply keyed_has_fields, well_formed_keyed. }
  assert (Hne : List.filter (carries k) (buffer self) <> []).
  { intros Hnil. rewrite Hnil in Hps. simpl in Hps. injection Hps as <-. lia. }
  split; [by apply group_of_carries|]. split; [done|].
  destruct (DeliveryFacts.write_buffer_to_blob_sends self _
              (process_input_array_first_seen _ Hwf)) as (outs & Hout & Houts).
  destruct (DeliveryFacts.calls_to_partition (first_seen (keys_of (buffer self)))
              outs k (first_seen_NoDup _) (DeliveryFacts.first_seen_dated _ Hwf) Hk
              Houts) as [Hin _].
  rewrite Hout. split.
  - destruct Hin as (pre & out & post & Hcat & Hsent & Hcalls);
      [by apply DeliveryFacts.carried_key|].
    rewrite Hcalls. destruct k as [[t d] h].
    destruct (Hsent _ (filter_by_type_and_date_carries _ t d h Hall) packet_size Hps Hle)
      as [Hok|[Hnone Hab]]; [by left|].
    right. split; [done|]. rewrite Hcat.
    by apply DeliveryFacts.creation_refused_app.
  - intros k' Hk' Hnil.
    destruct (DeliveryFacts.calls_to_partition (first_seen (keys_of (buffer self)))
                outs k' (first_seen_NoDup _) (DeliveryFacts.first_seen_dated _ Hwf) Hk'
                Houts) as [_ Hout'].
    apply Hout'. intros Hin'. by apply DeliveryFacts.carried_key in Hin'.
Qed.

Lemma flush_sends_group_to_its_target_witness :
  let self := Memory.writer Memory.empty 100 [small; next_hour; second] in
  let k := ("heartbeat", "20240101", "08") in
  let out := (write_buffer_to_blob self).2 in
  Forall (fun item => well_formed item = true) (buffer self)
  /\ dated k
  /\ packet_size_of (max_packet_size_bytes self) (List.filter (carries k) (buffer self))
     = Ok 1%Z
  /\ (1 <= 1)%Z
  /\ calls_to target out = calls_of target [[small]; [second]]
  /\ group_of (buffer self) k = Ok (List.filter (carries k) (buffer self))
  /\ List.filter (carries k) (buffer self) <> []
  /\ ((exists sent,
         calls_to target out = calls_of target sent
         /\ concat sent = List.filter (carries k) (buffer self))
      \/ (calls_to target out = [] /\ creation_refused Memory.container target out))
  /\ (forall k',
        dated k' -> List.filter (carries k') (buffer self) = [] ->
        calls_to (file_name (partition_of k')) out = []).
Proof.
  intros self k out.
  assert (Forall (fun item => well_formed item = true) (buffer self)) as Hwf
    by (repeat constructor).
  assert (dated k) as Hk by (split; reflexivity).
  assert (packet_size_of (max_packet_size_bytes self)
            (List.filter (carries k) (buffer self)) = Ok 1%Z) as Hps by reflexivity.
  assert (1 <= 1)%Z as Hle by lia.
  split; [exact Hwf|]. split; [exact Hk|]. split; [exact Hps|]. split; [exact Hle|].
  split; [reflexivity|].
  exact (flush_sends_group_to_its_target self k 1 Hwf Hk Hps Hle).
Defined.

(** C10 as the spec states it fails.  On a container that refuses to create
    a blob, the flush of two well-formed records of one key, with a packet
    size of 36157, returns and has made no [append_block] call: nothing is
    sent to the target of the key.  And on a container that takes every call,
    two records that can be read and whose keys [(a.b, c, d)] and
    [(a, b.c, d)] differ have one target, [a.b.c.d.fd], which so receives a
    record that does not carry the key of the other. *)
Lemma sent_records_differ_from_group :
  let refused := Memory.writer Fixtures.sealed three_MiB [small; second] in
  let k := ("heartbeat", "20240101", "08") in
  let mixed := Memory.writer Memory.empty three_MiB [Fixtures.dotted; Fixtures.halved] in
  (Forall (fun item => well_formed item = true) (buffer refused)
   /\ List.filter (carries k) (buffer refused) = [small; second]
   /\ packet_size_of (max_packet_size_bytes refused) [small; second] = Ok 36157%Z
   /\ (write_buffer_to_blob refused).1.1 = Ok tt
   /\ append_calls (write_buffer_to_blob refused).2 = [])
  /\ (key_of Fixtures.dotted = Some ("a.b", "c", "d")
      /\ key_of Fixtures.halved = Some ("a", "b.c", "d")
      /\ List.filter (carries ("a.b", "c", "d")) (buffer mixed) = [Fixtures.dotted]
      /\ calls_to "a.b.c.d.fd" (write_buffer_to_blob mixed).2
         = calls_of "a.b.c.d.fd" [[Fixtures.dotted]; [Fixtures.halved]]
      /\ Memory.blobs (container_client (write_buffer_to_blob mixed).1.2)
         = [("a.b.c.d.fd",
             encode_utf8 (data_to_append [Fixtures.dotted])
             +:+ encode_utf8 (data_to_append [Fixtures.halved]))]).
Proof.
  intros refused k mixed. split.
  - split; [by repeat constructor|]. repeat split; reflexivity.
  - repeat split; reflexivity.
Qed.

(** * Further properties of the code *)

Import Lifecycle.

(** ** More facts about the methods *)

Module FlushFacts.
Section Facts.
Context {S : Type} `{Azure.ContainerClient S}.

Lemma flush_state (self : BlobWriter S) :
  exists c, (write_buffer_to_blob self).1.2 = set_container_client c (set_buffer [] self).
Proof.
  destruct (process_input_array (buffer self)) as [blob_data|e] eqn:Hp.
  - destruct (write_buffer_to_blob_ok self blob_data Hp) as (c & outs & Hrun & _).
    exists c. by rewrite Hrun.
  - rewrite (write_buffer_to_blob_raise self e Hp). exists (container_client self).
    simpl. by destruct self.
Qed.

Lemma flush_empty (self : BlobWriter S) :
  buffer self = [] -> write_buffer_to_blob self = (Ok tt, self, []).
Proof.
  intros Hb. unfold write_buffer_to_blob, bind. rewrite clear_buffer_run, Hb. simpl.
  destruct self; simpl in *; by subst.
Qed.

Lemma enqueue_all_buffer (messages : list pyval) (self : BlobWriter S) :
  enqueue_all messages self = set_buffer (buffer self ++ messages) self.
Proof.
  revert self. induction messages as [|m ms IH]; intros self; simpl.
  - rewrite app_nil_r. by destruct self.
  - rewrite IH. simpl. by rewrite <- app_assoc.
Qed.

End Facts.
End FlushFacts.

(** ** The flush and the scheduling state *)

Module FrameFacts.
Section Facts.
Context {S : Type} `{Azure.ContainerClient S}.
Variables (is_running : bool) (t : option Timer).

Lemma commutes_ret {A} (a : A) :
  commutes (scheduled (S := S) is_running t) (ret a).
Proof. done. Qed.

Lemma commutes_lift {A} (r : result A) :
  commutes (scheduled (S := S) is_running t) (lift r).
Proof. done. Qed.

Lemma commutes_emit (e : event) :
  commutes (scheduled (S := S) is_running t) (emit e).
Proof. done. Qed.

Lemma commutes_max_packet_size_bytes :
  commutes (scheduled (S := S) is_running t) (gets max_packet_size_bytes).
Proof. done. Qed.

Lemma commutes_clear_buffer :
  commutes (scheduled (S := S) is_running t) clear_buffer.
Proof. intros self. by rewrite !clear_buffer_run. Qed.

Lemma commutes_call {A} (e : event) (op : S -> result A * S) :
  commutes (scheduled (S := S) is_running t) (call e op).
Proof. intros self. unfold call. simpl. by destruct (op (container_client self)). Qed.

Lemma commutes_bind {A B} (m : M S A) (k : A -> M S B) :
  commutes (scheduled (S := S) is_running t) m ->
  (forall a, commutes (scheduled (S := S) is_running t) (k a)) ->
  commutes (scheduled (S := S) is_running t) (bind m k).
Proof.
  intros Hm Hk self. unfold bind. rewrite Hm.
  destruct (m self) as [[[a|e] self1] out1]; [|done].
  rewrite Hk. by destruct (k a self1) as [[r self2] out2].
Qed.

Lemma commutes_try_except {A} (body : M S A) (handler : exn -> M S A) :
  commutes (scheduled (S := S) is_running t) body ->
  (forall e, commutes (scheduled (S := S) is_running t) (handler e)) ->
  commutes (scheduled (S := S) is_running t) (try_except body handler).
Proof.
  intros Hm Hk self. unfold try_except. rewrite Hm.
  destruct (body self) as [[[a|e] self1] out1]; [done|].
  rewrite Hk. by destruct (handler e self1) as [[r self2] out2].
Qed.

Lemma commutes_for_each {A} (l : list A) (body : A -> M S unit) :
  (forall x, commutes (scheduled (S := S) is_running t) (body x)) ->
  commutes (scheduled (S := S) is_running t) (for_each l body).
Proof.
  intros Hb. induction l as [|x l IH]; simpl; [apply commutes_ret|].
  apply commutes_bind; [apply Hb|]. intros _. apply IH.
Qed.

Lemma commutes_list_blob_names :
  commutes (scheduled (S := S) is_running t) list_blob_names.
Proof.
  apply commutes_try_except; [apply commutes_call|].
  intros e. apply commutes_bind; [apply commutes_emit|]. intros _. apply commutes_ret.
Qed.

Lemma commutes_create_if_absent (name : string) (names : list string) :
  commutes (scheduled (S := S) is_running t)
    (if decide (name ∈ names) then ret tt
     else call (CreateAppendBlob name) (Azure.create_append_blob name)).
Proof. destruct (decide (name ∈ names)); [apply commutes_ret|apply commutes_call]. Qed.

Lemma commutes_create_append_blob (name : string) :
  commutes (scheduled (S := S) is_running t) (create_append_blob name).
Proof.
  apply commutes_try_except; [|intros e; apply commutes_emit].
  apply commutes_bind; [apply commutes_list_blob_names|]. intros names.
  apply commutes_create_if_absent.
Qed.

Lemma commutes_append_data_to_blob (name : string) (data : list pyval) :
  commutes (scheduled (S := S) is_running t) (append_data_to_blob name data).
Proof.
  apply commutes_try_except; [|intros e; apply commutes_emit].
  apply commutes_bind; [apply commutes_list_blob_names|]. intros names.
  apply commutes_bind; [apply commutes_create_if_absent|]. intros _.
  apply commutes_bind; [apply commutes_max_packet_size_bytes|]. intros max_bytes.
  apply commutes_bind; [apply commutes_lift|]. intros packet_size.
  apply commutes_bind; [apply commutes_lift|]. intros starts.
  apply commutes_for_each. intros i.
  apply commutes_try_except; [apply commutes_call|intros e; apply commutes_emit].
Qed.

Lemma commutes_write_buffer_to_blob :
  commutes (scheduled (S := S) is_running t) write_buffer_to_blob.
Proof.
  apply commutes_bind; [apply commutes_clear_buffer|]. intros tmp_buffer.
  apply commutes_bind; [apply commutes_lift|]. intros blob_data.
  apply commutes_for_each. intros data.
  apply commutes_bind; [apply commutes_lift|]. intros file_data.
  apply commutes_bind; [apply commutes_emit|]. intros _.
  apply commutes_bind; [apply commutes_create_append_blob|]. intros _.
  apply commutes_append_data_to_blob.
Qed.

End Facts.
End FrameFacts.

(** ** The loop over a snapshot and its ids *)

Module LoopFacts.

#[local] Arguments String.append : simpl nomatch.

Lemma partition_id_snoc (acc : list partition) (data : partition) :
  map partition_id (acc ++ [data]) = map partition_id acc ++ [partition_id data].
Proof. by rewrite map_app. Qed.

Lemma process_loop_ids (items : list pyval) (acc : list partition) (seen : gset string) :
  Forall has_fields items ->
  (forall id, id ∈ seen <-> In id (map partition_id acc)) ->
  List.NoDup (map partition_id acc) ->
  exists blob_data,
    process_loop items acc seen = Ok blob_data
    /\ List.NoDup (map partition_id blob_data)
    /\ (forall id, In id (map partition_id acc) -> In id (map partition_id blob_data))
    /\ (forall item type date time,
          In item items -> item_fields item = Ok (type, date, time) ->
          In (unique_id type date time) (map partition_id blob_data))
    /\ length blob_data <= length acc + length items.
Proof.
  intros Hall. revert acc seen.
  induction Hall as [|item items [[[type date] time] Hf] Hall IH];
    intros acc seen Hseen Hnd.
  - exists acc. simpl. split; [done|]. split; [done|]. split; [done|].
    split; [by intros ? ? ? ? []|lia].
  - simpl. rewrite Hf. simpl.
    destruct (decide (unique_id type date time ∈ seen)) as [Hin|Hout].
    + destruct (IH acc seen Hseen Hnd)
        as (blob_data & Hrun & Hnd' & Hacc & Hitems & Hlen).
      exists blob_data. split; [done|]. split; [done|]. split; [done|]. split; [|lia].
      intros item' type' date' time' [<-|Hin'] Hf'.
      * rewrite Hf in Hf'. injection Hf' as <- <- <-. apply Hacc. by apply Hseen.
      * by apply (Hitems item').
    + set (data := {| k_type := type; k_date := date; k_time := time |}).
      destruct (IH (acc ++ [data]) ({[unique_id type date time]} ∪ seen))
        as (blob_data & Hrun & Hnd' & Hacc & Hitems & Hlen).
      * intros id.
        rewrite partition_id_snoc, in_app_iff, elem_of_union, elem_of_singleton.
        rewrite Hseen. simpl. unfold partition_id at 2. simpl. intuition auto.
      * rewrite partition_id_snoc. apply List.NoDup_app; [done| |].
        -- constructor; [by intros []|constructor].
        -- intros id Hid [Heq|[]]. apply Hout, Hseen. by rewrite <- Heq in Hid.
      * exists blob_data. split; [done|]. split; [done|].
        rewrite partition_id_snoc in Hacc. split.
        { intros id Hid. apply Hacc, in_app_iff. by left. }
        split.
        { intros item' type' date' time' [<-|Hin'] Hf'.
          - rewrite Hf in Hf'. injection Hf' as <- <- <-. apply Hacc, in_app_iff.
            right. by left.
          - by apply (Hitems item'). }
        rewrite length_app in Hlen. simpl in *. lia.
Qed.

Lemma append_cancel_l (a b c : string) : a +:+ b = a +:+ c -> b = c.
Proof. induction a as [|x a IH]; simpl; [done|]. intros Heq. injection Heq. auto. Qed.

Lemma append_assoc (a b c : string) : (a +:+ b) +:+ c = a +:+ b +:+ c.
Proof. induction a as [|x a IH]; simpl; [done|]. by rewrite IH. Qed.

Lemma eqb_append_longer (a b : string) :
  b <> EmptyString -> String.eqb (a +:+ b) a = false.
Proof.
  intros Hb. apply String.eqb_neq. intros Heq.
  apply (f_equal String.length) in Heq. rewrite length_append in Heq.
  destruct b; [done|]. simpl in Heq. lia.
Qed.

End LoopFacts.

(** ** The groups of a snapshot *)

Module CoverFacts.

Lemma concat_map_nil {A B} (ks : list A) :
  concat (map (fun _ : A => @nil B) ks) = [].
Proof. by induction ks. Qed.

Lemma insert_absent {B} (k0 : key) (x : B) (g : key -> list B) (ks : list key) :
  ~ In k0 ks ->
  map (fun k => if key_eqb k0 k then x :: g k else g k) ks = map g ks.
Proof.
  induction ks as [|k ks IH]; simpl; [done|]. intros Hn.
  destruct (key_eqb k0 k) eqn:Heq.
  - apply key_eqb_eq in Heq. destruct Hn. by left.
  - rewrite IH; [done|]. intros Hin. apply Hn. by right.
Qed.

Lemma insert_once {B} (k0 : key) (x : B) (g : key -> list B) (ks : list key) :
  List.NoDup ks -> In k0 ks ->
  Permutation (concat (map (fun k => if key_eqb k0 k then x :: g k else g k) ks))
    (x :: concat (map g ks)).
Proof.
  induction 1 as [|k ks Hk Hnd IH]; simpl; [done|]. intros [->|Hin].
  - rewrite key_eqb_refl, insert_absent by done. done.
  - destruct (key_eqb k0 k) eqn:Heq.
    { apply key_eqb_eq in Heq. by subst. }
    rewrite (IH Hin). symmetry. apply Permutation_middle.
Qed.

Lemma groups_concat (ks : list key) (items : list pyval) :
  List.NoDup ks ->
  (forall item, In item items -> exists k, key_of item = Some k /\ In k ks) ->
  Permutation (concat (map (fun k => List.filter (carries k) items) ks)) items.
Proof.
  intros Hnd. induction items as [|item items IH]; intros Hkeys; simpl.
  - by rewrite concat_map_nil.
  - destruct (Hkeys item) as (k0 & Hk0 & Hin); [by left|].
    assert (Hc : forall k, carries k item = key_eqb k0 k).
    { intros k. unfold carries. by rewrite Hk0. }
    rewrite (map_ext _ (fun k => if key_eqb k0 k
                                 then item :: List.filter (carries k) items
                                 else List.filter (carries k) items))
      by (intros k; by rewrite Hc).
    rewrite (insert_once k0 item _ ks Hnd Hin). constructor. apply IH.
    intros item' Hin'. apply Hkeys. by right.
Qed.

End CoverFacts.

(** ** The parts of a timestamp *)

Module FieldFacts.

#[local] Arguments String.append : simpl nomatch.

Lemma remove_char_gone (c : ascii) (s : string) :
  contains_char c (remove_char c s) = false.
Proof.
  induction s as [|a s IH]; simpl; [done|].
  destruct (Ascii.eqb a c) eqn:Heq; [done|]. simpl. by rewrite Heq.
Qed.

Lemma remove_char_keeps_free (c c' : ascii) (s : string) :
  contains_char c' s = false -> contains_char c' (remove_char c s) = false.
Proof.
  induction s as [|a s IH]; simpl; [done|]. intros Hf.
  apply orb_false_iff in Hf as [Ha Hs].
  destruct (Ascii.eqb a c); [auto|]. simpl. rewrite Ha. auto.
Qed.

Lemma split_on_parts_free (sep c : ascii) (s : string) :
  (c = sep \/ contains_char c s = false) ->
  Forall (fun part => contains_char c part = false) (split_on sep s).
Proof.
  induction s as [|a s IH]; simpl; intros Hc.
  - by constructor.
  - destruct (Ascii.eqb a sep) eqn:Heq.
    + constructor; [done|]. apply IH. destruct Hc as [->|Hc]; [by left|].
      apply orb_false_iff in Hc as [_ Hs]. by right.
    + assert (Ha : Ascii.eqb a c = false).
      { destruct Hc as [->|Hc]; [done|]. by apply orb_false_iff in Hc as [Ha _]. }
      assert (Hs : c = sep \/ contains_char c s = false).
      { destruct Hc as [->|Hc]; [by left|]. apply orb_false_iff in Hc as [_ Hs].
        by right. }
      specialize (IH Hs).
      destruct (split_on sep s) as [|h t]; simpl.
      * constructor; [|done]. simpl. by rewrite Ha.
      * inversion IH; subst. constructor; [|done]. simpl. by rewrite Ha.
Qed.

Lemma index_In {A} (l : list A) (i : nat) (x : A) : index l i = Ok x -> In x l.
Proof.
  unfold index. destruct (nth_error l i) eqn:Hn; [|done].
  intros [= <-]. by apply nth_error_In in Hn.
Qed.

Lemma split_on_without (sep : ascii) (s : string) :
  contains_char sep s = false -> split_on sep s = [s].
Proof.
  induction s as [|a s IH]; simpl; [done|]. intros Hf.
  apply orb_false_iff in Hf as [Ha Hs]. rewrite Ha, (IH Hs). done.
Qed.

Lemma split_on_with (sep : ascii) (s : string) :
  contains_char sep s = true -> exists a b rest, split_on sep s = a :: b :: rest.
Proof.
  induction s as [|x s IH]; simpl; [done|]. intros Hc.
  destruct (Ascii.eqb x sep) eqn:Heq.
  - destruct (split_on sep s) as [|h t] eqn:Hs; [by destruct (split_on_nonempty sep s)|].
    by exists EmptyString, h, t.
  - simpl in Hc. destruct (IH Hc) as (a & b & rest & Hs). rewrite Hs.
    by exists (String x a), b, rest.
Qed.

End FieldFacts.

(** ** The number of packets *)

Module CountFacts.

Lemma packet_count_ceiling (n : nat) (packet_size : Z) :
  (1 <= packet_size)%Z ->
  packet_count n packet_size
  = Z.to_nat ((Z.of_nat n + packet_size - 1) / packet_size).
Proof.
  intros Hp. unfold packet_count. destruct (0 <? Z.of_nat n)%Z eqn:Hn; [done|].
  apply Z.ltb_ge in Hn. assert (n = 0) as -> by lia. simpl.
  rewrite Z.div_small; [done|lia].
Qed.

Lemma full_packet (data : list pyval) (packet_size : Z) (j : nat) :
  (1 <= packet_size)%Z ->
  S j < packet_count (length data) packet_size ->
  Z.of_nat (length (take (Z.to_nat packet_size) (drop (j * Z.to_nat packet_size) data)))
  = packet_size.
Proof.
  intros Hp Hj.
  assert (Hin := packet_count_starts_inside (length data) packet_size (S j) Hp Hj).
  rewrite length_take, length_drop. simpl in Hin. lia.
Qed.

End CountFacts.

(** ** The listings of a run *)

Module ListingFacts.
Section Facts.
Context {S : Type} `{Azure.ContainerClient S}.

Lemma listings_app (a b : list event) : listings (a ++ b) = listings a + listings b.
Proof.
  induction a as [|e a IH]; simpl; [done|]. destruct e; simpl; by rewrite ?IH.
Qed.

Lemma listings_concat (outs : list (list event)) (n : nat) :
  Forall (fun out => listings out = n) outs ->
  listings (concat outs) = n * length outs.
Proof.
  induction 1 as [|out outs Hout _ IH]; simpl; [lia|].
  rewrite listings_app, Hout, IH. lia.
Qed.

Lemma list_blob_names_lists_once (w : BlobWriter S) :
  spec w list_blob_names (fun r out => (exists names, r = Ok names) /\ listings out = 1).
Proof.
  unfold list_blob_names. eapply spec_try_except.
  - apply (spec_call _ _ _ (fun _ out => out = [ListBlobs])). done.
  - intros a o1 ->. split; [by exists a | done].
  - intros e o1 ->. eapply spec_bind.
    + apply (spec_emit _ _ (fun r out => r = Ok tt /\ out = [Stdout (MsgListFailed e)])).
      done.
    + intros [] o [_ ->]. apply spec_ret. split; [by exists [] | done].
    + by intros e' o [[=] _].
Qed.

Lemma create_if_absent_lists_nothing (w : BlobWriter S) (name : string)
    (names : list string) :
  spec w (if decide (name ∈ names) then ret tt
          else call (CreateAppendBlob name) (Azure.create_append_blob name))
    (fun _ out => listings out = 0).
Proof. destruct (decide _); [by apply spec_ret|by apply spec_call]. Qed.

Lemma create_append_blob_lists_once (w : BlobWriter S) (name : string) :
  spec w (create_append_blob name) (fun r out => r = Ok tt /\ listings out = 1).
Proof.
  unfold create_append_blob.
  eapply (spec_try_except _ _ _ (fun r out => listings out = 1)).
  - eapply spec_bind; [apply list_blob_names_lists_once | |].
    + intros names o1 [_ Hl]. eapply spec_weaken; [apply create_if_absent_lists_nothing|].
      simpl. intros r out Hout. rewrite listings_app. lia.
    + intros e o1 [(names & [=]) _].
  - by intros [] o1 ?.
  - intros e o1 Hl. apply spec_emit. rewrite listings_app, Hl. done.
Qed.

Lemma append_loop_lists_nothing (w : BlobWriter S) (name : string) (data : list pyval)
    (packet_size : Z) (starts : list Z) :
  spec w (for_each starts (append_packet name data packet_size))
    (fun r out => r = Ok tt /\ listings out = 0).
Proof.
  eapply spec_weaken.
  - apply (spec_for_each w starts _ (fun _ out => listings out = 0)).
    intros i _. unfold append_packet.
    eapply (spec_try_except _ _ _ (fun _ out => listings out = 0)).
    + by apply spec_call.
    + by intros [] o1 ?.
    + intros e o1 Hl. apply spec_emit. rewrite listings_app, Hl. done.
  - simpl. intros r out (-> & outs & -> & Hall). split; [done|].
    rewrite (listings_concat outs 0); [done|].
    clear -Hall. induction Hall; by constructor.
Qed.

Lemma append_data_to_blob_lists_once (w : BlobWriter S) (name : string)
    (data : list pyval) :
  spec w (append_data_to_blob name data) (fun r out => r = Ok tt /\ listings out = 1).
Proof.
  unfold append_data_to_blob.
  eapply (spec_try_except _ _ _ (fun r out => listings out = 1)).
  - eapply spec_bind; [apply list_blob_names_lists_once | |].
    2: { intros e o1 [(names & [=]) _]. }
    intros names o1 [_ Hl].
    eapply spec_bind; [apply create_if_absent_lists_nothing| |].
    2: { intros e o2 Hl2. simpl in Hl2. rewrite listings_app. lia. }
    intros [] o2 Hl2. simpl in Hl2.
    eapply spec_bind.
    { apply (spec_gets _ _ (fun r out => out = [])). by intros c. }
    2: { intros e o ->. rewrite !listings_app. simpl. lia. }
    intros max_bytes o3 ->.
    eapply spec_bind.
    { apply (spec_lift _ _ (fun r out => out = [])). done. }
    2: { intros e o ->. rewrite !listings_app. simpl. lia. }
    intros packet_size o4 ->. unfold append_packets.
    eapply spec_bind.
    { apply (spec_lift _ _ (fun r out => out = [])). done. }
    2: { intros e o ->. rewrite !listings_app. simpl. lia. }
    intros starts o5 ->.
    eapply spec_weaken; [apply append_loop_lists_nothing|].
    simpl. intros r out (-> & Hl6). rewrite !listings_app. simpl. lia.
  - by intros [] o1 ?.
  - intros e o1 Hl. apply spec_emit. rewrite listings_app, Hl. done.
Qed.

Lemma write_partition_lists_twice (w : BlobWriter S) (tmp_buffer : list pyval)
    (data : partition) :
  Forall has_fields tmp_buffer ->
  spec w (write_partition tmp_buffer data) (fun r out => r = Ok tt /\ listings out = 2).
Proof.
  intros Hf. unfold write_partition.
  destruct (filter_loop_fields tmp_buffer (k_type data) (k_date data) (k_time data) []
              Hf) as (file_data & Hfd).
  eapply spec_bind.
  { apply (spec_lift _ _ (fun r out => r = Ok file_data /\ out = [])). done. }
  2: { by intros e o [[=] _]. }
  intros ? o1 [[= ->] ->].
  eapply spec_bind.
  { apply (spec_emit _ _ (fun r out =>
             r = Ok tt /\ out = [LogInfo (MsgWriting (file_name data))])).
    done. }
  2: { by intros e o [[=] _]. }
  intros [] o2 [_ ->].
  eapply spec_bind; [apply create_append_blob_lists_once | |].
  2: { by intros e o [[=] _]. }
  intros [] o3 (_ & Hl3).
  eapply spec_weaken; [apply append_data_to_blob_lists_once|].
  simpl. intros r o4 (-> & Hl4). split; [done|]. rewrite listings_app. lia.
Qed.

End Facts.
End ListingFacts.

(** ** [process_message] *)

Module MainFacts.
Import Main.

Section Facts.
Context {S : Type} `{Azure.ContainerClient S}.
Variable arrow_get : pyval -> result unit.

Lemma check_fields_dict (d : list (string * pyval)) :
  check_fields required_fields (PyDict d)
  = match dict_get "tenant_id" d, dict_get "asset_id" d, dict_get "timestamp" d with
    | Some _, Some _, Some _ => Ok tt
    | _, _, _ => Raise ValueError
    end.
Proof.
  unfold required_fields. simpl.
  destruct (dict_get "tenant_id" d); [simpl|done].
  destruct (dict_get "asset_id" d); [simpl|done].
  by destruct (dict_get "timestamp" d).
Qed.

Lemma try_body_not_dict (message : pyval)
    (blob_writers : gmap string (BlobWriter S)) :
  (forall d, message <> PyDict d) ->
  exists e out, try_body arrow_get message blob_writers = (Raise e, blob_writers, out).
Proof.
  intros Hnd. unfold try_body.
  destruct (check_fields required_fields message) as [[]|e]; [|by eauto].
  destruct message as [| | | | |d]; try (simpl; by eauto).
  by destruct (Hnd d).
Qed.

Lemma dispatch_found (tenant_id : string) (data : pyval)
    (blob_writers : gmap string (BlobWriter S)) (writer : BlobWriter S) :
  blob_writers !! tenant_id = Some writer ->
  dispatch (PyStr tenant_id) data blob_writers
  = (Ok tt,
     <[tenant_id := set_buffer (buffer writer ++ [data]) writer]> blob_writers,
     []).
Proof.
  intros Hw. unfold dispatch, Handler.dispatch_blob_message. by rewrite Hw.
Qed.

Lemma process_message_dict (d : list (string * pyval))
    (blob_writers : gmap string (BlobWriter S)) (tenant_id timestamp : pyval) :
  dict_get "tenant_id" d = Some tenant_id ->
  is_Some (dict_get "asset_id" d) ->
  dict_get "timestamp" d = Some timestamp ->
  arrow_get timestamp = Ok tt ->
  exists entry,
    process_message arrow_get (PyDict d) blob_writers
    = match dispatch tenant_id (default PyNone (dict_get "data" d)) blob_writers with
      | (Ok _, blob_writers', out) => (true, blob_writers', entry :: map FromWriter out)
      | (Raise e, blob_writers', out) =>
          (false, blob_writers', (entry :: map FromWriter out) ++ [handler e])
      end.
Proof.
  intros Ht [asset Ha] Hts Harrow. unfold process_message, try_body.
  rewrite check_fields_dict, Ht, Ha, Hts. unfold processing. simpl.
  rewrite Ht, Ha, Hts. simpl. rewrite Harrow. eexists.
  destruct (dispatch tenant_id (default PyNone (dict_get "data" d)) blob_writers)
    as [[[[]|e] blob_writers'] out]; reflexivity.
Qed.

End Facts.
End MainFacts.

(** ** The objects and the dicts *)

Module AppFacts.
Import App.

Section Facts.
Context {S : Type} `{Azure.ContainerClient S}.

Lemma run_start_started (writer : BlobWriter S) : run_start writer = started writer.
Proof. done. Qed.

Lemma run_start_idemp (writer : BlobWriter S) :
  run_start (run_start writer) = run_start writer.
Proof. done. Qed.

(** What the loop of [initialize_blob_writers] has done after the tenants of
    [m]: the objects that [m] refers to are started, the others are as they
    were, and each tenant of [m] has its thread. *)
Lemma spawn_all (objects0 : gmap nat (BlobWriter S)) (threads0 : gmap string thread)
    (m : gmap string nat) :
  let done := map_fold spawn (objects0, threads0) m in
  (forall ref, (exists tenant_id, m !! tenant_id = Some ref) ->
     done.1 !! ref = run_start <$> objects0 !! ref)
  /\ (forall ref, (forall tenant_id, m !! tenant_id <> Some ref) ->
        done.1 !! ref = objects0 !! ref)
  /\ (forall tenant_id ref, m !! tenant_id = Some ref ->
        done.2 !! tenant_id
        = Some {| name := "blobWriter-" +:+ tenant_id; target := ref |})
  /\ (forall tenant_id, m !! tenant_id = None ->
        done.2 !! tenant_id = threads0 !! tenant_id)
  /\ (forall ref, done.1 !! ref = objects0 !! ref
                  \/ done.1 !! ref = run_start <$> objects0 !! ref).
Proof.
  cbv zeta. apply (map_fold_weak_ind (fun acc m =>
    (forall ref, (exists tenant_id, m !! tenant_id = Some ref) ->
       acc.1 !! ref = run_start <$> objects0 !! ref)
    /\ (forall ref, (forall tenant_id, m !! tenant_id <> Some ref) ->
          acc.1 !! ref = objects0 !! ref)
    /\ (forall tenant_id ref, m !! tenant_id = Some ref ->
          acc.2 !! tenant_id
          = Some {| name := "blobWriter-" +:+ tenant_id; target := ref |})
    /\ (forall tenant_id, m !! tenant_id = None ->
          acc.2 !! tenant_id = threads0 !! tenant_id)
    /\ (forall ref, acc.1 !! ref = objects0 !! ref
                    \/ acc.1 !! ref = run_start <$> objects0 !! ref))).
  - split; [by intros ref [tenant_id Hin]|]. split; [done|]. split; [done|].
    split; [done|]. intros ref. by left.
  - intros i x m' [objs threads] Hi (Hsome & Hnone & Hthread & Hother & Heither).
    simpl in *.
    assert (Hx : alter run_start x objs !! x = run_start <$> objects0 !! x).
    { rewrite lookup_alter. destruct (decide (x = x)); [|done].
      destruct (Heither x) as [->| ->]; [done|].
      destruct (objects0 !! x); simpl; [|done]. by rewrite run_start_idemp. }
    split; [|split; [|split; [|split]]].
    + intros ref [tenant_id Hin].
      destruct (decide (x = ref)) as [<-|Hne]; [done|]. rewrite lookup_alter_ne by done.
      apply Hsome. exists tenant_id.
      destruct (decide (i = tenant_id)) as [->|Hi'].
      * rewrite lookup_insert_eq in Hin. by injection Hin.
      * by rewrite lookup_insert_ne in Hin.
    + intros ref Hnot. rewrite lookup_alter_ne.
      * apply Hnone. intros t Ht. apply (Hnot t).
        destruct (decide (i = t)) as [->|Hi']; [by rewrite Hi in Ht|].
        by rewrite lookup_insert_ne.
      * intros ->. apply (Hnot i). by rewrite lookup_insert_eq.
    + intros tenant_id ref Hin. destruct (decide (i = tenant_id)) as [->|Hi'].
      * rewrite lookup_insert_eq in Hin. injection Hin as ->.
        by rewrite lookup_insert_eq.
      * rewrite lookup_insert_ne in Hin by done. rewrite lookup_insert_ne by done.
        by apply Hthread.
    + intros tenant_id Hin. destruct (decide (i = tenant_id)) as [->|Hi'].
      * by rewrite lookup_insert_eq in Hin.
      * rewrite lookup_insert_ne in Hin by done. rewrite lookup_insert_ne by done.
        by apply Hother.
    + intros ref. destruct (decide (x = ref)) as [<-|Hne]; [by right|].
      rewrite lookup_alter_ne by done. apply Heither.
Qed.

Lemma initialize_objects (st : state S) (tenant_id : string) (ref : nat) :
  connections st !! tenant_id = Some ref ->
  objects (initialize_blob_writers st) !! ref = started <$> objects st !! ref.
Proof.
  intros Hin.
  destruct (spawn_all (objects st) (blob_threads st) (connections st)) as (Hsome & _).
  simpl. rewrite Hsome by eauto. done.
Qed.

End Facts.
End AppFacts.

(** ** Runs of producers and flushes *)

Module RunFacts.
Import Interleaving InterleavingFacts.

Lemma run_app (a b : list op) (st : state) :
  run (a ++ b) st = match run a st with
                    | Some st' => run b st'
                    | None => None
                    end.
Proof.
  revert st. induction a as [|o a IH]; intros st; simpl; [done|].
  destruct (step o st); [apply IH|done].
Qed.

Lemma run_puts (messages : list pyval) (st : state) :
  run (map Put messages) st
  = Some {| queue := queue st ++ messages; flushes := flushes st |}.
Proof.
  revert st. induction messages as [|m ms IH]; intros st; simpl.
  - rewrite app_nil_r. by destruct st.
  - rewrite IH. simpl. by rewrite <- app_assoc.
Qed.

End RunFacts.

(** * What else the writer does *)

(** ** [__init__] *)

(** X1: when the connection string, or the container name, is given neither
    as an argument nor in the environment, [__init__] raises [ValueError]
    before it calls the SDK: it does so whatever the SDK would do with the
    settings that were found, also when building the client would raise
    another exception. *)
Theorem missing_setting_raises_before_connecting {S : Type}
    (environ : string -> option string) (client : string -> string -> result S)
    (connection_string container_name : option string) :
  (connection_string = None /\ environ "FD_BLOB_CONNECTION_STRING" = None)
  \/ (container_name = None /\ environ "FD_BLOB_CONTAINER_NAME" = None) ->
  init environ client connection_string container_name = Raise ValueError
  /\ forall e,
       init environ (fun _ _ => @Raise S e) connection_string container_name
       = Raise ValueError.
Proof.
  assert (Hany : forall client' : string -> string -> result S,
            (connection_string = None /\ environ "FD_BLOB_CONNECTION_STRING" = None)
            \/ (container_name = None /\ environ "FD_BLOB_CONTAINER_NAME" = None) ->
            init environ client' connection_string container_name = Raise ValueError).
  { intros client'. unfold init. intros [[-> ->]|[-> Hn]]; [done|]. rewrite Hn.
    destruct connection_string as [cs|]; [done|].
    by destruct (environ "FD_BLOB_CONNECTION_STRING"). }
  intros Hmissing. split; [by apply Hany|]. intros e. by apply Hany.
Qed.

Lemma missing_setting_raises_before_connecting_witness :
  let client :=
    fun _ _ : string => @Raise Memory.container (AzureError "AuthenticationFailed") in
  ((@None string = None /\ Fixtures.environ "FD_BLOB_CONNECTION_STRING" = None)
   \/ (@None string = None /\ Fixtures.environ "FD_BLOB_CONTAINER_NAME" = None))
  /\ client "UseDevelopmentStorage=true" "fd" = Raise (AzureError "AuthenticationFailed")
  /\ init Fixtures.environ client None None = Raise ValueError
  /\ forall e,
       init Fixtures.environ (fun _ _ => @Raise Memory.container e) None None
       = Raise ValueError.
Proof.
  intros client.
  assert (Hmissing :
    (@None string = None /\ Fixtures.environ "FD_BLOB_CONNECTION_STRING" = None)
    \/ (@None string = None /\ Fixtures.environ "FD_BLOB_CONTAINER_NAME" = None)).
  { right. split; reflexivity. }
  split; [exact Hmissing|]. split; [reflexivity|].
  exact (missing_setting_raises_before_connecting Fixtures.environ client
           None None Hmissing).
Defined.

(** X2: a writer that [__init__] returns has the settings given as
    arguments, the client the SDK built from its two settings and the ceiling
    of 3 MiB, and it is idle: [run_periodically] and a flush do nothing on it,
    and [stop] only prints its two lines. *)
Theorem new_writer_is_idle {S : Type} `{Azure.ContainerClient S}
    (environ : string -> option string) (client : string -> string -> result S)
    (cs cn : option string) (self : BlobWriter S) :
  init environ client cs cn = Ok self ->
  (forall given, cs = Some given -> connection_string self = given)
  /\ (forall given, cn = Some given -> container_name self = given)
  /\ client (connection_string self) (container_name self) = Ok (container_client self)
  /\ max_packet_size_bytes self = 3145728%Z
  /\ run_periodically self = (Ok tt, self, [])
  /\ write_buffer_to_blob self = (Ok tt, self, [])
  /\ stop self = (Ok tt, self, [Stdout MsgStop; Stdout MsgStopDone]).
Proof.
  unfold init. intros Hinit.
  destruct (match cs with
            | Some cs => Ok cs
            | None => match environ "FD_BLOB_CONNECTION_STRING" with
                      | Some cs => Ok cs
                      | None => Raise ValueError
                      end
            end) as [cs'|] eqn:Hcs; [simpl in Hinit|done].
  destruct (match cn with
            | Some cn => Ok cn
            | None => match environ "FD_BLOB_CONTAINER_NAME" with
                      | Some cn => Ok cn
                      | None => Raise ValueError
                      end
            end) as [cn'|] eqn:Hcn; [simpl in Hinit|done].
  destruct (client cs' cn') as [c|] eqn:Hclient; [simpl in Hinit|done].
  injection Hinit as <-. simpl.
  split; [intros given ->; by injection Hcs|].
  split; [intros given ->; by injection Hcn|]. done.
Qed.

Lemma new_writer_is_idle_witness :
  let client := fun _ _ : string => Ok Memory.empty in
  let self := Memory.writer Memory.empty three_MiB [] in
  init Fixtures.environ client None (Some "fd") = Ok self
  /\ (forall given, @None string = Some given -> connection_string self = given)
  /\ (forall given, Some "fd" = Some given -> container_name self = given)
  /\ client (connection_string self) (container_name self) = Ok (container_client self)
  /\ max_packet_size_bytes self = 3145728%Z
  /\ run_periodically self = (Ok tt, self, [])
  /\ write_buffer_to_blob self = (Ok tt, self, [])
  /\ stop self = (Ok tt, self, [Stdout MsgStop; Stdout MsgStopDone]).
Proof.
  split; [reflexivity|].
  exact (new_writer_is_idle Fixtures.environ (fun _ _ => Ok Memory.empty) None
           (Some "fd") (Memory.writer Memory.empty three_MiB []) eq_refl).
Defined.

(** ** [start], [run_periodically] and [stop] *)

(** X3: on a running writer whose buffered records can all be read,
    [run_periodically] returns after one flush of the buffer, with the events
    of that flush, and leaves a new timer of 10 seconds. *)
Theorem periodic_flush_rearms_timer {S : Type} `{Azure.ContainerClient S}
    (self : BlobWriter S) :
  running self = true ->
  Forall has_fields (buffer self) ->
  exists c out,
    write_buffer_to_blob self = (Ok tt, set_container_client c (set_buffer [] self), out)
    /\ run_periodically self
       = (Ok tt, rearmed (set_container_client c (set_buffer [] self)), out).
Proof.
  intros Hr Hall.
  destruct (process_loop_ok (buffer self) [] ∅ Hall) as (blob_data & Hp & _).
  destruct (write_buffer_to_blob_ok self blob_data Hp) as (c & outs & Hrun & _).
  exists c, (concat outs). split; [done|].
  cbv [run_periodically bind gets modify]. rewrite Hr, Hrun. simpl.
  by rewrite app_nil_r.
Qed.

Lemma periodic_flush_rearms_timer_witness :
  let self := started (Memory.writer Memory.empty three_MiB [small; second]) in
  running self = true
  /\ Forall has_fields (buffer self)
  /\ exists c out,
      write_buffer_to_blob self
      = (Ok tt, set_container_client c (set_buffer [] self), out)
      /\ run_periodically self
         = (Ok tt, rearmed (set_container_client c (set_buffer [] self)), out).
Proof.
  intros self.
  assert (running self = true) as Hr by reflexivity.
  assert (Forall has_fields (buffer self)) as Hall.
  { repeat constructor; eexists; reflexivity. }
  split; [exact Hr|]. split; [exact Hall|].
  exact (periodic_flush_rearms_timer self Hr Hall).
Defined.

(** X4: on a running writer with a record that cannot be read,
    [run_periodically] raises that record's exception out of the timer's
    thread: the buffer is drained, nothing is written, and no new timer is
    set, so the periodic flush of this writer has ended. *)
Theorem unreadable_record_ends_periodic_flush {S : Type} `{Azure.ContainerClient S}
    (self : BlobWriter S) (good : list pyval) (bad : pyval) (rest : list pyval)
    (e : exn) :
  running self = true ->
  buffer self = good ++ bad :: rest ->
  Forall has_fields good ->
  item_fields bad = Raise e ->
  run_periodically self = (Raise e, set_buffer [] self, [])
  /\ timer (run_periodically self).1.2 = timer self.
Proof.
  intros Hr Hb Hgood Hbad.
  assert (Hp : process_input_array (buffer self) = Raise e).
  { rewrite Hb. by apply process_loop_raise. }
  assert (Hrun : run_periodically self = (Raise e, set_buffer [] self, [])).
  { cbv [run_periodically bind gets modify]. rewrite Hr.
    by rewrite (write_buffer_to_blob_raise self e Hp). }
  by rewrite Hrun.
Qed.

Lemma unreadable_record_ends_periodic_flush_witness :
  let self :=
    started (Memory.writer Memory.empty three_MiB [small; unreadable; next_hour]) in
  running self = true
  /\ buffer self = [small] ++ unreadable :: [next_hour]
  /\ Forall has_fields [small]
  /\ item_fields unreadable = Raise (KeyError "meta")
  /\ run_periodically self = (Raise (KeyError "meta"), set_buffer [] self, [])
  /\ timer (run_periodically self).1.2 = timer self.
Proof.
  intros self.
  assert (running self = true) as Hr by reflexivity.
  assert (buffer self = [small] ++ unreadable :: [next_hour]) as Hb by reflexivity.
  assert (Forall has_fields [small]) as Hgood.
  { repeat constructor; eexists; reflexivity. }
  assert (item_fields unreadable = Raise (KeyError "meta")) as Hbad by reflexivity.
  split; [exact Hr|]. split; [exact Hb|]. split; [exact Hgood|]. split; [exact Hbad|].
  exact (unreadable_record_ends_periodic_flush self [small] unreadable [next_hour]
           (KeyError "meta") Hr Hb Hgood Hbad).
Defined.

(** X5: a writer is started, messages are handed to it, the timer fires,
    and it is stopped.  When the records can be read, the timer's flush is
    the flush of the buffer with the messages at its end, and [stop] then has
    nothing left to write: it prints its two lines and leaves the writer not
    running, its 10 second timer cancelled, the buffer empty. *)
Theorem started_writer_flushes_then_stops_clean {S : Type} `{Azure.ContainerClient S}
    (self : BlobWriter S) (messages : list pyval) :
  Forall has_fields (buffer self ++ messages) ->
  exists c out,
    let flushed := set_container_client c (set_buffer [] self) in
    write_buffer_to_blob (set_buffer (buffer self ++ messages) self)
    = (Ok tt, flushed, out)
    /\ run_periodically (enqueue_all messages (start self).1.2)
       = (Ok tt, rearmed (started flushed), out)
    /\ stop (rearmed (started flushed))
       = (Ok tt,
          scheduled false (Some {| interval := 10; cancelled := true |}) flushed,
          [Stdout MsgStop; Stdout MsgStopDone]).
Proof.
  intros Hall.
  set (full := set_buffer (buffer self ++ messages) self).
  destruct (process_loop_ok (buffer full) [] ∅ Hall) as (blob_data & Hp & _).
  destruct (write_buffer_to_blob_ok full blob_data Hp) as (c & outs & Hrun & _).
  exists c, (concat outs). cbv zeta.
  assert (Hflushed : set_container_client c (set_buffer [] full)
                     = set_container_client c (set_buffer [] self)) by done.
  rewrite Hflushed in Hrun. split; [done|]. split.
  - rewrite FlushFacts.enqueue_all_buffer.
    assert (Hs : set_buffer (buffer (start self).1.2 ++ messages) (start self).1.2
                 = scheduled true (Some {| interval := 1; cancelled := false |}) full)
      by done.
    rewrite Hs. cbv [run_periodically bind gets modify].
    change (running (scheduled true (Some {| interval := 1; cancelled := false |}) full))
      with true. cbv beta iota.
    rewrite FrameFacts.commutes_write_buffer_to_blob, Hrun. simpl.
    by rewrite app_nil_r.
  - rewrite stop_run.
    assert (Hh : halted (rearmed (started (set_container_client c (set_buffer [] self))))
                 = scheduled false (Some {| interval := 10; cancelled := true |})
                     (set_container_client c (set_buffer [] self))) by done.
    rewrite Hh, (FlushFacts.flush_empty _); done.
Qed.

Lemma started_writer_flushes_then_stops_clean_witness :
  let self := Memory.writer Memory.empty three_MiB [small] in
  let messages := [next_hour; second] in
  Forall has_fields (buffer self ++ messages)
  /\ exists c out,
      let flushed := set_container_client c (set_buffer [] self) in
      write_buffer_to_blob (set_buffer (buffer self ++ messages) self)
      = (Ok tt, flushed, out)
      /\ run_periodically (enqueue_all messages (start self).1.2)
         = (Ok tt, rearmed (started flushed), out)
      /\ stop (rearmed (started flushed))
         = (Ok tt,
            scheduled false (Some {| interval := 10; cancelled := true |}) flushed,
            [Stdout MsgStop; Stdout MsgStopDone]).
Proof.
  intros self messages.
  assert (Forall has_fields (buffer self ++ messages)) as Hall.
  { repeat constructor; eexists; reflexivity. }
  split; [exact Hall|].
  exact (started_writer_flushes_then_stops_clean self messages Hall).
Defined.

(** ** [list_blob_names], [create_append_blob] and [append_data_to_blob] *)

(** X6: for a blob that the container lists, [create_append_blob] makes no
    call but the listing. *)
Theorem create_skipped_for_listed_blob {S : Type} `{Azure.ContainerClient S}
    (self : BlobWriter S) (name : string) (names : list string) (c : S) :
  Azure.list_blobs (container_client self) = (Ok names, c) ->
  In name names ->
  create_append_blob name self = (Ok tt, set_container_client c self, [ListBlobs]).
Proof.
  intros Hl Hin. cbv [create_append_blob try_except bind list_blob_names call].
  rewrite Hl. simpl. destruct (decide (name ∈ names)) as [|Hn]; [done|].
  destruct Hn. by apply list_elem_of_In.
Qed.

Lemma create_skipped_for_listed_blob_witness :
  let self := Memory.writer Fixtures.holding three_MiB [] in
  Azure.list_blobs (container_client self) = (Ok [target], Fixtures.holding)
  /\ In target [target]
  /\ create_append_blob target self
     = (Ok tt, set_container_client Fixtures.holding self, [ListBlobs]).
Proof.
  intros self.
  assert (Azure.list_blobs (container_client self) = (Ok [target], Fixtures.holding))
    as Hl by reflexivity.
  assert (In target [target]) as Hin by (simpl; auto).
  split; [exact Hl|]. split; [exact Hin|].
  exact (create_skipped_for_listed_blob self target [target] Fixtures.holding Hl Hin).
Defined.

(** X7: when the listing fails, [list_blob_names] prints the failure and
    answers with no name, so [create_append_blob] asks the service to create
    the blob whether or not it exists; a refusal is printed, and the method
    returns in both cases. *)
Theorem create_attempted_after_failed_listing {S : Type} `{Azure.ContainerClient S}
    (self : BlobWriter S) (name : string) (e : exn) (c : S) :
  Azure.list_blobs (container_client self) = (Raise e, c) ->
  exists r c',
    Azure.create_append_blob name c = (r, c')
    /\ create_append_blob name self
       = (Ok tt, set_container_client c' self,
          [ListBlobs; Stdout (MsgListFailed e); CreateAppendBlob name]
          ++ match r with
             | Ok _ => []
             | Raise e' => [Stdout (MsgCreateFailed e')]
             end).
Proof.
  intros Hl. destruct (Azure.create_append_blob name c) as [r c'] eqn:Hc.
  exists r, c'. split; [done|].
  cbv [create_append_blob try_except bind list_blob_names call emit ret].
  rewrite Hl. simpl. rewrite Hc. by destruct r as [[]|e'].
Qed.

Lemma create_attempted_after_failed_listing_witness :
  let self := Memory.writer Fixtures.unlisted three_MiB [] in
  let e := AzureError "ServiceUnavailable" in
  Azure.list_blobs (container_client self) = (Raise e, Fixtures.unlisted)
  /\ exists r c',
      Azure.create_append_blob target Fixtures.unlisted = (r, c')
      /\ create_append_blob target self
         = (Ok tt, set_container_client c' self,
            [ListBlobs; Stdout (MsgListFailed e); CreateAppendBlob target]
            ++ match r with
               | Ok _ => []
               | Raise e' => [Stdout (MsgCreateFailed e')]
               end).
Proof.
  intros self e.
  assert (Azure.list_blobs (container_client self) = (Raise e, Fixtures.unlisted))
    as Hl by reflexivity.
  split; [exact Hl|].
  exact (create_attempted_after_failed_listing self target e Fixtures.unlisted Hl).
Defined.

(** X8: [append_data_to_blob] with no record makes no [append_block] call,
    and it does not return silently: the packet size 0 makes [range] raise
    [ValueError], or the creation of the blob was refused before, and the
    method logs that as an error of the append. *)
Theorem empty_group_is_logged_as_aborted {S : Type} `{Azure.ContainerClient S}
    (self : BlobWriter S) (name : string) :
  exists c before e,
    append_data_to_blob name [] self
    = (Ok tt, set_container_client c self,
       before ++ [LogError (MsgAppendAborted 0 name e)])
    /\ append_calls before = []
    /\ (e = ValueError \/ In (CreateAppendBlob name) before).
Proof.
  cbv [append_data_to_blob try_except bind list_blob_names call emit ret gets lift
       append_packets packet_size_of].
  destruct (Azure.list_blobs (container_client self)) as [[names|e0] c] eqn:Hl; simpl.
  - destruct (decide (name ∈ names)); simpl.
    + exists c, [ListBlobs], ValueError. auto.
    + destruct (Azure.create_append_blob name c) as [[[]|e1] c'] eqn:Hc; simpl.
      * exists c', [ListBlobs; CreateAppendBlob name], ValueError. auto.
      * exists c', [ListBlobs; CreateAppendBlob name], e1.
        split; [done|]. split; [done|]. right. simpl. auto.
  - destruct (Azure.create_append_blob name c) as [[[]|e1] c'] eqn:Hc; simpl.
    + exists c', [ListBlobs; Stdout (MsgListFailed e0); CreateAppendBlob name], ValueError.
      auto.
    + exists c', [ListBlobs; Stdout (MsgListFailed e0); CreateAppendBlob name], e1.
      split; [done|]. split; [done|]. right. simpl. auto.
Qed.

(** X9: when the blob is not listed and the service refuses to create it,
    [append_data_to_blob] sends none of the records: it logs the refusal as
    an error of the append and returns. *)
Theorem refused_create_drops_group {S : Type} `{Azure.ContainerClient S}
    (self : BlobWriter S) (name : string) (data : list pyval)
    (names : list string) (c c' : S) (e : exn) :
  Azure.list_blobs (container_client self) = (Ok names, c) ->
  ~ In name names ->
  Azure.create_append_blob name c = (Raise e, c') ->
  append_data_to_blob name data self
  = (Ok tt, set_container_client c' self,
     [ListBlobs; CreateAppendBlob name; LogError (MsgAppendAborted 0 name e)]).
Proof.
  intros Hl Hn Hc.
  cbv [append_data_to_blob try_except bind list_blob_names call emit ret gets lift].
  rewrite Hl. simpl. destruct (decide (name ∈ names)) as [Hin|_].
  { destruct Hn. by apply list_elem_of_In. }
  simpl. by rewrite Hc.
Qed.

Lemma refused_create_drops_group_witness :
  let self := Memory.writer Fixtures.sealed three_MiB [] in
  let e := AzureError "ServiceUnavailable" in
  Azure.list_blobs (container_client self) = (Ok [], Fixtures.sealed)
  /\ ~ In target []
  /\ Azure.create_append_blob target Fixtures.sealed = (Raise e, Fixtures.sealed)
  /\ append_data_to_blob target [small; second] self
     = (Ok tt, set_container_client Fixtures.sealed self,
        [ListBlobs; CreateAppendBlob target; LogError (MsgAppendAborted 0 target e)]).
Proof.
  intros self e.
  assert (Azure.list_blobs (container_client self) = (Ok [], Fixtures.sealed))
    as Hl by reflexivity.
  assert (~ In target []) as Hn by (simpl; auto).
  assert (Azure.create_append_blob target Fixtures.sealed = (Raise e, Fixtures.sealed))
    as Hc by reflexivity.
  split; [exact Hl|]. split; [exact Hn|]. split; [exact Hc|].
  exact (refused_create_drops_group self target [small; second] []
           Fixtures.sealed Fixtures.sealed e Hl Hn Hc).
Defined.

(** X10: with a packet size of at least 1, the packet loop makes
    [ceil(n / packet_size)] calls of [append_block] for a group of [n]
    records, and every packet but the last holds exactly [packet_size]
    records. *)
Theorem packet_loop_sends_full_packets_then_the_rest {S : Type}
    `{Azure.ContainerClient S}
    (self : BlobWriter S) (name : string) (data : list pyval) (packet_size : Z) :
  (1 <= packet_size)%Z ->
  exists sent : list (list pyval),
    append_calls (append_packets name data packet_size self).2
    = map (fun packet => (name, encode_utf8 (data_to_append packet))) sent
    /\ length sent
       = Z.to_nat ((Z.of_nat (length data) + packet_size - 1) / packet_size)
    /\ forall j packet,
         sent !! j = Some packet -> j + 1 < length sent ->
         Z.of_nat (length packet) = packet_size.
Proof.
  intros Hp.
  destruct (append_packets_run self name data packet_size Hp)
    as (c & out & starts & Hrun & Hrange & Hcalls).
  rewrite range_starts in Hrange by done. injection Hrange as <-.
  rewrite packets_take_drop in Hcalls by done.
  eexists. rewrite Hrun. split; [exact Hcalls|].
  rewrite length_map, length_seq. split; [by apply CountFacts.packet_count_ceiling|].
  intros j packet Hj Hlt. rewrite list_lookup_fmap in Hj.
  destruct (seq 0 (packet_count (length data) packet_size) !! j) as [i|] eqn:Hi;
    [|done].
  apply lookup_seq in Hi as [-> _]. simpl in Hj. injection Hj as <-.
  apply CountFacts.full_packet; [done|]. lia.
Qed.

Lemma packet_loop_sends_full_packets_then_the_rest_witness :
  let self := Memory.writer Memory.empty 200 [] in
  (1 <= 2)%Z
  /\ exists sent : list (list pyval),
      append_calls (append_packets target [small; second; big] 2 self).2
      = map (fun packet => (target, encode_utf8 (data_to_append packet))) sent
      /\ length sent = Z.to_nat ((Z.of_nat (length [small; second; big]) + 2 - 1) / 2)
      /\ forall j packet,
           sent !! j = Some packet -> j + 1 < length sent ->
           Z.of_nat (length packet) = 2%Z.
Proof.
  intros self.
  assert (1 <= 2)%Z as Hp by lia.
  split; [exact Hp|].
  exact (packet_loop_sends_full_packets_then_the_rest self target
           [small; second; big] 2 Hp).
Defined.

(** ** [write_buffer_to_blob] *)

(** X11: a flush changes nothing and emits nothing exactly when the buffer
    is empty. *)
Theorem flush_noop_iff_empty {S : Type} `{Azure.ContainerClient S}
    (self : BlobWriter S) :
  write_buffer_to_blob self = (Ok tt, self, []) <-> buffer self = [].
Proof.
  split; [|apply FlushFacts.flush_empty].
  intros Hrun. destruct (FlushFacts.flush_state self) as [c Hc].
  rewrite Hrun in Hc. simpl in Hc. by rewrite Hc.
Qed.

(** X12: a flush neither reads nor writes [running] and [timer]: on the
    same object in another scheduling state it gives the same result and the
    same events, and leaves that scheduling state as it found it. *)
Theorem flush_ignores_scheduling {S : Type} `{Azure.ContainerClient S}
    (is_running : bool) (t : option Timer) (self : BlobWriter S) :
  write_buffer_to_blob (scheduled is_running t self)
  = match write_buffer_to_blob self with
    | (r, self', out) => (r, scheduled is_running t self', out)
    end.
Proof. apply FrameFacts.commutes_write_buffer_to_blob. Qed.

(** X13: a flush lists the blobs of the container twice for every
    partition of its snapshot: once in [create_append_blob] and once more in
    [append_data_to_blob]. *)
Theorem flush_lists_blobs_twice_per_partition {S : Type} `{Azure.ContainerClient S}
    (self : BlobWriter S) (blob_data : list partition) :
  process_input_array (buffer self) = Ok blob_data ->
  listings (write_buffer_to_blob self).2 = 2 * length blob_data.
Proof.
  intros Hp. unfold write_buffer_to_blob, bind. rewrite clear_buffer_run.
  unfold lift. rewrite Hp.
  apply process_loop_ok_inv in Hp as Hf.
  destruct (spec_for_each (set_buffer [] self) blob_data
              (write_partition (buffer self))
              (fun _ out => listings out = 2)
              (fun data _ => ListingFacts.write_partition_lists_twice _ _ data Hf)
              (container_client self))
    as (r & c & out & Hrun & -> & outs & -> & Hall).
  replace (set_container_client (container_client self) (set_buffer [] self))
    with (set_buffer [] self) in Hrun by (by destruct self).
  rewrite Hrun. simpl.
  rewrite (ListingFacts.listings_concat outs 2).
  - by rewrite (Forall2_length _ _ _ Hall).
  - clear -Hall. induction Hall; by constructor.
Qed.

Lemma flush_lists_blobs_twice_per_partition_witness :
  let self := Memory.writer Memory.empty three_MiB [small; next_hour; second] in
  let blob_data :=
    [{| k_type := PyStr "heartbeat"; k_date := "20240101"; k_time := "08" |};
     {| k_type := PyStr "heartbeat"; k_date := "20240101"; k_time := "09" |}] in
  process_input_array (buffer self) = Ok blob_data
  /\ listings (write_buffer_to_blob self).2 = 2 * length blob_data.
Proof.
  intros self blob_data.
  assert (process_input_array (buffer self) = Ok blob_data) as Hp by reflexivity.
  split; [exact Hp|].
  exact (flush_lists_blobs_twice_per_partition self blob_data Hp).
Defined.

(** ** [message_handler] and [clear_buffer] *)

(** X14: [clear_buffer] returns what the buffer held followed by the
    messages handed to [message_handler] since, in the order of the calls,
    and leaves the buffer empty: a second [clear_buffer] returns nothing. *)
Theorem enqueue_then_drain {S : Type} `{Azure.ContainerClient S}
    (messages : list pyval) (self : BlobWriter S) :
  clear_buffer (enqueue_all messages self)
  = (Ok (buffer self ++ messages), set_buffer [] self, [])
  /\ clear_buffer (clear_buffer (enqueue_all messages self)).1.2
     = (Ok [], set_buffer [] self, []).
Proof.
  rewrite FlushFacts.enqueue_all_buffer, !clear_buffer_run. simpl. done.
Qed.

(** X15: the flush has no drain boundary at its start: messages put after a
    flush has entered [clear_buffer] and before its loop finds the queue
    empty are part of the snapshot of that flush, after the messages that
    were put before. *)
Theorem late_puts_join_running_flush (before after : list pyval) :
  Interleaving.run
    (map Interleaving.Put before
     ++ Interleaving.Enter
     :: map Interleaving.Put after
     ++ repeat (Interleaving.Get 0) (length (before ++ after))
     ++ [Interleaving.Return 0])
    Interleaving.initial
  = Some {| Interleaving.queue := [];
            Interleaving.flushes :=
              [{| Interleaving.tmp_buffer := before ++ after;
                  Interleaving.returned := true |}] |}.
Proof.
  rewrite RunFacts.run_app, RunFacts.run_puts. simpl.
  rewrite RunFacts.run_app, RunFacts.run_puts. simpl.
  assert (Hloop := InterleavingFacts.flush_loop_alone [] (before ++ after) []).
  simpl in Hloop. rewrite clear_loop_spec in Hloop. exact Hloop.
Qed.

(** ** [process_input_array] and [filter_by_type_and_date] *)

(** X16: on a snapshot whose records can all be read, whatever their
    fields are, [process_input_array] returns partitions with pairwise
    different ids; the id of every record of the snapshot is the id of one of
    them; every partition has the type, date and hour of some record of the
    snapshot; and there are no more partitions than records. *)
Theorem partitions_have_distinct_ids (snapshot : list pyval) :
  Forall has_fields snapshot ->
  exists blob_data,
    process_input_array snapshot = Ok blob_data
    /\ List.NoDup (map partition_id blob_data)
    /\ (forall item type date time,
          In item snapshot -> item_fields item = Ok (type, date, time) ->
          In (unique_id type date time) (map partition_id blob_data))
    /\ (forall data, In data blob_data ->
          exists item, In item snapshot
            /\ item_fields item = Ok (k_type data, k_date data, k_time data))
    /\ length blob_data <= length snapshot.
Proof.
  intros Hall.
  destruct (LoopFacts.process_loop_ids snapshot [] ∅ Hall)
    as (blob_data & Hrun & Hnd & _ & Hitems & Hlen).
  { intros id. simpl. set_solver. }
  { constructor. }
  exists blob_data. split; [done|]. split; [done|]. split; [done|]. split; [|done].
  destruct (process_loop_ok snapshot [] ∅ Hall) as (blob_data' & Hrun' & Hfrom).
  unfold process_input_array in *. rewrite Hrun in Hrun'. injection Hrun' as <-.
  intros data Hin. by destruct (Hfrom data Hin) as [[]|].
Qed.

Lemma partitions_have_distinct_ids_witness :
  let snapshot := [small; next_hour; second] in
  Forall has_fields snapshot
  /\ exists blob_data,
      process_input_array snapshot = Ok blob_data
      /\ List.NoDup (map partition_id blob_data)
      /\ (forall item type date time,
            In item snapshot -> item_fields item = Ok (type, date, time) ->
            In (unique_id type date time) (map partition_id blob_data))
      /\ (forall data, In data blob_data ->
            exists item, In item snapshot
              /\ item_fields item = Ok (k_type data, k_date data, k_time data))
      /\ length blob_data <= length snapshot.
Proof.
  intros snapshot.
  assert (Forall has_fields snapshot) as Hall.
  { repeat constructor; eexists; reflexivity. }
  split; [exact Hall|]. exact (partitions_have_distinct_ids snapshot Hall).
Defined.

(** X17: the id joins type, date and hour with dashes, so two different
    keys can have one id.  Of two such records in a snapshot only the first
    gets a partition: the second is in no group, its blob is neither created
    nor appended to, and the flush returns without a word about it. *)
Theorem colliding_ids_drop_second_partition {S : Type} `{Azure.ContainerClient S}
    (self : BlobWriter S) (r1 r2 : pyval) (t d h h' : string) :
  item_fields r1 = Ok (PyStr t, d, h +:+ "-" +:+ h') ->
  item_fields r2 = Ok (PyStr (t +:+ "-" +:+ d), h, h') ->
  buffer self = [r1; r2] ->
  let p1 := {| k_type := PyStr t; k_date := d; k_time := h +:+ "-" +:+ h' |} in
  let p2 := {| k_type := PyStr (t +:+ "-" +:+ d); k_date := h; k_time := h' |} in
  process_input_array [r1; r2] = Ok [p1]
  /\ filter_by_type_and_date [r1; r2] (k_type p1) (k_date p1) (k_time p1) = Ok [r1]
  /\ file_name p2 <> file_name p1
  /\ (write_buffer_to_blob self).1.1 = Ok tt
  /\ ~ In (file_name p2) (targets (write_buffer_to_blob self).2).
Proof.
  intros Hf1 Hf2 Hb p1 p2.
  assert (Hid : unique_id (PyStr (t +:+ "-" +:+ d)) h h'
                = unique_id (PyStr t) d (h +:+ "-" +:+ h')).
  { unfold unique_id. simpl. by rewrite !LoopFacts.append_assoc. }
  assert (Hp : process_input_array [r1; r2] = Ok [p1]).
  { unfold process_input_array. simpl. rewrite Hf1. simpl.
    destruct (decide (unique_id (PyStr t) d (h +:+ "-" +:+ h') ∈ (∅ : gset string)))
      as [Hin|_]; [set_solver|].
    rewrite Hf2. simpl. rewrite Hid.
    destruct (decide (unique_id (PyStr t) d (h +:+ "-" +:+ h')
                      ∈ ({[unique_id (PyStr t) d (h +:+ "-" +:+ h')]} ∪ ∅ : gset string)))
      as [_|Hout]; [done|set_solver]. }
  assert (Hne : file_name p2 <> file_name p1).
  { unfold file_name. simpl. rewrite !LoopFacts.append_assoc. intros Heq.
    apply LoopFacts.append_cancel_l in Heq. discriminate. }
  split; [done|]. split; [|split; [done|]].
  - unfold filter_by_type_and_date. simpl. rewrite Hf1. simpl.
    rewrite !String.eqb_refl. simpl. rewrite Hf2. simpl.
    by rewrite LoopFacts.eqb_append_longer.
  - rewrite <- Hb in Hp.
    destruct (write_buffer_to_blob_ok self _ Hp) as (c & outs & Hrun & Hall).
    rewrite Hrun. simpl. split; [done|]. intros Hin.
    apply targets_concat in Hin as (out & Hout & Hin).
    inversion Hall as [|? out1 ? outs' Hev Hall' Heq1 Heq2]; subst.
    inversion Hall'; subst. destruct Hout as [<-|[]].
    destruct Hev as (Htargets & _). apply Hne. by apply Htargets.
Qed.

Lemma colliding_ids_drop_second_partition_witness :
  let self := Memory.writer Memory.empty three_MiB [Fixtures.dashed; Fixtures.shifted] in
  let p1 := {| k_type := PyStr "heartbeat"; k_date := "20240101"; k_time := "08-05" |} in
  let p2 := {| k_type := PyStr "heartbeat-20240101"; k_date := "08"; k_time := "05" |} in
  item_fields Fixtures.dashed = Ok (PyStr "heartbeat", "20240101", "08-05")
  /\ item_fields Fixtures.shifted = Ok (PyStr "heartbeat-20240101", "08", "05")
  /\ buffer self = [Fixtures.dashed; Fixtures.shifted]
  /\ process_input_array [Fixtures.dashed; Fixtures.shifted] = Ok [p1]
  /\ filter_by_type_and_date [Fixtures.dashed; Fixtures.shifted]
       (k_type p1) (k_date p1) (k_time p1) = Ok [Fixtures.dashed]
  /\ file_name p2 <> file_name p1
  /\ (write_buffer_to_blob self).1.1 = Ok tt
  /\ ~ In (file_name p2) (targets (write_buffer_to_blob self).2).
Proof.
  intros self p1 p2.
  split; [reflexivity|]. split; [reflexivity|]. split; [reflexivity|].
  exact (colliding_ids_drop_second_partition self Fixtures.dashed Fixtures.shifted
           "heartbeat" "20240101" "08" "05" eq_refl eq_refl eq_refl).
Defined.

(** X18: on a snapshot of well-formed records the groups that the flush
    hands to [append_data_to_blob], one for each partition, hold together
    exactly the records of the snapshot: each record is in one group, once. *)
Theorem groups_cover_snapshot (snapshot : list pyval) :
  Forall (fun item => well_formed item = true) snapshot ->
  exists blob_data groups,
    process_input_array snapshot = Ok blob_data
    /\ Forall2 (fun data group =>
                  filter_by_type_and_date snapshot (k_type data) (k_date data) (k_time data)
                  = Ok group) blob_data groups
    /\ Permutation (concat groups) snapshot.
Proof.
  intros Hwf.
  assert (Hall : Forall has_fields snapshot).
  { eapply List.Forall_impl; [|exact Hwf]. intros item Hitem.
    by apply keyed_has_fields, well_formed_keyed. }
  exists (map partition_of (first_seen (keys_of snapshot))),
         (map (fun k => List.filter (carries k) snapshot) (first_seen (keys_of snapshot))).
  split; [by apply process_input_array_first_seen|]. split.
  - induction (first_seen (keys_of snapshot)) as [|[[t d] h] ks IH]; simpl;
      constructor; [|done].
    simpl. by apply filter_by_type_and_date_carries.
  - apply CoverFacts.groups_concat; [apply first_seen_NoDup|].
    intros item Hin. rewrite List.Forall_forall in Hwf.
    destruct (well_formed_keyed item (Hwf item Hin)) as [k Hk].
    exists k. split; [done|]. apply first_seen_In. by apply (keys_of_In snapshot item).
Qed.

Lemma groups_cover_snapshot_witness :
  let snapshot := [small; next_hour; second] in
  Forall (fun item => well_formed item = true) snapshot
  /\ exists blob_data groups,
      process_input_array snapshot = Ok blob_data
      /\ Forall2 (fun data group =>
                    filter_by_type_and_date snapshot
                      (k_type data) (k_date data) (k_time data)
                    = Ok group) blob_data groups
      /\ Permutation (concat groups) snapshot.
Proof.
  intros snapshot.
  assert (Forall (fun item => well_formed item = true) snapshot) as Hwf
    by (repeat constructor).
  split; [exact Hwf|]. exact (groups_cover_snapshot snapshot Hwf).
Defined.

(** X19: whatever the timestamp of a record is, the date read from it holds
    no dash and no [T], and the hour no colon and no [T]. *)
Theorem key_parts_hold_no_separator (item type : pyval) (date time : string) :
  item_fields item = Ok (type, date, time) ->
  contains_char "-" date = false
  /\ contains_char "T" date = false
  /\ contains_char ":" time = false
  /\ contains_char "T" time = false.
Proof.
  unfold item_fields. intros Hf.
  destruct (subscript item "data") as [data|]; [simpl in Hf|done].
  destruct (subscript data "type") as [type'|]; [simpl in Hf|done].
  destruct (subscript item "meta") as [meta|]; [simpl in Hf|done].
  destruct (subscript meta "timestamp") as [[| | |s| |]|]; try done. simpl in Hf.
  destruct (index (split_on "T" s) 0) as [d0|] eqn:H0; [simpl in Hf|done].
  destruct (index (split_on "T" s) 1) as [d1|] eqn:H1; [simpl in Hf|done].
  destruct (index (split_on ":" d1) 0) as [hour|] eqn:H2; [simpl in Hf|done].
  injection Hf as <- <- <-.
  assert (HT : Forall (fun part => contains_char "T" part = false) (split_on "T" s))
    by (apply FieldFacts.split_on_parts_free; by left).
  rewrite List.Forall_forall in HT.
  assert (Hd0 := HT d0 (FieldFacts.index_In _ _ _ H0)).
  assert (Hd1 := HT d1 (FieldFacts.index_In _ _ _ H1)).
  assert (Hc : Forall (fun part => contains_char ":" part = false) (split_on ":" d1))
    by (apply FieldFacts.split_on_parts_free; by left).
  assert (HT1 : Forall (fun part => contains_char "T" part = false) (split_on ":" d1))
    by (apply FieldFacts.split_on_parts_free; by right).
  rewrite List.Forall_forall in Hc, HT1.
  assert (Hin := FieldFacts.index_In _ _ _ H2).
  split; [apply FieldFacts.remove_char_gone|].
  split; [by apply FieldFacts.remove_char_keeps_free|]. auto.
Qed.

Lemma key_parts_hold_no_separator_witness :
  item_fields small = Ok (PyStr "heartbeat", "20240101", "08")
  /\ contains_char "-" "20240101" = false
  /\ contains_char "T" "20240101" = false
  /\ contains_char ":" "08" = false
  /\ contains_char "T" "08" = false.
Proof.
  split; [reflexivity|].
  exact (key_parts_hold_no_separator small (PyStr "heartbeat") "20240101" "08" eq_refl).
Defined.

(** X20: of a record that has its type and a timestamp, the two loops read
    the fields exactly when the timestamp is a [str] with a [T] in it; a
    [str] without [T] raises [IndexError], and a timestamp that is no [str]
    raises [AttributeError]. *)
Theorem timestamp_is_read_iff_str_with_T (item type timestamp : pyval) :
  rbind (subscript item "data") (fun data => subscript data "type") = Ok type ->
  rbind (subscript item "meta") (fun meta => subscript meta "timestamp") = Ok timestamp ->
  match timestamp with
  | PyStr s =>
      if contains_char "T" s
      then exists date time, item_fields item = Ok (type, date, time)
      else item_fields item = Raise IndexError
  | _ => item_fields item = Raise AttributeError
  end.
Proof.
  unfold item_fields. intros Htype Hts.
  destruct (subscript item "data") as [data|]; [simpl in *|done].
  rewrite Htype. simpl.
  destruct (subscript item "meta") as [meta|]; [simpl in *|done].
  rewrite Hts. destruct timestamp as [| | |s| |]; try done. simpl.
  destruct (contains_char "T" s) eqn:HT.
  - destruct (FieldFacts.split_on_with "T" s HT) as (a & b & rest & Hs). rewrite Hs.
    simpl. destruct (split_on ":" b) as [|hour tail] eqn:Hb;
      [by destruct (split_on_nonempty ":" b)|].
    simpl. eauto.
  - by rewrite (FieldFacts.split_on_without "T" s HT).
Qed.

Lemma timestamp_is_read_iff_str_with_T_witness :
  rbind (subscript Fixtures.spaced "data") (fun data => subscript data "type")
  = Ok (PyStr "heartbeat")
  /\ rbind (subscript Fixtures.spaced "meta") (fun meta => subscript meta "timestamp")
     = Ok (PyStr "2024-01-01 08:15:00")
  /\ item_fields Fixtures.spaced = Raise IndexError.
Proof.
  split; [reflexivity|]. split; [reflexivity|].
  exact (timestamp_is_read_iff_str_with_T Fixtures.spaced (PyStr "heartbeat")
           (PyStr "2024-01-01 08:15:00") eq_refl eq_refl).
Defined.

(** X21: two different keys of the data model, with a date of eight and an
    hour of two characters, are written to two different blobs. *)
Theorem distinct_keys_distinct_blobs (a b : key) :
  dated a -> dated b -> a <> b ->
  file_name (partition_of a) <> file_name (partition_of b).
Proof. intros Ha Hb Hne Heq. apply Hne. by apply file_name_inj. Qed.

Lemma distinct_keys_distinct_blobs_witness :
  let a := ("heartbeat", "20240101", "08") in
  let b := ("heartbeat", "20240101", "09") in
  dated a /\ dated b /\ a <> b
  /\ file_name (partition_of a) <> file_name (partition_of b).
Proof.
  intros a b.
  assert (dated a) as Ha by (split; reflexivity).
  assert (dated b) as Hb by (split; reflexivity).
  assert (a <> b) as Hne by discriminate.
  split; [exact Ha|]. split; [exact Hb|]. split; [exact Hne|].
  exact (distinct_keys_distinct_blobs a b Ha Hb Hne).
Defined.

(** * The tenants' writers *)

(** ** [initialize_blob_writers] and [initialize_connections] *)

(** X22: [initialize_blob_writers] binds [blob_writers] to the dict of
    [TenantBlobManager] and leaves that one as it is; once its threads have
    run, the writer of every tenant of the dict is started, with its buffer
    and its other fields as before, and has a thread named after the tenant;
    the objects no tenant refers to and the threads of other tenants are as
    they were. *)
Theorem initialize_blob_writers_starts_every_writer {S : Type}
    `{Azure.ContainerClient S} (st : App.state S) :
  let st' := App.initialize_blob_writers st in
  App.blob_writers st' = App.connections st
  /\ App.connections st' = App.connections st
  /\ (forall tenant_id ref,
        App.connections st !! tenant_id = Some ref ->
        App.objects st' !! ref = started <$> App.objects st !! ref
        /\ App.blob_threads st' !! tenant_id
           = Some {| App.name := "blobWriter-" +:+ tenant_id; App.target := ref |})
  /\ (forall ref,
        (forall tenant_id, App.connections st !! tenant_id <> Some ref) ->
        App.objects st' !! ref = App.objects st !! ref)
  /\ (forall tenant_id,
        App.connections st !! tenant_id = None ->
        App.blob_threads st' !! tenant_id = App.blob_threads st !! tenant_id)
  /\ (App.closed st -> App.closed st').
Proof.
  destruct (AppFacts.spawn_all (App.objects st) (App.blob_threads st) (App.connections st))
    as (Hsome & Hnone & Hthread & Hother & _).
  cbv zeta. unfold App.initialize_blob_writers. simpl.
  split; [done|]. split; [done|]. split; [|split; [done|split; [done|]]].
  - intros tenant_id ref Hin. split; [|by apply Hthread].
    by apply (AppFacts.initialize_objects st tenant_id).
  - intros [Hc _].
    assert (Hobj : forall tenant_id ref, App.connections st !! tenant_id = Some ref ->
              is_Some ((map_fold App.spawn (App.objects st, App.blob_threads st)
                          (App.connections st)).1 !! ref)).
    { intros tenant_id ref Hin. rewrite Hsome by eauto.
      destruct (Hc tenant_id ref Hin) as [writer ->]. by eexists. }
    split; exact Hobj.
Qed.

(** X23: [dispatch_blob_message] keeps looking tenants up in the dict that
    [initialize_blob_writers] found.  After [initialize_connections] has
    rebound the manager's dict, [get_connection] answers from the new dict,
    while a dispatch still raises [KeyError] for a tenant that only the new
    dict has, and still reaches the started writer of a tenant of the old
    one. *)
Theorem dispatch_keeps_the_dict_of_startup {S : Type} `{Azure.ContainerClient S}
    (st : App.state S) (new_connections : gmap string nat)
    (tenant_id : string) (message : pyval) :
  let st' := App.initialize_connections new_connections
               (App.initialize_blob_writers st) in
  App.blob_writers st' = App.connections st
  /\ (forall ref, new_connections !! tenant_id = Some ref ->
        App.get_connection tenant_id st' = Ok ref)
  /\ (App.connections st !! tenant_id = None ->
      App.dispatch_blob_message tenant_id message st'
      = (Raise (KeyError ("No BlobWriter for tenant " +:+ tenant_id)), st', []))
  /\ (forall ref writer,
        App.connections st !! tenant_id = Some ref ->
        App.objects st !! ref = Some writer ->
        exists st'',
          App.dispatch_blob_message tenant_id message st' = (Ok tt, st'', [])
          /\ App.objects st'' !! ref
             = Some (set_buffer (buffer writer ++ [message]) (started writer))
          /\ App.connections st'' = new_connections
          /\ App.blob_writers st'' = App.connections st).
Proof.
  cbv zeta. split; [done|]. split; [|split].
  - intros ref Hnew. unfold App.get_connection. simpl. by rewrite Hnew.
  - intros Hold. unfold App.dispatch_blob_message. simpl. by rewrite Hold.
  - intros ref writer Hold Hobj.
    assert (Hstarted := AppFacts.initialize_objects st tenant_id ref Hold).
    rewrite Hobj in Hstarted.
    assert (Hbw : App.blob_writers (App.initialize_blob_writers st) = App.connections st)
      by done.
    destruct (App.initialize_blob_writers st) as [objs conns bw threads].
    simpl in *. subst bw. unfold App.dispatch_blob_message. simpl.
    rewrite Hold, Hstarted. simpl.
    eexists. split; [reflexivity|]. simpl. by rewrite lookup_insert_eq.
Qed.

(** X24: a dispatch changes one object in place.  The message is at the end
    of the buffer of every tenant whose entry is that object, and the writers
    of the other tenants are as before; when no other tenant shares the
    object, this is the dispatch on the dict of writers. *)
Theorem dispatch_reaches_every_alias {S : Type} `{Azure.ContainerClient S}
    (st : App.state S) (tenant_id : string) (message : pyval) (ref : nat)
    (writer : BlobWriter S) :
  App.blob_writers st !! tenant_id = Some ref ->
  App.objects st !! ref = Some writer ->
  exists st',
    App.dispatch_blob_message tenant_id message st = (Ok tt, st', [])
    /\ App.blob_writers st' = App.blob_writers st
    /\ App.connections st' = App.connections st
    /\ (forall other,
          App.view st' !! other
          = if decide (App.blob_writers st !! other = Some ref)
            then Some (set_buffer (buffer writer ++ [message]) writer)
            else App.view st !! other)
    /\ ((forall other, App.blob_writers st !! other = Some ref -> other = tenant_id) ->
        Handler.dispatch_blob_message tenant_id message (App.view st)
        = (Ok tt, App.view st', [])).
Proof.
  intros Hbw Hobj. unfold App.dispatch_blob_message. rewrite Hbw, Hobj. simpl.
  eexists. split; [reflexivity|]. simpl. split; [done|]. split; [done|].
  assert (Hview : forall other,
    App.view {| App.objects := <[ref := set_buffer (buffer writer ++ [message]) writer]>
                                 (App.objects st);
                App.connections := App.connections st;
                App.blob_writers := App.blob_writers st;
                App.blob_threads := App.blob_threads st |} !! other
    = if decide (App.blob_writers st !! other = Some ref)
      then Some (set_buffer (buffer writer ++ [message]) writer)
      else App.view st !! other).
  { intros other. unfold App.view. rewrite !lookup_omap. simpl.
    destruct (App.blob_writers st !! other) as [ref'|] eqn:Hother; simpl.
    - destruct (decide (Some ref' = Some ref)) as [[= ->]|Hne].
      + by rewrite lookup_insert_eq.
      + rewrite lookup_insert_ne; [done|]. by intros ->.
    - by destruct (decide (None = Some ref)). }
  split; [exact Hview|]. intros Hinj.
  unfold Handler.dispatch_blob_message.
  assert (Hv : App.view st !! tenant_id = Some writer).
  { unfold App.view. rewrite lookup_omap, Hbw. simpl. done. }
  rewrite Hv. simpl. f_equal. f_equal. apply map_eq. intros other.
  rewrite Hview. destruct (decide (other = tenant_id)) as [->|Hne].
  - rewrite lookup_insert_eq.
    by destruct (decide (App.blob_writers st !! tenant_id = Some ref)).
  - rewrite lookup_insert_ne by done.
    destruct (decide (App.blob_writers st !! other = Some ref)) as [Hal|]; [|done].
    by destruct (Hne (Hinj other Hal)).
Qed.

Lemma dispatch_reaches_every_alias_witness :
  let st := Fixtures.shared in
  App.blob_writers st !! "acme" = Some 0
  /\ App.objects st !! 0 = Some Fixtures.acme
  /\ exists st',
      App.dispatch_blob_message "acme" second st = (Ok tt, st', [])
      /\ App.blob_writers st' = App.blob_writers st
      /\ App.connections st' = App.connections st
      /\ (forall other,
            App.view st' !! other
            = if decide (App.blob_writers st !! other = Some 0)
              then Some (set_buffer (buffer Fixtures.acme ++ [second]) Fixtures.acme)
              else App.view st !! other)
      /\ ((forall other, App.blob_writers st !! other = Some 0 -> other = "acme") ->
          Handler.dispatch_blob_message "acme" second (App.view st)
          = (Ok tt, App.view st', [])).
Proof.
  intros st.
  assert (App.blob_writers st !! "acme" = Some 0) as Hbw by reflexivity.
  assert (App.objects st !! 0 = Some Fixtures.acme) as Hobj by reflexivity.
  split; [exact Hbw|]. split; [exact Hobj|].
  exact (dispatch_reaches_every_alias st "acme" second 0 Fixtures.acme Hbw Hobj).
Defined.

(** ** [process_message] *)

(** X25: [process_message] returns [True] exactly for a message that is a
    dict with the three required fields, whose timestamp [arrow.get] parses
    and whose tenant has a writer; then the value of its [data] field, or
    [None] when it has none, is at the end of that writer's buffer and
    nothing else has changed.  In every other case it returns [False], has
    logged something, and has left every writer as it was. *)
Theorem process_message_accepts_exactly {S : Type} `{Azure.ContainerClient S}
    (arrow_get : pyval -> result unit) (message : pyval)
    (blob_writers : gmap string (BlobWriter S)) :
  match Main.process_message arrow_get message blob_writers with
  | (true, blob_writers', out) =>
      exists tenant_id writer data,
        Main.accepts arrow_get message blob_writers tenant_id writer data
        /\ blob_writers'
           = <[tenant_id := set_buffer (buffer writer ++ [data]) writer]> blob_writers
  | (false, blob_writers', out) =>
      blob_writers' = blob_writers
      /\ out <> []
      /\ ~ exists tenant_id writer data,
             Main.accepts arrow_get message blob_writers tenant_id writer data
  end.
Proof.
  destruct message as [| | |s|l|d].
  1-5: (match goal with
        | |- context [Main.process_message _ ?m _] =>
            destruct (MainFacts.try_body_not_dict arrow_get m blob_writers)
              as (e & out & Hrun); [done|]
        end;
        unfold Main.process_message; rewrite Hrun;
        split; [done|]; split; [by destruct out|];
        by intros (? & ? & ? & ? & ? & ? & _)).
  destruct (dict_get "tenant_id" d) as [tenant_id|] eqn:Ht; cycle 1.
  { unfold Main.process_message, Main.try_body.
    rewrite MainFacts.check_fields_dict, Ht. split; [done|]. split; [done|].
    intros (? & ? & ? & d' & ? & [= <-] & Ht' & _). by rewrite Ht in Ht'. }
  destruct (dict_get "asset_id" d) as [asset|] eqn:Ha; cycle 1.
  { unfold Main.process_message, Main.try_body.
    rewrite MainFacts.check_fields_dict, Ht, Ha. split; [done|]. split; [done|].
    intros (? & ? & ? & d' & ? & [= <-] & _ & [? Ha'] & _). by rewrite Ha in Ha'. }
  destruct (dict_get "timestamp" d) as [timestamp|] eqn:Hts; cycle 1.
  { unfold Main.process_message, Main.try_body.
    rewrite MainFacts.check_fields_dict, Ht, Ha, Hts. split; [done|]. split; [done|].
    intros (? & ? & ? & d' & ? & [= <-] & _ & _ & Hts' & _). by rewrite Hts in Hts'. }
  destruct (arrow_get timestamp) as [[]|e] eqn:Harrow; cycle 1.
  { unfold Main.process_message, Main.try_body.
    rewrite MainFacts.check_fields_dict, Ht, Ha, Hts. unfold Main.processing. simpl.
    rewrite Ht, Ha, Hts. simpl. rewrite Harrow.
    assert (Hno : ~ exists tenant_id writer data,
                      Main.accepts arrow_get (PyDict d) blob_writers tenant_id writer data).
    { intros (? & ? & ? & d' & ts & [= <-] & _ & _ & Hts' & Harrow' & _).
      rewrite Hts in Hts'. injection Hts' as <-. by rewrite Harrow in Harrow'. }
    destruct (Main.value_or_type_error e); (split; [done|]; split; [done|exact Hno]). }
  destruct (MainFacts.process_message_dict arrow_get d blob_writers tenant_id timestamp)
    as [entry Hrun]; [done|by rewrite Ha|done|done|].
  rewrite Hrun. clear Hrun.
  destruct tenant_id as [| | |s| |].
  5,6: (simpl; split; [done|]; split; [done|];
        intros (? & ? & ? & d' & ? & [= <-] & Ht' & _); by rewrite Ht in Ht').
  1-3: (simpl; split; [done|]; split; [done|];
        intros (? & ? & ? & d' & ? & [= <-] & Ht' & _); by rewrite Ht in Ht').
  destruct (blob_writers !! s) as [writer|] eqn:Hw.
  - rewrite (MainFacts.dispatch_found s _ blob_writers writer Hw).
    exists s, writer, (default PyNone (dict_get "data" d)). split; [|done].
    exists d, timestamp. by rewrite Ha.
  - unfold Main.dispatch, Handler.dispatch_blob_message. rewrite Hw.
    split; [done|]. split; [done|].
    intros (? & ? & ? & d' & ? & [= <-] & Ht' & _ & _ & _ & Hw' & _).
    rewrite Ht in Ht'. injection Ht' as <-. by rewrite Hw in Hw'.
Qed.

(** X26: a message that passes the validation for a tenant without a writer
    is not handed on: [process_message] returns [False], changes no writer,
    and the [KeyError] of the dispatch is logged by the handler for missing
    fields. *)
Theorem unknown_tenant_is_logged_as_missing_field {S : Type} `{Azure.ContainerClient S}
    (arrow_get : pyval -> result unit) (d : list (string * pyval))
    (blob_writers : gmap string (BlobWriter S)) (tenant_id : string)
    (timestamp : pyval) :
  dict_get "tenant_id" d = Some (PyStr tenant_id) ->
  is_Some (dict_get "asset_id" d) ->
  dict_get "timestamp" d = Some timestamp ->
  arrow_get timestamp = Ok tt ->
  blob_writers !! tenant_id = None ->
  exists entry,
    Main.process_message arrow_get (PyDict d) blob_writers
    = (false, blob_writers,
       [entry;
        Main.LogMissingField (KeyError ("No BlobWriter for tenant " +:+ tenant_id))]).
Proof.
  intros Ht Ha Hts Harrow Hw.
  destruct (MainFacts.process_message_dict arrow_get d blob_writers _ timestamp
              Ht Ha Hts Harrow) as [entry Hrun].
  exists entry. rewrite Hrun. unfold Main.dispatch, Handler.dispatch_blob_message.
  by rewrite Hw.
Qed.

Lemma unknown_tenant_is_logged_as_missing_field_witness :
  let d := [("tenant_id", PyStr "zeta"); ("asset_id", PyInt 7);
            ("timestamp", PyStr "2024-01-01T08:15:00Z")] in
  dict_get "tenant_id" d = Some (PyStr "zeta")
  /\ is_Some (dict_get "asset_id" d)
  /\ dict_get "timestamp" d = Some (PyStr "2024-01-01T08:15:00Z")
  /\ Fixtures.parses_str (PyStr "2024-01-01T08:15:00Z") = Ok tt
  /\ Fixtures.tenants !! "zeta" = None
  /\ exists entry,
      Main.process_message Fixtures.parses_str (PyDict d) Fixtures.tenants
      = (false, Fixtures.tenants,
         [entry; Main.LogMissingField (KeyError "No BlobWriter for tenant zeta")]).
Proof.
  intros d.
  assert (dict_get "tenant_id" d = Some (PyStr "zeta")) as Ht by reflexivity.
  assert (is_Some (dict_get "asset_id" d)) as Ha by (eexists; reflexivity).
  assert (dict_get "timestamp" d = Some (PyStr "2024-01-01T08:15:00Z")) as Hts
    by reflexivity.
  assert (Fixtures.parses_str (PyStr "2024-01-01T08:15:00Z") = Ok tt) as Harrow
    by reflexivity.
  assert (Fixtures.tenants !! "zeta" = None) as Hw by reflexivity.
  split; [exact Ht|]. split; [exact Ha|]. split; [exact Hts|]. split; [exact Harrow|].
  split; [exact Hw|].
  exact (unknown_tenant_is_logged_as_missing_field Fixtures.parses_str d
           Fixtures.tenants "zeta" (PyStr "2024-01-01T08:15:00Z") Ht Ha Hts Harrow Hw).
Defined.

(** X27: what [process_message] checks is the message, not the record it
    hands on.  When the [data] of an accepted message cannot be read by the
    writer, as is the [None] of a message without [data], the message is
    accepted all the same, and the next flush of that tenant's writer raises
    the record's exception and writes nothing of what the buffer held. *)
Theorem accepted_message_can_break_the_next_flush {S : Type} `{Azure.ContainerClient S}
    (arrow_get : pyval -> result unit) (message : pyval)
    (blob_writers : gmap string (BlobWriter S)) (tenant_id : string)
    (writer : BlobWriter S) (data : pyval) (e : exn) :
  Main.accepts arrow_get message blob_writers tenant_id writer data ->
  Forall has_fields (buffer writer) ->
  item_fields data = Raise e ->
  exists writer',
    (Main.process_message arrow_get message blob_writers).1.1 = true
    /\ (Main.process_message arrow_get message blob_writers).1.2 !! tenant_id
       = Some writer'
    /\ buffer writer' = buffer writer ++ [data]
    /\ write_buffer_to_blob writer' = (Raise e, set_buffer [] writer, []).
Proof.
  intros (d & timestamp & -> & Ht & Ha & Hts & Harrow & Hw & ->) Hall Hbad.
  destruct (MainFacts.process_message_dict arrow_get d blob_writers _ timestamp
              Ht Ha Hts Harrow) as [entry Hrun].
  rewrite Hrun, (MainFacts.dispatch_found tenant_id _ blob_writers writer Hw). simpl.
  eexists. split; [done|]. split; [by rewrite lookup_insert_eq|]. split; [done|].
  set (item := default PyNone (dict_get "data" d)) in *.
  rewrite (write_buffer_to_blob_raise _ e); [done|].
  simpl. rewrite <- (app_nil_r [item]). simpl. by apply process_loop_raise.
Qed.

Lemma accepted_message_can_break_the_next_flush_witness :
  Main.accepts Fixtures.parses_str Fixtures.bare_message Fixtures.tenants
    "acme" Fixtures.acme PyNone
  /\ Forall has_fields (buffer Fixtures.acme)
  /\ item_fields PyNone = Raise TypeError
  /\ exists writer',
      (Main.process_message Fixtures.parses_str Fixtures.bare_message
         Fixtures.tenants).1.1 = true
      /\ (Main.process_message Fixtures.parses_str Fixtures.bare_message
            Fixtures.tenants).1.2 !! "acme"
         = Some writer'
      /\ buffer writer' = buffer Fixtures.acme ++ [PyNone]
      /\ write_buffer_to_blob writer' = (Raise TypeError, set_buffer [] Fixtures.acme, []).
Proof.
  assert (Main.accepts Fixtures.parses_str Fixtures.bare_message Fixtures.tenants
            "acme" Fixtures.acme PyNone) as Hacc.
  { eexists _, (PyStr "2024-01-01T08:15:00Z"). split; [reflexivity|].
    split; [reflexivity|]. split; [eexists; reflexivity|]. split; [reflexivity|].
    split; [reflexivity|]. split; reflexivity. }
  assert (Forall has_fields (buffer Fixtures.acme)) as Hall.
  { repeat constructor; eexists; reflexivity. }
  assert (item_fields PyNone = Raise TypeError) as Hbad by reflexivity.
  split; [exact Hacc|]. split; [exact Hall|]. split; [exact Hbad|].
  exact (accepted_message_can_break_the_next_flush Fixtures.parses_str
           Fixtures.bare_message Fixtures.tenants "acme" Fixtures.acme PyNone TypeError
           Hacc Hall Hbad).
Defined.
